(** * EchoPilot: review ingestion and keyword sentiment classification

    A shallow embedding of the two edge functions
    [supabase/functions/analyze-sentiment/index.ts] and
    [supabase/functions/fetch-reviews/index.ts], together with the part of the
    relational schema they write to, and the properties of the pipeline
    specification checked against them.

    JavaScript numbers are IEEE 754 binary64 values: they are embedded as Rocq's
    primitive [float], so every arithmetic step and comparison below is the
    one the runtime performs.  Counters and array lengths, which only ever
    hold small non-negative integers, are kept as [nat] and injected with
    [num_of_nat] where they enter an arithmetic expression. *)

From Stdlib Require Import ZArith List String Ascii Bool Lia.
From Stdlib Require Import Floats Uint63.
From Stdlib Require Import DecimalString DecimalZ.
Import ListNotations.

Set Warnings "-inexact-float".

(* ================================================================== *)
(** ** Runtime primitives *)
(* ================================================================== *)

Module JS.

Local Open Scope float_scope.

Definition number := float.

(** Injection of a counter into the numbers. *)
Definition num_of_nat (n : nat) : number :=
  PrimFloat.of_uint63 (Uint63.of_Z (Z.of_nat n)).

(** Comparisons as propositions. *)
Definition num_lt (x y : number) : Prop := (x <? y) = true.
Definition num_le (x y : number) : Prop := (x <=? y) = true.

Arguments num_lt (x y)%_float_scope.
Arguments num_le (x y)%_float_scope.

(** [Math.min] and [Math.max] on two arguments: NaN is contagious and
    [-0] is smaller than [+0]. *)
Definition Math_min (a b : number) : number :=
  if is_nan a || is_nan b then nan
  else if a <? b then a
  else if b <? a then b
  else if get_sign a then a else b.

Definition Math_max (a b : number) : number :=
  if is_nan a || is_nan b then nan
  else if a <? b then b
  else if b <? a then a
  else if get_sign a then b else a.

Definition Math_abs (a : number) : number := PrimFloat.abs a.

(** [Math.floor]: the largest integer not above the argument; NaN, the
    infinities and the zeros are returned unchanged. *)
Definition Math_floor (a : number) : number :=
  match Prim2SF a with
  | S754_finite s m e =>
      if (0 <=? e)%Z then a
      else
        let q := Z.shiftr (Zpos m) (- e) in
        let exact := (Z.shiftl q (- e) =? Zpos m)%Z in
        if s then
          - PrimFloat.of_uint63 (Uint63.of_Z (if exact then q else q + 1))
        else PrimFloat.of_uint63 (Uint63.of_Z q)
  | _ => a
  end.

(** Strings.  A text is the sequence of its UTF-16 code units; the model
    covers the texts whose code units are below 256 (Basic Latin and the
    Latin-1 Supplement), one [ascii] per code unit. *)

(** [String.prototype.toLowerCase] on one code unit: A-Z and the Latin-1
    capitals U+00C0..U+00DE (U+00D7, the multiplication sign, apart) move
    up by 32; every other unit below 256 is its own lower case. *)
Definition lower_unit (c : ascii) : ascii :=
  let n := nat_of_ascii c in
  if ((65 <=? n) && (n <=? 90))%nat
     || ((192 <=? n) && (n <=? 222) && negb (n =? 215))%nat
  then ascii_of_nat (n + 32)
  else c.

Fixpoint toLowerCase (s : string) : string :=
  match s with
  | EmptyString => EmptyString
  | String c r => String (lower_unit c) (toLowerCase r)
  end.

(** [s.includes(w)]: [w] occurs in [s] as a contiguous substring. *)
Fixpoint includes (s w : string) : bool :=
  String.prefix w s
  || match s with
     | EmptyString => false
     | String _ r => includes r w
     end.

(** [s.split(sep)] for a one-unit separator: never empty, one more
    piece than there are separators. *)
Fixpoint split_from (sep : ascii) (s cur : string) : list string :=
  match s with
  | EmptyString => [cur]
  | String c r =>
      if Ascii.eqb c sep then cur :: split_from sep r EmptyString
      else split_from sep r (cur ++ String c EmptyString)
  end.

Definition split (sep : ascii) (s : string) : list string :=
  split_from sep s EmptyString.

(** [s.split(/[.!?]+/)]: the separators are the maximal runs of sentence
    terminators; a run at either end leaves an empty piece there. *)
Definition is_terminator (c : ascii) : bool :=
  Ascii.eqb c "." || Ascii.eqb c "!" || Ascii.eqb c "?".

Fixpoint split_runs_from (s cur : string) (inrun : bool) : list string :=
  match s with
  | EmptyString => [cur]
  | String c r =>
      if is_terminator c then
        if inrun then split_runs_from r cur true
        else cur :: split_runs_from r EmptyString true
      else split_runs_from r (cur ++ String c EmptyString) false
  end.

Definition split_terminators (s : string) : list string :=
  split_runs_from s EmptyString false.

(** [s.trim()]: white space and line terminators below 256 are TAB, LF,
    VT, FF, CR, SPACE and NBSP. *)
Definition is_space (c : ascii) : bool :=
  let n := nat_of_ascii c in
  ((9 <=? n) && (n <=? 13) || (n =? 32) || (n =? 160))%nat.

Fixpoint trimStart (s : string) : string :=
  match s with
  | EmptyString => EmptyString
  | String c r => if is_space c then trimStart r else s
  end.

(** Removes trailing white space: a unit is dropped when it is white
    space and everything after it has been dropped. *)
Fixpoint trimEnd (s : string) : string :=
  match s with
  | EmptyString => EmptyString
  | String c r =>
      match trimEnd r with
      | EmptyString => if is_space c then EmptyString
                       else String c EmptyString
      | r' => String c r'
      end
  end.

Definition trim (s : string) : string := trimEnd (trimStart s).

(** A [Set] of strings in insertion order: [add] of a present element
    leaves the set as it is. *)
Definition set_add (x : string) (s : list string) : list string :=
  if existsb (String.eqb x) s then s else s ++ [x].

End JS.


(* ================================================================== *)
(** ** The classification engine (analyze-sentiment/index.ts) *)
(* ================================================================== *)

Module Engine.

Import JS.
Local Open Scope string_scope.

Inductive Sentiment : Set := positive | negative | neutral.

Definition Sentiment_eqb (a b : Sentiment) : bool :=
  match a, b with
  | positive, positive | negative, negative | neutral, neutral => true
  | _, _ => false
  end.

Record AnalysisMetadata : Set := {
  language : string;
  model_version : string;
  processing_time_ms : number;
  positive_words_found : nat;
  negative_words_found : nat;
  total_words_analyzed : nat
}.

Record SentimentResult : Set := {
  overall_sentiment : Sentiment;
  sentiment_score : number;
  confidence_score : number;
  key_topics : list string;
  key_phrases : list string;
  analysis_metadata : AnalysisMetadata
}.

Definition positiveWords : list string :=
  [ "amazing"; "excellent"; "great"; "good"; "wonderful"; "fantastic";
    "outstanding"; "perfect"; "love"; "enjoy"; "delicious"; "friendly";
    "helpful"; "professional"; "quick"; "fast"; "clean"; "beautiful";
    "comfortable"; "recommend"; "best" ].

Definition negativeWords : list string :=
  [ "terrible"; "awful"; "horrible"; "bad"; "poor"; "disappointing";
    "worst"; "hate"; "disgusting"; "rude"; "slow"; "dirty"; "expensive";
    "overpriced"; "cold"; "burnt"; "wrong"; "broken"; "uncomfortable";
    "avoid"; "never" ].

(** [words.forEach(word => { if (textLower.includes(word)) count++ })]
    from a counter at 0. *)
Definition countHits (textLower : string) (words : list string) : nat :=
  fold_left
    (fun count word => if includes textLower word then S count else count)
    words 0.

Definition topicKeywords : list (string * list string) :=
  [ ("service", ["service"; "staff"; "employee"; "server"; "waiter";
                 "waitress"; "cashier"]);
    ("food", ["food"; "meal"; "dish"; "cuisine"; "cooking"; "chef";
              "kitchen"]);
    ("coffee", ["coffee"; "espresso"; "latte"; "cappuccino"; "brew";
                "bean"]);
    ("atmosphere", ["atmosphere"; "ambiance"; "environment"; "decor";
                    "music"; "lighting"]);
    ("price", ["price"; "cost"; "expensive"; "cheap"; "affordable";
               "value"; "worth"]);
    ("location", ["location"; "place"; "area"; "neighborhood"; "parking";
                  "access"]);
    ("cleanliness", ["clean"; "dirty"; "hygiene"; "sanitary"; "messy";
                     "tidy"]);
    ("speed", ["fast"; "slow"; "quick"; "wait"; "time"; "efficient";
               "delayed"]) ].

Definition extractKeyTopics (text : string) : list string :=
  let textLower := toLowerCase text in
  fold_left
    (fun topics entry =>
       let '(topic, keywords) := entry in
       fold_left
         (fun topics keyword =>
            if includes textLower keyword then set_add topic topics
            else topics)
         keywords topics)
    topicKeywords [].

Definition extractKeyPhrases (text : string) : list string :=
  let sentences :=
    filter (fun s => (0 <? String.length (trim s))%nat)
           (split_terminators text) in
  let phrases :=
    fold_left
      (fun phrases sentence =>
         let words := split " " (trim sentence) in
         if ((3 <=? List.length words) && (List.length words <=? 8))%nat
         then (phrases ++ [trim sentence])%list
         else phrases)
      sentences [] in
  firstn 5 phrases.

(** [analyzeSentiment]; [random] is the value the call draws from
    [Math.random()]. *)
Definition analyzeSentiment (random : number) (text : string)
  : SentimentResult :=
  let textLower := toLowerCase text in
  let positiveCount := countHits textLower positiveWords in
  let negativeCount := countHits textLower negativeWords in
  let totalWords :=
    (num_of_nat positiveCount + num_of_nat negativeCount)%float in
  let '(sentimentScore, overallSentiment) :=
    if (0 <? totalWords)%float then
      let s := ((num_of_nat positiveCount - num_of_nat negativeCount)
                / totalWords)%float in
      (s, if (0.2 <? s)%float then positive
          else if (s <? -0.2)%float then negative
          else neutral)
    else (0%float, neutral) in
  let keyTopics := extractKeyTopics text in
  let keyPhrases := extractKeyPhrases text in
  {| overall_sentiment := overallSentiment;
     sentiment_score :=
       Math_max (-1)%float (Math_min 1%float sentimentScore);
     confidence_score :=
       Math_min 0.95%float (0.5 + Math_abs sentimentScore * 0.3)%float;
     key_topics := keyTopics;
     key_phrases := keyPhrases;
     analysis_metadata :=
       {| language := "en";
          model_version := "1.0";
          processing_time_ms :=
            (Math_floor (random * 200) + 100)%float;
          positive_words_found := positiveCount;
          negative_words_found := negativeCount;
          total_words_analyzed := List.length (split " " text) |} |}.

Arguments analyzeSentiment random%_float_scope text%_string_scope.

(** A row of [review_tags] as [generateReviewTags] builds it, before the
    review identifier is attached. *)
Record ReviewTag : Set := {
  tag_name : string;
  tag_category : string;
  tag_confidence_score : number
}.

(** The body of the [forEach] over [key_topics]: the [switch] on the
    topic, then the pushed tag. *)
Definition tagOfTopic (sentimentResult : SentimentResult) (topic : string)
  : ReviewTag :=
  let isPositive :=
    Sentiment_eqb (overall_sentiment sentimentResult) positive in
  let '(category, tagName) :=
    if (topic =? "service") || (topic =? "staff") then
      ("staff", if isPositive then "friendly staff" else "poor service")
    else if (topic =? "food") || (topic =? "coffee") then
      ("product", if isPositive then "quality food" else "poor food")
    else if topic =? "atmosphere" then
      ("ambiance",
       if isPositive then "good atmosphere" else "poor atmosphere")
    else if topic =? "price" then
      ("value", if isPositive then "good value" else "overpriced")
    else if topic =? "speed" then
      ("service", if isPositive then "fast service" else "slow service")
    else ("other", topic) in
  {| tag_name := tagName;
     tag_category := category;
     tag_confidence_score := confidence_score sentimentResult |}.

(** The [tags] array of [generateReviewTags]. *)
Definition reviewTags (sentimentResult : SentimentResult)
  : list ReviewTag :=
  fold_left
    (fun tags topic => (tags ++ [tagOfTopic sentimentResult topic])%list)
    (key_topics sentimentResult) [].

End Engine.

(* ================================================================== *)
(** ** The relational store (the tables of the schema the functions use) *)
(* ================================================================== *)

Module Store.

Import JS.
Local Open Scope string_scope.

(** The functions connect with the service role key, which the row-level
    policies of the schema do not restrict.  Of every table the model
    keeps the columns the functions read or write and the constraints
    declared on them.  A column of type TIMESTAMP WITH TIME ZONE or
    DECIMAL(3,2) takes a value as its type does, refusing or rounding
    it; a TEXT column is taken to hold every text of the model.  The columns
    [created_at] and [updated_at] are left out, and with them the triggers
    [update_businesses_updated_at] and [update_reviews_updated_at], which
    set [updated_at] to the time of the statement whenever a row of
    [businesses] or [reviews] is updated: nothing below speaks of these
    two columns. *)

(** Primary keys.  The schema draws them with [uuid_generate_v4()]; the
    model draws them from a counter kept in the store. *)
Definition uuid := nat.

Inductive ProcessingStatus : Set := pending | processing | completed | failed.

(** What a rejected statement reports: the column whose type does not
    take the value, or the violated constraint. *)
Inductive StoreError : Set :=
| invalid_datetime_format (column : string)
| numeric_value_out_of_range (column : string)
| not_null_violation (column : string)
| check_violation (constraint : string)
| unique_violation (constraint : string)
| foreign_key_violation (constraint : string).

(** [public.businesses], the columns the functions read or write.  A
    timestamp is held as its epoch milliseconds, what
    [new Date(column).getTime()] gives back. *)
Module Business.
Record t : Set := {
  id : uuid;
  google_place_id : option string;
  yelp_business_id : option string;
  last_review_fetch : option number
}.
End Business.

(** [public.reviews].  The date of a review is kept as the text it was
    inserted with; the functions never read it back. *)
Module Review.
Record t : Set := {
  id : uuid;
  business_id : uuid;
  platform : string;
  platform_review_id : string;
  reviewer_name : string;
  reviewer_avatar : option string;
  rating : Z;
  review_text : string;
  review_date : string;
  review_url : string;
  is_processed : bool;
  processing_status : ProcessingStatus
}.

Definition with_status (p : option bool) (s : ProcessingStatus) (r : t) : t :=
  {| id := id r; business_id := business_id r; platform := platform r;
     platform_review_id := platform_review_id r;
     reviewer_name := reviewer_name r;
     reviewer_avatar := reviewer_avatar r; rating := rating r;
     review_text := review_text r; review_date := review_date r;
     review_url := review_url r;
     is_processed := match p with Some b => b | None => is_processed r end;
     processing_status := s |}.
End Review.

(** DECIMAL(3,2).  A number travels to the store as the text
    [JSON.stringify] writes for it: [null] for NaN and the infinities,
    otherwise the shortest decimal that reads back as the same number.
    The column rounds that decimal to two places, halves away from zero,
    and holds magnitudes below 10.  What it holds is kept as a whole
    number of hundredths. *)
Inductive Decimal : Set :=
| decimal_null
| decimal_value (hundredths : Z)
| decimal_out_of_range.

(** For a finite [x] of magnitude [m * 2^e], let [k] be the whole
    hundredths in that magnitude.  The texts that read back as [x] end at
    [(2m+1) * 2^(e-1)], half-way to the next number (the end itself reads
    back as [x] when [m] is even).  The shortest of them rounds up to
    [k+1] hundredths exactly when the half-way decimal [(2k+1)/200] is
    among them or below them: a decimal of three places among them is the
    shortest one. *)
Definition to_decimal_3_2 (x : number) : Decimal :=
  match Prim2SF x with
  | S754_nan => decimal_null
  | S754_infinity _ => decimal_null
  | S754_zero _ => decimal_value 0
  | S754_finite s m e =>
      if (0 <=? e)%Z then decimal_out_of_range
      else
        let k := Z.shiftr (100 * Zpos m) (- e) in
        let half := Z.shiftl (2 * k + 1) (1 - e) in
        let top := (200 * (2 * Zpos m + 1))%Z in
        let up := (half <? top)%Z || ((half =? top)%Z && Z.even (Zpos m)) in
        let h := if up then (k + 1)%Z else k in
        if (1000 <=? h)%Z then decimal_out_of_range
        else decimal_value (if s then (- h)%Z else h)
  end.

(** A decimal of the store read back as a number: [JSON.parse] of its
    text, the number nearest to it. *)
Definition read_decimal (hundredths : Z) : number :=
  let magnitude :=
    (PrimFloat.of_uint63 (Uint63.of_Z (Z.abs hundredths)) / 100)%float in
  if (hundredths <? 0)%Z then (- magnitude)%float else magnitude.

(** [public.sentiment_analysis]: a row holds the inserted result with its
    key and its review, the score and the confidence as the DECIMAL(3,2)
    columns give them back. *)
Module SentimentRow.
Record t : Set := {
  id : uuid;
  review_id : uuid;
  result : Engine.SentimentResult
}.
End SentimentRow.

(** [public.review_tags]; [confidence_score] may be NULL. *)
Module TagRow.
Record t : Set := {
  id : uuid;
  review_id : uuid;
  tag_name : string;
  tag_category : string;
  confidence_score : option number
}.
End TagRow.

(** The tables, the counter of the primary keys, and the input function of
    TIMESTAMP WITH TIME ZONE as far as the functions meet it: whether the
    server takes a text as a timestamp.  It depends on the settings of the
    server, not on the rows, and no statement changes it. *)
Record DB : Set := {
  businesses : list Business.t;
  reviews : list Review.t;
  sentiment_analysis : list SentimentRow.t;
  review_tags : list TagRow.t;
  next_uuid : uuid;
  timestamptz_in : string -> bool
}.

(** [.single()]: the row when exactly one row is selected, otherwise no
    data. *)
Definition single {A : Type} (rows : list A) : option A :=
  match rows with
  | [row] => Some row
  | _ => None
  end.

(** [from('businesses').select('*').eq('id', id).single()] *)
Definition select_business (db : DB) (id : uuid) : option Business.t :=
  single (filter (fun b => Business.id b =? id)%nat (businesses db)).

(** The dedup key of a row: (business, platform, platform review id). *)
Definition has_key (businessId : uuid) (platform platformReviewId : string)
           (r : Review.t) : bool :=
  (Review.business_id r =? businessId)%nat
  && (Review.platform r =? platform)
  && (Review.platform_review_id r =? platformReviewId).

(** [from('reviews').select('id').eq('business_id', ..).eq('platform', ..)
    .eq('platform_review_id', ..).single()] *)
Definition select_review (db : DB) (businessId : uuid)
           (platform platformReviewId : string) : option Review.t :=
  single (filter (has_key businessId platform platformReviewId) (reviews db)).

Definition platforms : list string :=
  ["google"; "yelp"; "facebook"; "tripadvisor"].

(** What [public.reviews] can hold against a candidate row, in the order
    the store finds it: the text of [review_date] is not a timestamp, one
    of the two CHECKs fails, the UNIQUE key is taken, the business is not
    on record. *)
Definition review_violation (db : DB) (row : Review.t) : option StoreError :=
  if negb (timestamptz_in db (Review.review_date row)) then
    Some (invalid_datetime_format "review_date")
  else if negb (existsb (String.eqb (Review.platform row)) platforms) then
    Some (check_violation "reviews_platform_check")
  else if negb ((1 <=? Review.rating row)%Z && (Review.rating row <=? 5)%Z) then
    Some (check_violation "reviews_rating_check")
  else if existsb (has_key (Review.business_id row) (Review.platform row)
                           (Review.platform_review_id row)) (reviews db) then
    Some (unique_violation
            "reviews_business_id_platform_platform_review_id_key")
  else if negb (existsb (fun b => Business.id b =? Review.business_id row)%nat
                        (businesses db)) then
    Some (foreign_key_violation "reviews_business_id_fkey")
  else None.

(** The store with one more row of [reviews], the counter moved on. *)
Definition add_review (db : DB) (row : Review.t) : DB :=
  {| businesses := businesses db;
     reviews := reviews db ++ [row];
     sentiment_analysis := sentiment_analysis db;
     review_tags := review_tags db;
     next_uuid := S (next_uuid db);
     timestamptz_in := timestamptz_in db |}.

(** [from('reviews').insert(values).select().single()]: [values] gives
    every column but the key.  The answer is the error, or the store with
    the new row and the row itself. *)
Definition insert_review (db : DB) (values : uuid -> Review.t)
  : StoreError + DB * Review.t :=
  let row := values (next_uuid db) in
  match review_violation db row with
  | Some e => inl e
  | None => inr (add_review db row, row)
  end.

(** The number of stored reviews with a given dedup key. *)
Definition rows_with_key (db : DB) (businessId : uuid)
           (platform platformReviewId : string) : nat :=
  List.length
    (filter (has_key businessId platform platformReviewId) (reviews db)).

(** [from('reviews').update({is_processed?, processing_status})
    .eq('id', id)]: of the columns kept, the two status columns of the
    rows with that key. *)
Definition update_review (db : DB) (id : uuid) (p : option bool)
           (s : ProcessingStatus) : DB :=
  {| businesses := businesses db;
     reviews :=
       map (fun r => if (Review.id r =? id)%nat
                     then Review.with_status p s r else r)
           (reviews db);
     sentiment_analysis := sentiment_analysis db;
     review_tags := review_tags db;
     next_uuid := next_uuid db;
     timestamptz_in := timestamptz_in db |}.

(** [from('businesses').update({last_review_fetch}).eq('id', id)]: of
    the columns kept, [last_review_fetch] of the rows with that key. *)
Definition update_last_review_fetch (db : DB) (id : uuid) (stamp : number)
  : DB :=
  {| businesses :=
       map (fun b => if (Business.id b =? id)%nat
                     then {| Business.id := Business.id b;
                             Business.google_place_id :=
                               Business.google_place_id b;
                             Business.yelp_business_id :=
                               Business.yelp_business_id b;
                             Business.last_review_fetch := Some stamp |}
                     else b)
           (businesses db);
     reviews := reviews db;
     sentiment_analysis := sentiment_analysis db;
     review_tags := review_tags db;
     next_uuid := next_uuid db;
     timestamptz_in := timestamptz_in db |}.

(** The result as [public.sentiment_analysis] holds it, or what the table
    holds against it, in the order the store finds it: a number out of
    the range of the type (the row is typed before it is stored), a NULL,
    one of the two range CHECKs (they are tried by name, the one on the
    confidence first), the reference to [reviews]. *)
Definition sentiment_violation (db : DB) (reviewId : uuid)
           (r : Engine.SentimentResult)
  : StoreError + Engine.SentimentResult :=
  match to_decimal_3_2 (Engine.sentiment_score r),
        to_decimal_3_2 (Engine.confidence_score r) with
  | decimal_out_of_range, _ =>
      inl (numeric_value_out_of_range "sentiment_score")
  | _, decimal_out_of_range =>
      inl (numeric_value_out_of_range "confidence_score")
  | decimal_null, _ => inl (not_null_violation "sentiment_score")
  | _, decimal_null => inl (not_null_violation "confidence_score")
  | decimal_value score, decimal_value confidence =>
      if negb ((0 <=? confidence)%Z && (confidence <=? 100)%Z) then
        inl (check_violation "sentiment_analysis_confidence_score_check")
      else if negb ((-100 <=? score)%Z && (score <=? 100)%Z) then
        inl (check_violation "sentiment_analysis_sentiment_score_check")
      else if negb (existsb (fun x => Review.id x =? reviewId)%nat
                            (reviews db)) then
        inl (foreign_key_violation "sentiment_analysis_review_id_fkey")
      else
        inr {| Engine.overall_sentiment := Engine.overall_sentiment r;
               Engine.sentiment_score := read_decimal score;
               Engine.confidence_score := read_decimal confidence;
               Engine.key_topics := Engine.key_topics r;
               Engine.key_phrases := Engine.key_phrases r;
               Engine.analysis_metadata := Engine.analysis_metadata r |}
  end.

(** [from('sentiment_analysis').insert(values).select().single()]: the
    answer is the error, or the store with the new row and the row as
    the table holds it. *)
Definition insert_sentiment (db : DB) (reviewId : uuid)
           (r : Engine.SentimentResult) : StoreError + DB * SentimentRow.t :=
  match sentiment_violation db reviewId r with
  | inl e => inl e
  | inr stored =>
      let row := {| SentimentRow.id := next_uuid db;
                    SentimentRow.review_id := reviewId;
                    SentimentRow.result := stored |} in
      inr ({| businesses := businesses db;
              reviews := reviews db;
              sentiment_analysis := sentiment_analysis db ++ [row];
              review_tags := review_tags db;
              next_uuid := S (next_uuid db);
              timestamptz_in := timestamptz_in db |}, row)
  end.

Definition tag_categories : list string :=
  ["service"; "product"; "ambiance"; "staff"; "value"; "other"].

(** What [public.review_tags] holds against one row: a category outside
    the CHECK, a confidence out of the range of the type or of the CHECK
    (a NULL passes), a review that is not on record. *)
Definition tag_violation (db : DB) (reviewId : uuid) (t : Engine.ReviewTag)
  : bool :=
  negb (existsb (String.eqb (Engine.tag_category t)) tag_categories)
  || match to_decimal_3_2 (Engine.tag_confidence_score t) with
     | decimal_out_of_range => true
     | decimal_null => false
     | decimal_value confidence =>
         negb ((0 <=? confidence)%Z && (confidence <=? 100)%Z)
     end
  || negb (existsb (fun x => Review.id x =? reviewId)%nat (reviews db)).

(** The confidence of a tag as its column gives it back. *)
Definition stored_confidence (x : number) : option number :=
  match to_decimal_3_2 x with
  | decimal_value h => Some (read_decimal h)
  | _ => None
  end.

Definition tag_row (id reviewId : uuid) (t : Engine.ReviewTag) : TagRow.t :=
  {| TagRow.id := id;
     TagRow.review_id := reviewId;
     TagRow.tag_name := Engine.tag_name t;
     TagRow.tag_category := Engine.tag_category t;
     TagRow.confidence_score :=
       stored_confidence (Engine.tag_confidence_score t) |}.

Fixpoint number_rows (from : uuid) (reviewId : uuid)
         (tags : list Engine.ReviewTag) : list TagRow.t :=
  match tags with
  | [] => []
  | t :: rest => tag_row from reviewId t :: number_rows (S from) reviewId rest
  end.

(** [from('review_tags').insert(rows)]: one statement, so either every
    row is stored or none is.  The caller does not read the answer. *)
Definition insert_tags (db : DB) (reviewId : uuid)
           (tags : list Engine.ReviewTag) : DB :=
  if existsb (tag_violation db reviewId) tags then db
  else
    {| businesses := businesses db;
       reviews := reviews db;
       sentiment_analysis := sentiment_analysis db;
       review_tags :=
         review_tags db ++ number_rows (next_uuid db) reviewId tags;
       next_uuid := next_uuid db + List.length tags;
       timestamptz_in := timestamptz_in db |}.

End Store.

(* ================================================================== *)
(** ** The ingestion function (fetch-reviews/index.ts) *)
(* ================================================================== *)

Module Ingest.

Import JS Store.
Local Open Scope string_scope.

Module ReviewData.
Record t : Set := {
  platform_review_id : string;
  reviewer_name : string;
  reviewer_avatar : option string;
  rating : Z;
  review_text : string;
  review_date : string;
  review_url : string
}.
End ReviewData.

(** The parsed body.  [business_id = None] stands for a missing or empty
    identifier and [platform = ""] for a missing or empty platform: the
    values [!business_id || !platform] rejects. *)
Record FetchReviewsRequest : Set := {
  business_id : option uuid;
  platform : string;
  force_refresh : bool
}.

(** A request: its method, and its body when it parses as JSON. *)
Record Request : Set := {
  http_method : string;
  json : option FetchReviewsRequest
}.

(** What an awaited platform fetch comes back with: the error it throws,
    or the reviews. *)
Definition Fetched : Set := (string + list ReviewData.t)%type.

(** What the function takes from outside the store: the two readings of
    the clock ([new Date()] of the freshness test and of the final
    update) and the two platform fetchers.  In the source the fetchers
    are mock stand-ins for the platform clients; they return two reviews
    whose identifiers embed [Date.now()]. *)
Record World : Type := {
  now : number;
  stamp : number;
  fetchGoogleReviews : option string -> Fetched;
  fetchYelpReviews : option string -> Fetched
}.

Inductive Body : Set :=
| Text (text : string)
| Error (error : string)
| Skipping (message : string) (last_fetch : number)
| Processed (message : string) (reviews_processed : nat)
            (platform : string) (business_id : uuid).

Record Response : Set := { status : nat; body : Body }.

(** Lines written with [console.error]. *)
Inductive Logged : Set :=
| ErrorInsertingReview (insertError : StoreError)
| ErrorFetchingReviews (error : string).

(** The values of the [insert] in [processAndStoreReviews]. *)
Definition newReviewValues (businessId : uuid) (platform : string)
           (review : ReviewData.t) (id : uuid) : Review.t :=
  {| Review.id := id;
     Review.business_id := businessId;
     Review.platform := platform;
     Review.platform_review_id := ReviewData.platform_review_id review;
     Review.reviewer_name := ReviewData.reviewer_name review;
     Review.reviewer_avatar := ReviewData.reviewer_avatar review;
     Review.rating := ReviewData.rating review;
     Review.review_text := ReviewData.review_text review;
     Review.review_date := ReviewData.review_date review;
     Review.review_url := ReviewData.review_url review;
     Review.is_processed := false;
     Review.processing_status := pending |}.

(** One turn of the [for (const review of reviews)] loop, on the store,
    the [processedReviews] array and the console. *)
Definition storeReview (businessId : uuid) (platform : string)
           (st : DB * list Review.t * list Logged) (review : ReviewData.t)
  : DB * list Review.t * list Logged :=
  let '(db, processedReviews, console) := st in
  match select_review db businessId platform
                      (ReviewData.platform_review_id review) with
  | Some existingReview => st
  | None =>
      match insert_review db (newReviewValues businessId platform review) with
      | inl insertError =>
          (db, processedReviews,
           (console ++ [ErrorInsertingReview insertError])%list)
      | inr (db1, newReview) =>
          (update_review db1 (Review.id newReview) (Some true) completed,
           (processedReviews ++ [newReview])%list,
           console)
      end
  end.

(** The three ways a turn of the loop ends, from a store [db], an array
    [processedReviews] and a console: the review is already stored; the
    insert is rejected, which the console records; or the row is
    inserted as pending, pushed, and marked completed in the store. *)
Inductive turn (businessId : uuid) (platform : string) (db : DB)
          (processedReviews : list Review.t) (console : list Logged)
          (review : ReviewData.t)
  : DB * list Review.t * list Logged -> Prop :=
| turn_existing :
    existsb (has_key businessId platform
                     (ReviewData.platform_review_id review))
            (reviews db) = true ->
    turn businessId platform db processedReviews console review
         (db, processedReviews, console)
| turn_rejected (insertError : StoreError) :
    review_violation
      db (newReviewValues businessId platform review (next_uuid db))
    = Some insertError ->
    turn businessId platform db processedReviews console review
         (db, processedReviews,
          (console ++ [ErrorInsertingReview insertError])%list)
| turn_inserted :
    review_violation
      db (newReviewValues businessId platform review (next_uuid db))
    = None ->
    turn businessId platform db processedReviews console review
         (update_review
            (add_review
               db (newReviewValues businessId platform review (next_uuid db)))
            (next_uuid db) (Some true) completed,
          (processedReviews
             ++ [newReviewValues businessId platform review (next_uuid db)])%list,
          console).

Definition processAndStoreReviews (db : DB) (businessId : uuid)
           (platform : string) (reviews : list ReviewData.t)
  : DB * list Review.t * list Logged :=
  fold_left (storeReview businessId platform) reviews (db, [], []).

Definition hoursSinceLastFetch (now lastFetch : number) : number :=
  ((now - lastFetch) / (1000 * 60 * 60))%float.

(** The freshness test: not forced, a last fetch on record, and less
    than 24 hours since.  The answer is that last fetch when the test
    holds. *)
Definition recentlyFetched (world : World) (request : FetchReviewsRequest)
           (business : Business.t) : option number :=
  match Business.last_review_fetch business with
  | Some lastFetch =>
      if negb (force_refresh request)
         && (hoursSinceLastFetch (now world) lastFetch <? 24)%float
      then Some lastFetch
      else None
  | None => None
  end.

(** The fetch from the requested platform: [reviews] starts empty and
    stays so for a platform that is neither google nor yelp. *)
Definition fetchReviews (world : World) (platform : string)
           (business : Business.t) : Fetched :=
  if platform =? "google" then
    fetchGoogleReviews world (Business.google_place_id business)
  else if platform =? "yelp" then
    fetchYelpReviews world (Business.yelp_business_id business)
  else inr [].

Definition internalServerError : Response :=
  {| status := 500; body := Error "Internal server error" |}.

(** The handler: the store after the request, the response, and the
    console. *)
Definition serve (world : World) (db : DB) (req : Request)
  : DB * Response * list Logged :=
  if http_method req =? "OPTIONS" then
    (db, {| status := 200; body := Text "ok" |}, [])
  else
    match json req with
    | None =>
        (db, internalServerError, [ErrorFetchingReviews "SyntaxError"])
    | Some request =>
        match business_id request, platform request =? "" with
        | Some businessId, false =>
            match select_business db businessId with
            | None =>
                (db, {| status := 404; body := Error "Business not found" |},
                 [])
            | Some business =>
                match recentlyFetched world request business with
                | Some lastFetch =>
                  (db,
                   {| status := 200;
                      body :=
                        Skipping "Reviews recently fetched, skipping"
                                 lastFetch |},
                   [])
                | None =>
                  match fetchReviews world (platform request) business with
                  | inl error =>
                      (db, internalServerError,
                       [ErrorFetchingReviews error])
                  | inr reviews =>
                      let '(db1, processedReviews, console) :=
                        processAndStoreReviews db businessId
                          (platform request) reviews in
                      (update_last_review_fetch db1 businessId (stamp world),
                       {| status := 200;
                          body :=
                            Processed "Reviews fetched successfully"
                              (List.length processedReviews)
                              (platform request) businessId |},
                       console)
                  end
                end
            end
        | _, _ =>
            (db,
             {| status := 400;
                body :=
                  Error "Missing required fields: business_id and platform" |},
             [])
        end
    end.

(** The request got past the guards of the handler: it is not a
    preflight, its body parses, both fields are there and the business is
    on record. *)
Definition accepted (db : DB) (req : Request)
           (request : FetchReviewsRequest) (businessId : uuid)
           (business : Business.t) : Prop :=
  http_method req <> "OPTIONS"
  /\ json req = Some request
  /\ business_id request = Some businessId
  /\ platform request <> ""
  /\ select_business db businessId = Some business.

(** The row of a fetched review has a [review_date] the store takes as
    a timestamp, meets the CHECKs of [reviews] and refers to a business
    on record: only the UNIQUE key can reject it. *)
Definition acceptable (db : DB) (businessId : uuid) (platform : string)
           (review : ReviewData.t) : bool :=
  timestamptz_in db (ReviewData.review_date review)
  && existsb (String.eqb platform) platforms
  && ((1 <=? ReviewData.rating review)%Z && (ReviewData.rating review <=? 5)%Z)
  && existsb (fun b => Business.id b =? businessId)%nat (businesses db).

(** A review whose turn leaves the store as it is: it is not
    acceptable, or its key is stored. *)
Definition settled (db : DB) (businessId : uuid) (platform : string)
           (review : ReviewData.t) : Prop :=
  acceptable db businessId platform review = false
  \/ 0 < rows_with_key db businessId platform
                       (ReviewData.platform_review_id review).

(** What holds of the pushed rows during the loop: a pushed row is the
    pending row the insert returned, and the store holds rows with its
    key, every one of them completed. *)
Definition handed_over (db : DB) (processedReviews : list Review.t) : Prop :=
  forall row,
    In row processedReviews ->
    Review.processing_status row = pending
    /\ Review.is_processed row = false
    /\ Review.id row < next_uuid db
    /\ (exists stored,
           In stored (reviews db) /\ Review.id stored = Review.id row)
    /\ (forall stored,
           In stored (reviews db) ->
           Review.id stored = Review.id row ->
           Review.processing_status stored = completed
           /\ Review.is_processed stored = true).

Definition is_insert_error (line : Logged) : Prop :=
  exists insertError, line = ErrorInsertingReview insertError.

End Ingest.

(* ================================================================== *)
(** ** The classification function (the handler of analyze-sentiment) *)
(* ================================================================== *)

Module Classify.

Import JS Store.
Local Open Scope string_scope.

(** The parsed body.  [review_id = None] stands for a missing or empty
    identifier; a missing [review_text] is the empty text: the values
    [!review_id || !review_text] rejects. *)
Record SentimentAnalysisRequest : Set := {
  review_id : option uuid;
  review_text : string
}.

Record Request : Set := {
  http_method : string;
  json : option SentimentAnalysisRequest
}.

Inductive Body : Set :=
| Text (text : string)
| Error (error : string)
| Completed (message : string) (sentiment_analysis : SentimentRow.t)
            (review_id : uuid).

Record Response : Set := { status : nat; body : Body }.

Inductive Logged : Set :=
| ErrorAnalyzingSentiment (error : string)
| ErrorAnalyzingSentimentStore (insertError : StoreError).

(** [generateReviewTags]: the tags of the result, inserted when there is
    at least one. *)
Definition generateReviewTags (db : DB) (reviewId : uuid)
           (sentimentResult : Engine.SentimentResult) : DB :=
  let tags := Engine.reviewTags sentimentResult in
  if (0 <? List.length tags)%nat then insert_tags db reviewId tags else db.

Definition internalServerError : Response :=
  {| status := 500; body := Error "Internal server error" |}.

(** The handler; [random] is the draw of [Math.random()] the analysis
    makes. *)
Definition serve (random : number) (db : DB) (req : Request)
  : DB * Response * list Logged :=
  if http_method req =? "OPTIONS" then
    (db, {| status := 200; body := Text "ok" |}, [])
  else
    match json req with
    | None =>
        (db, internalServerError, [ErrorAnalyzingSentiment "SyntaxError"])
    | Some request =>
        match review_id request, review_text request =? "" with
        | Some reviewId, false =>
            let db1 := update_review db reviewId None processing in
            let sentimentResult :=
              Engine.analyzeSentiment random (review_text request) in
            match insert_sentiment db1 reviewId sentimentResult with
            | inl insertError =>
                (update_review db1 reviewId (Some false) failed,
                 internalServerError,
                 [ErrorAnalyzingSentimentStore insertError])
            | inr (db2, sentimentAnalysis) =>
                let db3 := generateReviewTags db2 reviewId sentimentResult in
                (update_review db3 reviewId (Some true) completed,
                 {| status := 200;
                    body :=
                      Completed "Sentiment analysis completed successfully"
                                sentimentAnalysis reviewId |},
                 [])
            end
        | _, _ =>
            (db,
             {| status := 400;
                body :=
                  Error "Missing required fields: review_id and review_text" |},
             [])
        end
    end.

Arguments serve random%_float_scope db req.

End Classify.

(* ================================================================== *)
(** ** The scoring rule as the specification words it *)
(* ================================================================== *)

Module SpecWords.

Import JS.
Local Open Scope string_scope.

(** The number of occurrences of [w] in [s]: the positions of [s] at
    which [w] starts. *)
Fixpoint occurrences (s w : string) : nat :=
  (if String.prefix w s then 1 else 0)
  + match s with
    | EmptyString => 0
    | String _ r => occurrences r w
    end.

(** Hits of a lexicon: the occurrences of its terms in the lowercased
    text, added up. *)
Definition hits (text : string) (lexicon : list string) : nat :=
  fold_left (fun n w => n + occurrences (toLowerCase text) w) lexicon 0.

(** score = (positiveHits - negativeHits) / (positiveHits + negativeHits),
    clamped to [-1, 1]. *)
Definition score (text : string) : number :=
  let positiveHits := num_of_nat (hits text Engine.positiveWords) in
  let negativeHits := num_of_nat (hits text Engine.negativeWords) in
  Math_max (-1)%float
    (Math_min 1%float
       ((positiveHits - negativeHits) / (positiveHits + negativeHits))%float).

End SpecWords.

(* ================================================================== *)
(** ** Scoring as a function of the two counters *)
(* ================================================================== *)

Module Scoring.

Import JS Engine.

(** The score before clamping and the label, as [analyzeSentiment]
    computes them from [positiveCount] and [negativeCount]. *)
Definition raw (p n : nat) : number * Sentiment :=
  let totalWords := (num_of_nat p + num_of_nat n)%float in
  if (0 <? totalWords)%float then
    let s := ((num_of_nat p - num_of_nat n) / totalWords)%float in
    (s, if (0.2 <? s)%float then positive
        else if (s <? -0.2)%float then negative
        else neutral)
  else (0%float, neutral).

Definition score (p n : nat) : number :=
  Math_max (-1)%float (Math_min 1%float (fst (raw p n))).

Definition confidence (p n : nat) : number :=
  Math_min 0.95%float (0.5 + Math_abs (fst (raw p n)) * 0.3)%float.

Definition label (p n : nat) : Sentiment := snd (raw p n).

(** What holds of the three at given counters; every conjunct is an
    equation that evaluation decides. *)
Definition facts (p n : nat) : Prop :=
  let s := score p n in
  let c := confidence p n in
  let l := label p n in
  (-1 <=? s)%float = true /\ (s <=? 1)%float = true
  /\ (0 <=? c)%float = true /\ (c <=? 0.95)%float = true
  /\ (0.5 <=? c)%float = true /\ (c <=? 0.8)%float = true
  /\ (0.2 <? s)%float = Sentiment_eqb l positive
  /\ (s <? -0.2)%float = Sentiment_eqb l negative
  /\ s = fst (raw p n)
  /\ c = (0.5 + Math_abs s * 0.3)%float
  /\ (0 <? num_of_nat p + num_of_nat n)%float = (0 <? p + n)%nat.

(** Two numbers are less than half a hundredth and a billionth apart:
    what rounding to hundredths can move a number, with room for the
    last binary digits of the subtraction. *)
Definition near (x y : number) : bool :=
  (Math_abs (x - y) <=? 0.005000001)%float.

(** The score and the confidence at given counters enter the
    DECIMAL(3,2) columns of the store, the score within [-1, 1] and the
    confidence within [0.5, 0.8], and come back near what they were. *)
Definition storable (p n : nat) : bool :=
  match Store.to_decimal_3_2 (score p n),
        Store.to_decimal_3_2 (confidence p n) with
  | Store.decimal_value s, Store.decimal_value c =>
      ((-100 <=? s)%Z && (s <=? 100)%Z) && ((50 <=? c)%Z && (c <=? 80)%Z)
      && (near (score p n) (Store.read_decimal s)
          && near (confidence p n) (Store.read_decimal c))
  | _, _ => false
  end.

(** [below k P]: [P] holds of 0, ..., k-1. *)
Fixpoint below (k : nat) (P : nat -> Prop) : Prop :=
  match k with
  | O => True
  | S j => below j P /\ P j
  end.

End Scoring.

(* ================================================================== *)
(** ** Sample data *)
(* ================================================================== *)

Module Sample.

Import JS Store.
Local Open Scope string_scope.

Definition cafe : Business.t :=
  {| Business.id := 1;
     Business.google_place_id := Some "ChIJcafe";
     Business.yelp_business_id := Some "the-cafe";
     Business.last_review_fetch := None |}.

(** The cafe, fetched one hour before [noon]. *)
Definition noon : number := 1700000000000%float.

Definition cafe_fetched : Business.t :=
  {| Business.id := 1;
     Business.google_place_id := Some "ChIJcafe";
     Business.yelp_business_id := Some "the-cafe";
     Business.last_review_fetch := Some (noon - 3600000)%float |}.

(** The dates of the samples, as [toISOString] writes them.  The sample
    stores take these texts as timestamps and, being samples, no other
    text. *)
Definition timestamps (text : string) : bool :=
  existsb (String.eqb text)
          ["2023-11-14T22:13:20.000Z"; "2023-11-13T22:13:20.000Z";
           "2023-11-14T22:14:20.000Z"].

Definition empty_store : DB :=
  {| businesses := [cafe]; reviews := []; sentiment_analysis := [];
     review_tags := []; next_uuid := 2; timestamptz_in := timestamps |}.

Definition fetched_store : DB :=
  {| businesses := [cafe_fetched]; reviews := []; sentiment_analysis := [];
     review_tags := []; next_uuid := 2; timestamptz_in := timestamps |}.

Definition five_stars : Ingest.ReviewData.t :=
  {| Ingest.ReviewData.platform_review_id := "google_1700000000000_1";
     Ingest.ReviewData.reviewer_name := "John Doe";
     Ingest.ReviewData.reviewer_avatar := None;
     Ingest.ReviewData.rating := 5;
     Ingest.ReviewData.review_text :=
       "Great service and amazing food! Highly recommend this place.";
     Ingest.ReviewData.review_date := "2023-11-14T22:13:20.000Z";
     Ingest.ReviewData.review_url :=
       "https://maps.google.com/place/ChIJcafe/review/1" |}.

(** A review without a star rating: the CHECK on [rating] rejects it. *)
Definition unrated : Ingest.ReviewData.t :=
  {| Ingest.ReviewData.platform_review_id := "google_1700000000000_2";
     Ingest.ReviewData.reviewer_name := "Jane Smith";
     Ingest.ReviewData.reviewer_avatar := None;
     Ingest.ReviewData.rating := 0;
     Ingest.ReviewData.review_text := "Good experience overall.";
     Ingest.ReviewData.review_date := "2023-11-13T22:13:20.000Z";
     Ingest.ReviewData.review_url :=
       "https://maps.google.com/place/ChIJcafe/review/2" |}.

(** The store after [five_stars] was inserted and before anything else
    touched it. *)
Definition pending_store : DB :=
  {| businesses := [cafe];
     reviews := [Ingest.newReviewValues 1 "google" five_stars 2];
     sentiment_analysis := []; review_tags := []; next_uuid := 3;
     timestamptz_in := timestamps |}.

(** A world in which google returns the given reviews. *)
Definition google_returns (reviews : list Ingest.ReviewData.t)
  : Ingest.World :=
  {| Ingest.now := noon;
     Ingest.stamp := (noon + 250)%float;
     Ingest.fetchGoogleReviews := fun _ => inr reviews;
     Ingest.fetchYelpReviews := fun _ => inr [] |}.

(** A world in which the platforms cannot be reached. *)
Definition platforms_down : Ingest.World :=
  {| Ingest.now := noon;
     Ingest.stamp := (noon + 250)%float;
     Ingest.fetchGoogleReviews := fun _ => inl "connection reset";
     Ingest.fetchYelpReviews := fun _ => inl "connection reset" |}.

Definition fetch_google (force : bool) : Ingest.Request :=
  {| Ingest.http_method := "POST";
     Ingest.json :=
       Some {| Ingest.business_id := Some 1;
               Ingest.platform := "google";
               Ingest.force_refresh := force |} |}.

Definition classify (text : string) : Classify.Request :=
  {| Classify.http_method := "POST";
     Classify.json :=
       Some {| Classify.review_id := Some 2;
               Classify.review_text := text |} |}.

End Sample.

(* ================================================================== *)
(** ** The mock platform fetchers (fetch-reviews/index.ts) *)
(* ================================================================== *)

Module Mock.

Import JS Store.
Local Open Scope string_scope.

(** [Date.now()] is a whole number of milliseconds, held as an integer; in
    a template literal it is written in decimal. *)
Definition show (milliseconds : Z) : string :=
  NilEmpty.string_of_int (Z.to_int milliseconds).

(** A nullable text column in a template literal. *)
Definition showText (column : option string) : string :=
  match column with
  | Some text => text
  | None => "null"
  end.

(** The four readings of the clock a fetcher makes, in the order the two
    object literals are evaluated: [Date.now()] for the first identifier,
    [new Date()] for the first date, [Date.now()] for the second
    identifier, [Date.now()] for the second date. *)
Record Readings : Set := {
  first_id : Z;
  first_date : Z;
  second_id : Z;
  second_date : Z
}.

Section Fetchers.

(** [Date.prototype.toISOString] at a time given in epoch milliseconds. *)
Variable toISOString : Z -> string.

Definition fetchGoogleReviews (clock : Readings) (placeId : option string)
  : list Ingest.ReviewData.t :=
  [ {| Ingest.ReviewData.platform_review_id :=
         "google_" ++ show (first_id clock) ++ "_1";
       Ingest.ReviewData.reviewer_name := "John Doe";
       Ingest.ReviewData.reviewer_avatar :=
         Some "https://images.unsplash.com/photo-1472099645785-5658abf4ff4e?w=150&h=150&fit=crop&crop=face";
       Ingest.ReviewData.rating := 5;
       Ingest.ReviewData.review_text :=
         "Great service and amazing food! Highly recommend this place.";
       Ingest.ReviewData.review_date := toISOString (first_date clock);
       Ingest.ReviewData.review_url :=
         "https://maps.google.com/place/" ++ showText placeId ++ "/review/1" |};
    {| Ingest.ReviewData.platform_review_id :=
         "google_" ++ show (second_id clock) ++ "_2";
       Ingest.ReviewData.reviewer_name := "Jane Smith";
       Ingest.ReviewData.reviewer_avatar :=
         Some "https://images.unsplash.com/photo-1494790108755-2616b612b786?w=150&h=150&fit=crop&crop=face";
       Ingest.ReviewData.rating := 4;
       Ingest.ReviewData.review_text :=
         "Good experience overall. The staff was friendly and the food was delicious.";
       Ingest.ReviewData.review_date :=
         toISOString (second_date clock - 86400000);
       Ingest.ReviewData.review_url :=
         "https://maps.google.com/place/" ++ showText placeId ++ "/review/2" |} ].

Definition fetchYelpReviews (clock : Readings) (businessId : option string)
  : list Ingest.ReviewData.t :=
  [ {| Ingest.ReviewData.platform_review_id :=
         "yelp_" ++ show (first_id clock) ++ "_1";
       Ingest.ReviewData.reviewer_name := "Mike Johnson";
       Ingest.ReviewData.reviewer_avatar :=
         Some "https://images.unsplash.com/photo-1500648767791-00dcc994a43e?w=150&h=150&fit=crop&crop=face";
       Ingest.ReviewData.rating := 5;
       Ingest.ReviewData.review_text :=
         "Excellent service and great atmosphere. Will definitely come back!";
       Ingest.ReviewData.review_date := toISOString (first_date clock);
       Ingest.ReviewData.review_url :=
         "https://www.yelp.com/biz/" ++ showText businessId ++ "/review/1" |};
    {| Ingest.ReviewData.platform_review_id :=
         "yelp_" ++ show (second_id clock) ++ "_2";
       Ingest.ReviewData.reviewer_name := "Lisa Brown";
       Ingest.ReviewData.reviewer_avatar :=
         Some "https://images.unsplash.com/photo-1544005313-94ddf0286df2?w=150&h=150&fit=crop&crop=face";
       Ingest.ReviewData.rating := 3;
       Ingest.ReviewData.review_text :=
         "The food was okay, but the service was a bit slow. Average experience.";
       Ingest.ReviewData.review_date :=
         toISOString (second_date clock - 172800000);
       Ingest.ReviewData.review_url :=
         "https://www.yelp.com/biz/" ++ showText businessId ++ "/review/2" |} ].

(** The world of the function as deployed: the two mock fetchers, which
    never throw, at the readings their calls make. *)
Definition world (now stamp : number) (clock : Readings) : Ingest.World :=
  {| Ingest.now := now;
     Ingest.stamp := stamp;
     Ingest.fetchGoogleReviews :=
       fun placeId => inr (fetchGoogleReviews clock placeId);
     Ingest.fetchYelpReviews :=
       fun businessId => inr (fetchYelpReviews clock businessId) |}.

End Fetchers.

End Mock.

(* ================================================================== *)
(** ** Shapes of texts and stores used in the statements *)
(* ================================================================== *)

Module Shape.

Import JS Store.
Local Open Scope string_scope.

(** The number of code units of a text equal to a given one. *)
Fixpoint count_units (c : ascii) (s : string) : nat :=
  match s with
  | EmptyString => 0
  | String d r => (if Ascii.eqb d c then 1 else 0) + count_units c r
  end.

(** Every code unit of a text passes a test. *)
Fixpoint all_units (f : ascii -> bool) (s : string) : bool :=
  match s with
  | EmptyString => true
  | String c r => f c && all_units f r
  end.

(** The first and the last code unit of a text, when it has one. *)
Definition first_unit (s : string) : option ascii :=
  match s with
  | EmptyString => None
  | String c _ => Some c
  end.

Fixpoint last_unit (s : string) : option ascii :=
  match s with
  | EmptyString => None
  | String c EmptyString => Some c
  | String _ r => last_unit r
  end.

Definition not_space (unit : option ascii) : Prop :=
  match unit with
  | Some c => is_space c = false
  | None => True
  end.

(** The tags by topic, for the topics the engine detects: the topic, the
    category of its tag, the name of the tag for a positive result and
    the name for any other result. *)
Definition tag_table : list (string * (string * (string * string))) :=
  [ ("service", ("staff", ("friendly staff", "poor service")));
    ("food", ("product", ("quality food", "poor food")));
    ("coffee", ("product", ("quality food", "poor food")));
    ("atmosphere", ("ambiance", ("good atmosphere", "poor atmosphere")));
    ("price", ("value", ("good value", "overpriced")));
    ("location", ("other", ("location", "location")));
    ("cleanliness", ("other", ("cleanliness", "cleanliness")));
    ("speed", ("service", ("fast service", "slow service"))) ].

(** A result with its score and its confidence as the DECIMAL(3,2)
    columns give them back, from the hundredths they hold. *)
Definition as_held (r : Engine.SentimentResult) (score confidence : Z)
  : Engine.SentimentResult :=
  {| Engine.overall_sentiment := Engine.overall_sentiment r;
     Engine.sentiment_score := read_decimal score;
     Engine.confidence_score := read_decimal confidence;
     Engine.key_topics := Engine.key_topics r;
     Engine.key_phrases := Engine.key_phrases r;
     Engine.analysis_metadata := Engine.analysis_metadata r |}.

(** A review marked as the storing loop marks it after the insert. *)
Definition mark_completed (r : Review.t) : Review.t :=
  Review.with_status (Some true) completed r.

(** Every stored review has a key the counter has passed: the keys the
    store draws are new. *)
Definition fresh_ids (db : DB) : Prop :=
  Forall (fun r => Review.id r < next_uuid db) (reviews db).

(** Every dedup key is stored at most once: the UNIQUE constraint of
    [reviews]. *)
Definition unique_keys (db : DB) : Prop :=
  forall businessId platform platformReviewId,
    rows_with_key db businessId platform platformReviewId <= 1.

(** The reviews of the store, their two status columns apart: the key,
    the business, the platform, the platform review id, the name and the
    avatar of the reviewer, the rating, the text, the date and the url
    of each. *)
Definition reviews_but_status (db : DB) : list Review.t :=
  map mark_completed (reviews db).

End Shape.

(* ================================================================== *)
(** ** Properties of the classification engine *)
(* ================================================================== *)

Import JS Engine.
Local Open Scope string_scope.

Lemma below_spec (k : nat) (P : nat -> Prop) :
  Scoring.below k P -> forall i, i < k -> P i.
Proof.
  induction k as [|k IH]; simpl; intros H i Hi.
  - lia.
  - destruct H as [Hk Hlast].
    destruct (Nat.eq_dec i k) as [->|Hne]; [exact Hlast|].
    apply IH; [exact Hk | lia].
Qed.

(** Both lexicons have 21 terms, so the counters stay below 22: the facts
    are checked at each of the 22 x 22 pairs. *)
Lemma facts_table :
  Scoring.below 22 (fun p => Scoring.below 22 (fun n => Scoring.facts p n)).
Proof.
  vm_compute. repeat split.
Qed.

Lemma facts_bounded (p n : nat) : p <= 21 -> n <= 21 -> Scoring.facts p n.
Proof.
  intros Hp Hn.
  pose proof (below_spec 22 _ facts_table p ltac:(lia)) as Hrow.
  exact (below_spec 22 _ Hrow n ltac:(lia)).
Qed.

(** Incrementing a counter is exact on the numbers: [count++] on the
    number that holds [k] gives the number that holds [k + 1]. *)
Lemma counter_increment (k : nat) :
  k < 22 -> (num_of_nat k + 1)%float = num_of_nat (S k).
Proof.
  apply (below_spec 22 (fun k => (num_of_nat k + 1)%float = num_of_nat (S k))).
  vm_compute. repeat split.
Qed.

(** [includes] is substring containment. *)
Lemma prefix_append (w s : string) :
  String.prefix w s = true <-> exists post, s = w ++ post.
Proof.
  revert s; induction w as [|a w IH]; intros s.
  - destruct s; simpl; split; intros _; eauto.
  - destruct s as [|b s]; simpl.
    + split; [discriminate | intros [post H]; discriminate H].
    + destruct (ascii_dec a b) as [->|Hne].
      * rewrite IH. split; intros [post H]; exists post.
        -- rewrite H. reflexivity.
        -- injection H as H. exact H.
      * split; [discriminate|].
        intros [post H]. injection H as Hab _. congruence.
Qed.

Lemma includes_spec (s w : string) :
  includes s w = true <-> exists pre post, s = pre ++ w ++ post.
Proof.
  induction s as [|c r IH].
  - cbn [includes]. rewrite orb_false_r, prefix_append. split.
    + intros [post H]. exists "", post. exact H.
    + intros (pre & post & H). destruct pre as [|c pre]; [|discriminate H].
      exists post. exact H.
  - cbn [includes]. rewrite orb_true_iff, prefix_append, IH. split.
    + intros [[post H] | (pre & post & H)].
      * exists "", post. exact H.
      * exists (String c pre), post. rewrite H. reflexivity.
    + intros (pre & post & H). destruct pre as [|c' pre].
      * left. exists post. exact H.
      * right. injection H as _ H. exists pre, post. exact H.
Qed.

(** A term is included exactly when it occurs at least once. *)
Lemma includes_occurrences (s w : string) :
  includes s w = (0 <? SpecWords.occurrences s w)%nat.
Proof.
  induction s as [|c r IH]; cbn [includes SpecWords.occurrences].
  - destruct (String.prefix w ""); reflexivity.
  - rewrite IH. destruct (String.prefix w (String c r)); simpl; [reflexivity|].
    reflexivity.
Qed.

Lemma fold_count_le (t : string) (ws : list string) (a : nat) :
  fold_left (fun count word => if includes t word then S count else count)
            ws a <= a + List.length ws.
Proof.
  revert a; induction ws as [|w ws IH]; intros a; simpl.
  - lia.
  - specialize (IH (if includes t w then S a else a)).
    destruct (includes t w); lia.
Qed.

Lemma countHits_le (t : string) (ws : list string) :
  countHits t ws <= List.length ws.
Proof. unfold countHits. apply (fold_count_le t ws 0). Qed.

Lemma fold_count_filter (t : string) (ws : list string) (a : nat) :
  fold_left (fun count word => if includes t word then S count else count)
            ws a = a + List.length (filter (includes t) ws).
Proof.
  revert a; induction ws as [|w ws IH]; intros a; simpl.
  - lia.
  - rewrite IH. destruct (includes t w); simpl; lia.
Qed.

(** The counter of a lexicon is the number of its terms that the text
    contains. *)
Lemma countHits_filter (t : string) (ws : list string) :
  countHits t ws = List.length (filter (includes t) ws).
Proof. unfold countHits. apply (fold_count_filter t ws 0). Qed.

Lemma positiveCount_bound (t : string) : countHits t positiveWords <= 21.
Proof. apply (countHits_le t positiveWords). Qed.

Lemma negativeCount_bound (t : string) : countHits t negativeWords <= 21.
Proof. apply (countHits_le t negativeWords). Qed.

(** A result, field by field: the three scored fields are the scoring
    functions at the two counters. *)
Lemma analyzeSentiment_eq (random : number) (text : string) :
  let p := countHits (toLowerCase text) positiveWords in
  let n := countHits (toLowerCase text) negativeWords in
  analyzeSentiment random text =
  {| overall_sentiment := Scoring.label p n;
     sentiment_score := Scoring.score p n;
     confidence_score := Scoring.confidence p n;
     key_topics := extractKeyTopics text;
     key_phrases := extractKeyPhrases text;
     analysis_metadata :=
       {| language := "en";
          model_version := "1.0";
          processing_time_ms := (Math_floor (random * 200) + 100)%float;
          positive_words_found := p;
          negative_words_found := n;
          total_words_analyzed := List.length (split " " text) |} |}.
Proof.
  cbv zeta.
  unfold analyzeSentiment, Scoring.score, Scoring.confidence, Scoring.label,
    Scoring.raw.
  generalize (countHits (toLowerCase text) positiveWords) as p.
  generalize (countHits (toLowerCase text) negativeWords) as n.
  generalize (extractKeyTopics text) as topics.
  generalize (extractKeyPhrases text) as phrases.
  generalize (List.length (split " " text)) as total.
  intros total phrases topics n p.
  destruct (0 <? num_of_nat p + num_of_nat n)%float; reflexivity.
Qed.

Lemma analyzeSentiment_facts (random : number) (text : string) :
  Scoring.facts (countHits (toLowerCase text) positiveWords)
                (countHits (toLowerCase text) negativeWords).
Proof.
  apply facts_bounded;
    [apply positiveCount_bound | apply negativeCount_bound].
Qed.

Lemma Sentiment_eqb_eq (a b : Sentiment) : Sentiment_eqb a b = true <-> a = b.
Proof. destruct a, b; simpl; split; intro H; congruence. Qed.

(** C1: every result of the engine has its score in [-1, 1] and its
    confidence in [0, 0.95], and its label agrees with its score: the
    score is above 0.2 exactly when the label is positive, below -0.2
    exactly when it is negative, and the label is neutral exactly when the
    score is neither. *)
Theorem score_confidence_label_invariant (random : number) (text : string) :
  let r := analyzeSentiment random text in
  (num_le (-1) (sentiment_score r) /\ num_le (sentiment_score r) 1)
  /\ (num_le 0 (confidence_score r) /\ num_le (confidence_score r) 0.95)
  /\ (num_lt 0.2 (sentiment_score r) <-> overall_sentiment r = positive)
  /\ (num_lt (sentiment_score r) (-0.2) <-> overall_sentiment r = negative)
  /\ (overall_sentiment r = neutral <->
      ~ num_lt 0.2 (sentiment_score r)
      /\ ~ num_lt (sentiment_score r) (-0.2)).
Proof.
  cbv zeta. rewrite (analyzeSentiment_eq random text). cbv zeta.
  cbn [sentiment_score confidence_score overall_sentiment].
  destruct (analyzeSentiment_facts random text)
    as (H1 & H2 & H3 & H4 & _ & _ & Hpos & Hneg & _).
  cbv zeta in Hpos, Hneg.
  unfold num_le, num_lt.
  rewrite H1, H2, H3, H4, Hpos, Hneg.
  rewrite !Sentiment_eqb_eq.
  repeat split; try tauto; try congruence.
  intros [Hp Hn].
  destruct (Scoring.label _ _); congruence.
Qed.

(** C10: the confidence of every result lies in [0.5, 0.8]; the 0.95 cap
    never binds, the confidence being 0.5 + |score| * 0.3 as it stands. *)
Theorem confidence_between_half_and_four_fifths
        (random : number) (text : string) :
  let r := analyzeSentiment random text in
  num_le 0.5 (confidence_score r)
  /\ num_le (confidence_score r) 0.8
  /\ confidence_score r = (0.5 + Math_abs (sentiment_score r) * 0.3)%float.
Proof.
  cbv zeta. rewrite (analyzeSentiment_eq random text). cbv zeta.
  cbn [sentiment_score confidence_score].
  destruct (analyzeSentiment_facts random text)
    as (_ & _ & _ & _ & Hlo & Hhi & _ & _ & _ & Hc & _).
  unfold num_le. repeat split; assumption.
Qed.

(** C2, as stated, fails: in "great great great bad" the lexicon terms
    occur three times (positive) and once (negative), which the rule of the
    specification scores 0.5; the engine counts each of the two terms once
    and scores 0. *)
Lemma occurrences_are_not_counted :
  let text := "great great great bad" in
  SpecWords.hits text positiveWords = 3
  /\ SpecWords.hits text negativeWords = 1
  /\ SpecWords.score text = 0.5%float
  /\ sentiment_score (analyzeSentiment 0 text) = 0%float
  /\ sentiment_score (analyzeSentiment 0 text) <> SpecWords.score text.
Proof.
  cbv zeta. repeat split; try (vm_compute; reflexivity).
  intro E.
  apply (f_equal (fun x => (x <? 0.25)%float)) in E.
  vm_compute in E. discriminate E.
Qed.

(** With at least one hit the score is the quotient, clamped or not. *)
Lemma score_quotient (p n : nat) :
  Scoring.facts p n -> 0 < p + n ->
  let quotient :=
    ((num_of_nat p - num_of_nat n) / (num_of_nat p + num_of_nat n))%float in
  Scoring.score p n = Math_max (-1)%float (Math_min 1%float quotient)
  /\ Scoring.score p n = quotient.
Proof.
  intros (_ & _ & _ & _ & _ & _ & _ & _ & Hclamp & _ & Htotal) Hsome.
  cbv zeta in *.
  assert (Hraw : fst (Scoring.raw p n)
                 = ((num_of_nat p - num_of_nat n)
                    / (num_of_nat p + num_of_nat n))%float).
  { unfold Scoring.raw. rewrite Htotal.
    replace (0 <? p + n)%nat with true
      by (symmetry; apply Nat.ltb_lt; exact Hsome).
    reflexivity. }
  split.
  - unfold Scoring.score. rewrite Hraw. reflexivity.
  - rewrite Hclamp. exact Hraw.
Qed.

(** C2, amended: when the lowercased text contains at least one lexicon
    term, the counters are the numbers of distinct positive and negative
    lexicon terms it contains (however often each occurs), and the score is
    (positiveHits - negativeHits) / (positiveHits + negativeHits), which
    the clamp to [-1, 1] leaves as it is. *)
Theorem score_from_distinct_terms (random : number) (text : string) :
  let textLower := toLowerCase text in
  let positiveHits := List.length (filter (includes textLower) positiveWords) in
  let negativeHits := List.length (filter (includes textLower) negativeWords) in
  let quotient :=
    ((num_of_nat positiveHits - num_of_nat negativeHits)
     / (num_of_nat positiveHits + num_of_nat negativeHits))%float in
  let r := analyzeSentiment random text in
  0 < positiveHits + negativeHits ->
  positive_words_found (analysis_metadata r) = positiveHits
  /\ negative_words_found (analysis_metadata r) = negativeHits
  /\ sentiment_score r = Math_max (-1)%float (Math_min 1%float quotient)
  /\ sentiment_score r = quotient.
Proof.
  cbv zeta. rewrite (analyzeSentiment_eq random text). cbv zeta.
  cbn [sentiment_score analysis_metadata positive_words_found
       negative_words_found].
  generalize (analyzeSentiment_facts random text).
  rewrite !countHits_filter.
  generalize (List.length (filter (includes (toLowerCase text)) positiveWords))
    as p.
  generalize (List.length (filter (includes (toLowerCase text)) negativeWords))
    as n.
  intros n p Hfacts Hsome.
  split; [reflexivity|]. split; [reflexivity|].
  exact (score_quotient p n Hfacts Hsome).
Qed.

(** At a text with one positive and one negative term, "great" twice and
    "bad" once. *)
Lemma score_from_distinct_terms_witness :
  0 < 1 + 1
  /\ sentiment_score
       (analyzeSentiment 0 "Great coffee, great staff, bad parking")
     = ((num_of_nat 1 - num_of_nat 1) / (num_of_nat 1 + num_of_nat 1))%float.
Proof.
  split; [lia|].
  apply (score_from_distinct_terms
           0%float "Great coffee, great staff, bad parking").
  vm_compute. lia.
Defined.

(** C3, as stated, fails: two calls on the same text that draw different
    random numbers differ in the processing time of their metadata. *)
Lemma metadata_differs_between_calls :
  analyzeSentiment 0 "Great service" <> analyzeSentiment 0.5 "Great service".
Proof.
  intro E.
  apply (f_equal
           (fun r => (processing_time_ms (analysis_metadata r) <? 150)%float))
    in E.
  vm_compute in E. discriminate E.
Qed.

(** C3, amended: two calls on the same text yield the same label, score,
    confidence, topics, key phrases and derived tags, and the same
    metadata except for [processing_time_ms], which is 100 plus the floor
    of 200 times the random number the call draws. *)
Theorem classification_deterministic_up_to_timing
        (random1 random2 : number) (text : string) :
  let a := analyzeSentiment random1 text in
  let b := analyzeSentiment random2 text in
  overall_sentiment a = overall_sentiment b
  /\ sentiment_score a = sentiment_score b
  /\ confidence_score a = confidence_score b
  /\ key_topics a = key_topics b
  /\ key_phrases a = key_phrases b
  /\ reviewTags a = reviewTags b
  /\ language (analysis_metadata a) = language (analysis_metadata b)
  /\ model_version (analysis_metadata a) = model_version (analysis_metadata b)
  /\ positive_words_found (analysis_metadata a)
     = positive_words_found (analysis_metadata b)
  /\ negative_words_found (analysis_metadata a)
     = negative_words_found (analysis_metadata b)
  /\ total_words_analyzed (analysis_metadata a)
     = total_words_analyzed (analysis_metadata b)
  /\ processing_time_ms (analysis_metadata a)
     = (Math_floor (random1 * 200) + 100)%float
  /\ processing_time_ms (analysis_metadata b)
     = (Math_floor (random2 * 200) + 100)%float.
Proof.
  cbv zeta.
  rewrite (analyzeSentiment_eq random1 text), (analyzeSentiment_eq random2 text).
  cbv zeta. unfold reviewTags, tagOfTopic.
  cbn [overall_sentiment sentiment_score confidence_score key_topics
       key_phrases analysis_metadata language model_version
       positive_words_found negative_words_found total_words_analyzed
       processing_time_ms].
  repeat split.
Qed.

(** C9: "Amazing coffee and friendly staff, highly recommend" is labelled
    positive with a score above 0.2, its topics include service and
    coffee, and its tags include the tag "friendly staff" of category
    staff, carrying the confidence of the result. *)
Theorem positive_review_scenario (random : number) :
  let r := analyzeSentiment
             random "Amazing coffee and friendly staff, highly recommend" in
  overall_sentiment r = positive
  /\ num_lt 0.2 (sentiment_score r)
  /\ In "service" (key_topics r)
  /\ In "coffee" (key_topics r)
  /\ In {| tag_name := "friendly staff";
           tag_category := "staff";
           tag_confidence_score := confidence_score r |}
        (reviewTags r).
Proof.
  cbv zeta. vm_compute. repeat split; auto.
Qed.

(* ================================================================== *)
(** ** Properties of the two handlers *)
(* ================================================================== *)

Import Store.

Lemma method_not_options (m : string) :
  m <> "OPTIONS" -> (m =? "OPTIONS") = false.
Proof. intro H. apply String.eqb_neq. exact H. Qed.

(** C6, as stated, fails: classifying the empty text for the pending sample
    review is rejected with status 400, and the review is still pending
    afterwards, not failed. *)
Lemma empty_text_leaves_review_pending :
  let out := Classify.serve 0 Sample.pending_store (Sample.classify "") in
  Classify.status (snd (fst out)) = 400
  /\ map Review.processing_status (reviews (fst (fst out))) = [pending]
  /\ ~ In failed (map Review.processing_status (reviews (fst (fst out)))).
Proof.
  cbv zeta. vm_compute. repeat split.
  intros [H|[]]. discriminate H.
Qed.

(** C6, amended: a request whose review text is empty is rejected with
    status 400 and the error "Missing required fields: review_id and
    review_text" before the store is touched: no result is produced and
    the store, with the processing status of every review, is as it
    was. *)
Theorem empty_text_rejected_store_untouched
        (random : number) (db : DB) (req : Classify.Request)
        (request : Classify.SentimentAnalysisRequest) :
  Classify.http_method req <> "OPTIONS" ->
  Classify.json req = Some request ->
  Classify.review_text request = "" ->
  Classify.serve random db req
  = (db,
     {| Classify.status := 400;
        Classify.body :=
          Classify.Error
            "Missing required fields: review_id and review_text" |},
     []).
Proof.
  intros Hmethod Hjson Htext.
  unfold Classify.serve.
  rewrite (method_not_options _ Hmethod), Hjson, Htext.
  destruct (Classify.review_id request); reflexivity.
Qed.

(** At the sample store with its pending review. *)
Lemma empty_text_rejected_store_untouched_witness :
  Classify.serve 0 Sample.pending_store (Sample.classify "")
  = (Sample.pending_store,
     {| Classify.status := 400;
        Classify.body :=
          Classify.Error
            "Missing required fields: review_id and review_text" |},
     []).
Proof.
  apply (empty_text_rejected_store_untouched
           0%float Sample.pending_store (Sample.classify "")
           {| Classify.review_id := Some 2; Classify.review_text := "" |}).
  - simpl. discriminate.
  - reflexivity.
  - reflexivity.
Defined.

Lemma serve_accepted (world : Ingest.World) (db : DB) (req : Ingest.Request)
      (request : Ingest.FetchReviewsRequest) (businessId : uuid)
      (business : Business.t) :
  Ingest.accepted db req request businessId business ->
  Ingest.serve world db req
  = match Ingest.recentlyFetched world request business with
    | Some lastFetch =>
        (db,
         {| Ingest.status := 200;
            Ingest.body :=
              Ingest.Skipping "Reviews recently fetched, skipping" lastFetch |},
         [])
    | None =>
        match Ingest.fetchReviews world (Ingest.platform request) business with
        | inl error =>
            (db, Ingest.internalServerError,
             [Ingest.ErrorFetchingReviews error])
        | inr reviews =>
            let '(db1, processedReviews, console) :=
              Ingest.processAndStoreReviews
                db businessId (Ingest.platform request) reviews in
            (update_last_review_fetch db1 businessId (Ingest.stamp world),
             {| Ingest.status := 200;
                Ingest.body :=
                  Ingest.Processed "Reviews fetched successfully"
                    (List.length processedReviews)
                    (Ingest.platform request) businessId |},
             console)
        end
    end.
Proof.
  intros (Hmethod & Hjson & Hid & Hplatform & Hbusiness).
  unfold Ingest.serve.
  rewrite (method_not_options _ Hmethod), Hjson, Hid.
  apply String.eqb_neq in Hplatform. rewrite Hplatform, Hbusiness.
  reflexivity.
Qed.

(** X23: whatever the request, the handler leaves the store as it is
    unless it answers with the "fetched successfully" response. *)
Lemma store_changes_only_when_processed
      (world : Ingest.World) (db : DB) (req : Ingest.Request) :
  (forall message reviews_processed platform businessId,
      Ingest.body (snd (fst (Ingest.serve world db req)))
      <> Ingest.Processed message reviews_processed platform businessId) ->
  fst (fst (Ingest.serve world db req)) = db.
Proof.
  unfold Ingest.serve.
  destruct (Ingest.http_method req =? "OPTIONS"); [reflexivity|].
  destruct (Ingest.json req) as [request|]; [|reflexivity].
  destruct (Ingest.business_id request) as [businessId|]; [|reflexivity].
  destruct (Ingest.platform request =? ""); [reflexivity|].
  destruct (select_business db businessId) as [business|]; [|reflexivity].
  destruct (Ingest.recentlyFetched world request business); [reflexivity|].
  destruct (Ingest.fetchReviews world (Ingest.platform request) business)
    as [error|batch]; [reflexivity|].
  destruct (Ingest.processAndStoreReviews _ _ _ _) as [[db1 done] log].
  cbn [fst snd Ingest.body]. intros Hnot.
  exfalso. exact (Hnot _ _ _ _ eq_refl).
Qed.

(* ================================================================== *)
(** ** The storing loop *)
(* ================================================================== *)

Lemma existsb_filter_length {A : Type} (f : A -> bool) (l : list A) :
  existsb f l = (0 <? List.length (filter f l))%nat.
Proof.
  induction l as [|x l IH]; simpl; [reflexivity|].
  destruct (f x); simpl; [reflexivity | exact IH].
Qed.

Lemma single_filter_existsb {A : Type} (f : A -> bool) (l : list A) (x : A) :
  single (filter f l) = Some x -> existsb f l = true.
Proof.
  rewrite existsb_filter_length.
  destruct (filter f l) as [|y rest]; simpl; [discriminate | reflexivity].
Qed.

Lemma filter_map_invariant {A : Type} (f : A -> bool) (g : A -> A)
      (l : list A) :
  (forall x, f (g x) = f x) ->
  List.length (filter f (map g l)) = List.length (filter f l).
Proof.
  intros Hfg. induction l as [|x l IH]; simpl; [reflexivity|].
  rewrite Hfg. destruct (f x); simpl; rewrite IH; reflexivity.
Qed.

Section Loop.

Variables (businessId : uuid) (platform : string).

Let step := Ingest.storeReview businessId platform.

(** Every turn ends in one of the three ways. *)
Lemma storeReview_turn (db : DB) (done : list Review.t)
      (log : list Ingest.Logged) (review : Ingest.ReviewData.t) :
  Ingest.turn businessId platform db done log review
              (step (db, done, log) review).
Proof.
  unfold step, Ingest.storeReview.
  destruct (select_review db businessId platform
              (Ingest.ReviewData.platform_review_id review))
    as [existing|] eqn:Hselect.
  - apply Ingest.turn_existing.
    exact (single_filter_existsb _ _ _ Hselect).
  - unfold insert_review.
    destruct (review_violation db _) as [e|] eqn:Hviolation.
    + apply Ingest.turn_rejected. exact Hviolation.
    + apply Ingest.turn_inserted. exact Hviolation.
Qed.

(** Updating the status of a review changes no dedup key, and a new row
    counts for its own key only. *)
Lemma rows_with_key_update (db : DB) (id : uuid) (p : option bool)
      (s : ProcessingStatus) (b : uuid) (pf k : string) :
  rows_with_key (update_review db id p s) b pf k = rows_with_key db b pf k.
Proof.
  unfold rows_with_key, update_review; simpl.
  apply filter_map_invariant.
  intros x. destruct (Review.id x =? id)%nat; reflexivity.
Qed.

Lemma rows_with_key_add (db : DB) (r : Review.t) (b : uuid) (pf k : string) :
  rows_with_key (add_review db r) b pf k
  = rows_with_key db b pf k + (if has_key b pf k r then 1 else 0).
Proof.
  unfold rows_with_key, add_review; simpl.
  rewrite filter_app, length_app. simpl.
  destruct (has_key b pf k r); reflexivity.
Qed.

(** An insert is accepted exactly when the review is acceptable and its
    key is not stored yet. *)
Lemma review_violation_none (db : DB) (review : Ingest.ReviewData.t) :
  review_violation db (Ingest.newReviewValues businessId platform review
                                 (next_uuid db)) = None
  <-> Ingest.acceptable db businessId platform review = true
      /\ rows_with_key db businessId platform
           (Ingest.ReviewData.platform_review_id review) = 0.
Proof.
  unfold review_violation, Ingest.acceptable, rows_with_key.
  cbn [Ingest.newReviewValues Review.platform Review.rating
       Review.business_id Review.platform_review_id Review.review_date].
  rewrite (existsb_filter_length
             (has_key businessId platform
                      (Ingest.ReviewData.platform_review_id review))
             (reviews db)).
  generalize (timestamptz_in db (Ingest.ReviewData.review_date review))
    as dated.
  generalize (existsb (String.eqb platform) platforms) as known.
  generalize ((1 <=? Ingest.ReviewData.rating review)%Z
              && (Ingest.ReviewData.rating review <=? 5)%Z) as rated.
  generalize (List.length
                (filter (has_key businessId platform
                           (Ingest.ReviewData.platform_review_id review))
                        (reviews db))) as stored.
  generalize (existsb (fun b => Business.id b =? businessId)%nat
                      (businesses db)) as owned.
  intros [|] [|m] [|] [|] [|]; simpl;
    (split;
     [ intros H; first [discriminate H | split; reflexivity]
     | intros [H1 H2]; first [discriminate H1 | discriminate H2
                             | reflexivity] ]).
Qed.

Lemma has_key_row (db : DB) (review : Ingest.ReviewData.t)
      (b : uuid) (pf k : string) :
  has_key b pf k (Ingest.newReviewValues businessId platform review
                                 (next_uuid db)) = true ->
  b = businessId /\ pf = platform
  /\ k = Ingest.ReviewData.platform_review_id review.
Proof.
  unfold has_key. simpl. intros H.
  apply andb_true_iff in H. destruct H as [H Hk].
  apply andb_true_iff in H. destruct H as [Hb Hp].
  apply Nat.eqb_eq in Hb. apply String.eqb_eq in Hp.
  apply String.eqb_eq in Hk. repeat split; congruence.
Qed.

Lemma has_key_row_own (db : DB) (review : Ingest.ReviewData.t) :
  has_key businessId platform (Ingest.ReviewData.platform_review_id review)
          (Ingest.newReviewValues businessId platform review
                                 (next_uuid db)) = true.
Proof.
  unfold has_key. simpl.
  rewrite Nat.eqb_refl, !String.eqb_refl. reflexivity.
Qed.

Lemma turn_businesses db done log review st' :
  Ingest.turn businessId platform db done log review st' ->
  businesses (fst (fst st')) = businesses db.
Proof. intros H; destruct H; reflexivity. Qed.

Lemma turn_timestamptz_in db done log review st' :
  Ingest.turn businessId platform db done log review st' ->
  timestamptz_in (fst (fst st')) = timestamptz_in db.
Proof. intros H; destruct H; reflexivity. Qed.

(** A turn removes no row. *)
Lemma turn_rows_le db done log review st' (b : uuid) (pf k : string) :
  Ingest.turn businessId platform db done log review st' ->
  rows_with_key db b pf k <= rows_with_key (fst (fst st')) b pf k.
Proof.
  intros H; destruct H; cbn [fst]; try lia.
  rewrite rows_with_key_update, rows_with_key_add. lia.
Qed.

(** A turn keeps a key that is stored at most once stored at most
    once. *)
Lemma turn_rows_unique db done log review st' (b : uuid) (pf k : string) :
  Ingest.turn businessId platform db done log review st' ->
  rows_with_key db b pf k <= 1 ->
  rows_with_key (fst (fst st')) b pf k <= 1.
Proof.
  intros H Hle; destruct H as [ | | Hnone]; cbn [fst]; try exact Hle.
  rewrite rows_with_key_update, rows_with_key_add.
  destruct (has_key b pf k
              (Ingest.newReviewValues businessId platform review
                                      (next_uuid db))) eqn:Hkey;
    [|lia].
  apply (has_key_row db review) in Hkey. destruct Hkey as (-> & -> & ->).
  apply (review_violation_none db review) in Hnone. lia.
Qed.

Lemma acceptable_businesses db db' review :
  businesses db' = businesses db ->
  timestamptz_in db' = timestamptz_in db ->
  Ingest.acceptable db' businessId platform review
  = Ingest.acceptable db businessId platform review.
Proof. unfold Ingest.acceptable. intros -> ->. reflexivity. Qed.

(** After its turn a review is settled... *)
Lemma turn_settles db done log review st' :
  Ingest.turn businessId platform db done log review st' ->
  Ingest.settled (fst (fst st')) businessId platform review.
Proof.
  intros H; destruct H as [Hexists | e Hsome | Hnone]; cbn [fst];
    unfold Ingest.settled.
  - right. unfold rows_with_key.
    rewrite existsb_filter_length in Hexists.
    apply Nat.ltb_lt in Hexists. exact Hexists.
  - destruct (Ingest.acceptable db businessId platform review) eqn:Hacc;
      [|left; reflexivity].
    right.
    destruct (rows_with_key db businessId platform
                (Ingest.ReviewData.platform_review_id review)) eqn:Hrows;
      [|lia].
    assert (Hnone : review_violation db (Ingest.newReviewValues businessId platform review
                                 (next_uuid db)) = None)
      by (apply review_violation_none; split; assumption).
    congruence.
  - right. rewrite rows_with_key_update, rows_with_key_add.
    rewrite (has_key_row_own db review). lia.
Qed.

(** ... a settled review stays settled through the turns of others... *)
Lemma turn_settled_mono db done log review st' review0 :
  Ingest.turn businessId platform db done log review st' ->
  Ingest.settled db businessId platform review0 ->
  Ingest.settled (fst (fst st')) businessId platform review0.
Proof.
  intros Hturn [Hacc | Hrows]; unfold Ingest.settled.
  - left.
    rewrite (acceptable_businesses db _ review0
               (turn_businesses _ _ _ _ _ Hturn)
               (turn_timestamptz_in _ _ _ _ _ Hturn)).
    exact Hacc.
  - right.
    pose proof (turn_rows_le _ _ _ _ _ businessId platform
                  (Ingest.ReviewData.platform_review_id review0) Hturn).
    lia.
Qed.

(** ... and the turn of a settled review leaves the store as it is. *)
Lemma turn_settled_noop db done log review st' :
  Ingest.turn businessId platform db done log review st' ->
  Ingest.settled db businessId platform review ->
  fst (fst st') = db.
Proof.
  intros Hturn Hsettled; destruct Hturn as [ | | Hnone]; cbn [fst];
    try reflexivity.
  apply (review_violation_none db review) in Hnone.
  destruct Hnone as [Hacc Hrows].
  destruct Hsettled as [Hno | Hpos]; [congruence | lia].
Qed.

(** A property of the store that every turn keeps is kept by the
    loop. *)
Lemma loop_keeps (P : DB -> Prop) :
  (forall db done log review st',
      Ingest.turn businessId platform db done log review st' ->
      P db -> P (fst (fst st'))) ->
  forall reviews st, P (fst (fst st)) ->
                     P (fst (fst (fold_left step reviews st))).
Proof.
  intros Hkeep reviews.
  induction reviews as [|review rest IH]; intros st Hst; cbn [fold_left];
    [exact Hst|].
  apply IH. destruct st as [[db done] log].
  exact (Hkeep db done log review _
               (storeReview_turn db done log review) Hst).
Qed.

(** After the loop every review of the batch is settled. *)
Lemma loop_settles (reviews : list Ingest.ReviewData.t) :
  forall st,
    Forall (Ingest.settled (fst (fst (fold_left step reviews st)))
                           businessId platform)
           reviews.
Proof.
  induction reviews as [|review rest IH]; intros st; cbn [fold_left];
    constructor; [|apply IH].
  apply (loop_keeps
           (fun db => Ingest.settled db businessId platform review)).
  - intros db done log r st' Hturn Hs.
    exact (turn_settled_mono _ _ _ _ _ _ Hturn Hs).
  - destruct st as [[db done] log].
    exact (turn_settles _ _ _ _ _ (storeReview_turn db done log review)).
Qed.

(** The loop over settled reviews leaves the store as it is. *)
Lemma loop_settled_noop (reviews : list Ingest.ReviewData.t) :
  forall db done log,
    Forall (Ingest.settled db businessId platform) reviews ->
    fst (fst (fold_left step reviews (db, done, log))) = db.
Proof.
  induction reviews as [|review rest IH]; intros db done log Hall;
    cbn [fold_left]; [reflexivity|].
  inversion Hall as [|? ? Hreview Hrest]; subst.
  pose proof (turn_settled_noop _ _ _ _ _
                (storeReview_turn db done log review) Hreview) as Hsame.
  destruct (step (db, done, log) review) as [[db1 done1] log1].
  cbn [fst] in Hsame. subst db1. apply IH. exact Hrest.
Qed.

(** The same for a property of the store, the array and the console. *)
Lemma loop_keeps_state
      (P : DB * list Review.t * list Ingest.Logged -> Prop) :
  (forall db done log review st',
      Ingest.turn businessId platform db done log review st' ->
      P (db, done, log) -> P st') ->
  forall reviews st, P st -> P (fold_left step reviews st).
Proof.
  intros Hkeep reviews.
  induction reviews as [|review rest IH]; intros st Hst; cbn [fold_left];
    [exact Hst|].
  apply IH. destruct st as [[db done] log].
  exact (Hkeep db done log review _
               (storeReview_turn db done log review) Hst).
Qed.

(** A turn keeps the pushed rows pending and their stored rows
    completed. *)
Lemma turn_handed_over db done log review st' :
  Ingest.turn businessId platform db done log review st' ->
  Ingest.handed_over db done ->
  Ingest.handed_over (fst (fst st')) (snd (fst st')).
Proof.
  intros Hturn Hinv; destruct Hturn as [ | | Hnone]; cbn [fst snd];
    try exact Hinv.
  set (new := Ingest.newReviewValues businessId platform review
                                     (next_uuid db)).
  set (upd := fun r : Review.t =>
                if (Review.id r =? next_uuid db)%nat
                then Review.with_status (Some true) completed r else r).
  assert (Hid : forall x, Review.id (upd x) = Review.id x).
  { intros x. unfold upd. destruct (Review.id x =? next_uuid db)%nat;
      reflexivity. }
  assert (Hrows : reviews (update_review (add_review db new) (next_uuid db)
                                         (Some true) completed)
                  = map upd (reviews db ++ [new])) by reflexivity.
  intros r Hr. rewrite Hrows. cbn [next_uuid update_review add_review].
  apply in_app_or in Hr. destruct Hr as [Hold | [<- | []]].
  - destruct (Hinv r Hold) as (Hp & Hf & Hlt & (stored & Hin & Hsame) & Hall).
    refine (conj Hp (conj Hf (conj _ (conj _ _)))); [lia | |].
    + exists (upd stored). split; [|rewrite Hid; exact Hsame].
      apply in_map, in_or_app. left. exact Hin.
    + intros stored' Hin' Hsame'.
      apply in_map_iff in Hin'. destruct Hin' as (x & <- & Hx).
      rewrite Hid in Hsame'.
      apply in_app_or in Hx. destruct Hx as [Hx | [<- | []]].
      * destruct (Hall x Hx Hsame') as [Hc Ht].
        unfold upd. destruct (Review.id x =? next_uuid db)%nat;
          [split; reflexivity | split; assumption].
      * unfold new in Hsame'. simpl in Hsame'. lia.
  - refine (conj eq_refl (conj eq_refl (conj _ (conj _ _)))).
    + unfold new. simpl. lia.
    + exists (upd new). split; [|apply Hid].
      apply in_map, in_or_app. right. left. reflexivity.
    + intros stored' Hin' Hsame'.
      apply in_map_iff in Hin'. destruct Hin' as (x & <- & Hx).
      rewrite Hid in Hsame'. unfold upd.
      replace (Review.id x =? next_uuid db)%nat with true
        by (symmetry; apply Nat.eqb_eq; exact Hsame').
      split; reflexivity.
Qed.

(** A turn pushes a row, writes a line, or does neither. *)
Lemma loop_counts (reviews : list Ingest.ReviewData.t) :
  forall st,
    List.length (snd (fst (fold_left step reviews st)))
    + List.length (snd (fold_left step reviews st))
    <= List.length (snd (fst st)) + List.length (snd st)
       + List.length reviews.
Proof.
  induction reviews as [|review rest IH]; intros st; cbn [fold_left];
    [simpl; lia|].
  specialize (IH (step st review)).
  destruct st as [[db done] log].
  destruct (storeReview_turn db done log review);
    cbn [fst snd List.length] in *; rewrite ?length_app in *;
    cbn [List.length] in *; lia.
Qed.

(** A turn from a store with rows pushed and lines written before: what
    it pushes and writes comes after them. *)
Lemma step_from (db : DB) (done : list Review.t) (log : list Ingest.Logged)
      (review : Ingest.ReviewData.t) :
  step (db, done, log) review
  = (fst (fst (step (db, [], []) review)),
     (done ++ snd (fst (step (db, [], []) review)))%list,
     (log ++ snd (step (db, [], []) review))%list).
Proof.
  unfold step, Ingest.storeReview.
  destruct (select_review db businessId platform
              (Ingest.ReviewData.platform_review_id review)).
  - cbn [fst snd]. rewrite !app_nil_r. reflexivity.
  - destruct (insert_review db _) as [e | [db1 row]]; cbn [fst snd app].
    + rewrite app_nil_r. reflexivity.
    + rewrite app_nil_r. reflexivity.
Qed.

Lemma loop_from (reviews : list Ingest.ReviewData.t) :
  forall db done log,
    fold_left step reviews (db, done, log)
    = (fst (fst (fold_left step reviews (db, [], []))),
       (done ++ snd (fst (fold_left step reviews (db, [], []))))%list,
       (log ++ snd (fold_left step reviews (db, [], [])))%list).
Proof.
  induction reviews as [|review rest IH]; intros db done log;
    cbn [fold_left].
  - cbn [fst snd]. rewrite !app_nil_r. reflexivity.
  - rewrite (step_from db done log review).
    destruct (step (db, [], []) review) as [[db1 done1] log1].
    cbn [fst snd].
    rewrite (IH db1 (done ++ done1)%list (log ++ log1)%list).
    rewrite (IH db1 done1 log1). cbn [fst snd].
    rewrite !app_assoc. reflexivity.
Qed.

(** The turn of a review whose key the look-up does not find and whose
    insert the store rejects: one line on the console, and nothing
    else. *)
Lemma step_rejected (db : DB) (done : list Review.t)
      (log : list Ingest.Logged) (review : Ingest.ReviewData.t)
      (insertError : StoreError) :
  select_review db businessId platform
                (Ingest.ReviewData.platform_review_id review) = None ->
  insert_review db (Ingest.newReviewValues businessId platform review)
  = inl insertError ->
  step (db, done, log) review
  = (db, done, (log ++ [Ingest.ErrorInsertingReview insertError])%list).
Proof.
  intros Hselect Hinsert. unfold step, Ingest.storeReview.
  rewrite Hselect, Hinsert. reflexivity.
Qed.

Lemma turn_console db done log review st' :
  Ingest.turn businessId platform db done log review st' ->
  Forall Ingest.is_insert_error log ->
  Forall Ingest.is_insert_error (snd st').
Proof.
  intros Hturn Hlog; destruct Hturn as [ | e He | ]; cbn [snd];
    try exact Hlog.
  apply Forall_app. split; [exact Hlog|].
  constructor; [exists e; reflexivity | constructor].
Qed.

End Loop.

(* ================================================================== *)
(** ** Properties of ingestion *)
(* ================================================================== *)

Lemma processAndStoreReviews_businesses
      (db : DB) (businessId : uuid) (platform : string)
      (batch : list Ingest.ReviewData.t) :
  businesses
    (fst (fst (Ingest.processAndStoreReviews db businessId platform batch)))
  = businesses db.
Proof.
  unfold Ingest.processAndStoreReviews.
  apply (loop_keeps businessId platform
           (fun db' => businesses db' = businesses db)); [|reflexivity].
  intros db0 done log review st' Hturn Hsame.
  rewrite (turn_businesses _ _ _ _ _ _ _ Hturn). exact Hsame.
Qed.

Lemma processAndStoreReviews_timestamptz_in
      (db : DB) (businessId : uuid) (platform : string)
      (batch : list Ingest.ReviewData.t) :
  timestamptz_in
    (fst (fst (Ingest.processAndStoreReviews db businessId platform batch)))
  = timestamptz_in db.
Proof.
  unfold Ingest.processAndStoreReviews.
  apply (loop_keeps businessId platform
           (fun db' => timestamptz_in db' = timestamptz_in db)); [|reflexivity].
  intros db0 done log review st' Hturn Hsame.
  rewrite (turn_timestamptz_in _ _ _ _ _ _ _ Hturn). exact Hsame.
Qed.




(** Writing the last-fetch timestamp keeps the businesses on record and
    the reviews, so it keeps settled reviews settled. *)
Lemma existsb_map_invariant {A : Type} (f : A -> bool) (g : A -> A)
      (l : list A) :
  (forall x, f (g x) = f x) -> existsb f (map g l) = existsb f l.
Proof.
  intros Hfg. induction l as [|x l IH]; simpl; [reflexivity|].
  rewrite Hfg, IH. reflexivity.
Qed.

Lemma filter_map_commute {A : Type} (f : A -> bool) (g : A -> A)
      (l : list A) :
  (forall x, f (g x) = f x) -> filter f (map g l) = map g (filter f l).
Proof.
  intros Hfg. induction l as [|x l IH]; simpl; [reflexivity|].
  rewrite Hfg, IH. destruct (f x); reflexivity.
Qed.

Lemma settled_update_last_review_fetch
      (db : DB) (id : uuid) (stamp : number)
      (businessId : uuid) (platform : string) (review : Ingest.ReviewData.t) :
  Ingest.settled db businessId platform review ->
  Ingest.settled (update_last_review_fetch db id stamp)
                 businessId platform review.
Proof.
  unfold Ingest.settled, Ingest.acceptable, rows_with_key,
    update_last_review_fetch.
  cbn [businesses reviews timestamptz_in].
  rewrite existsb_map_invariant; [exact (fun H => H)|].
  intros b. destruct (Business.id b =? id)%nat; reflexivity.
Qed.

Lemma select_business_update_last_review_fetch
      (db : DB) (id : uuid) (stamp : number) (business : Business.t) :
  select_business db id = Some business ->
  exists business',
    select_business (update_last_review_fetch db id stamp) id = Some business'.
Proof.
  unfold select_business, update_last_review_fetch. cbn [businesses].
  rewrite filter_map_commute
    by (intros b; destruct (Business.id b =? id)%nat eqn:E;
        cbn [Business.id]; rewrite ?E; reflexivity).
  destruct (filter _ (businesses db)) as [|b [|b' rest]]; simpl;
    try discriminate.
  intros _. eexists. reflexivity.
Qed.

(** X24: the handler, run twice with the fetch forced and the platform
    returning the same reviews both times, stores no review the first run
    did not store. *)
Lemma forced_ingestion_twice
      (world1 world2 : Ingest.World) (db : DB) (req : Ingest.Request)
      (request : Ingest.FetchReviewsRequest) (businessId : uuid)
      (business : Business.t) (batch : list Ingest.ReviewData.t) :
  Ingest.accepted db req request businessId business ->
  Ingest.force_refresh request = true ->
  (forall b, Ingest.fetchReviews world1 (Ingest.platform request) b
             = inr batch) ->
  (forall b, Ingest.fetchReviews world2 (Ingest.platform request) b
             = inr batch) ->
  reviews (fst (fst (Ingest.serve world2
                       (fst (fst (Ingest.serve world1 db req))) req)))
  = reviews (fst (fst (Ingest.serve world1 db req))).
Proof.
  intros Haccepted Hforce Hfetch1 Hfetch2.
  assert (Hforced : forall world b,
             Ingest.recentlyFetched world request b = None).
  { intros world b. unfold Ingest.recentlyFetched.
    rewrite Hforce. destruct (Business.last_review_fetch b); reflexivity. }
  rewrite (serve_accepted world1 db req request businessId business Haccepted).
  rewrite Hforced, Hfetch1.
  pose proof (loop_settles businessId (Ingest.platform request) batch
                (db, [], [])) as Hsettled.
  pose proof (processAndStoreReviews_businesses
                db businessId (Ingest.platform request) batch) as Hbusinesses.
  unfold Ingest.processAndStoreReviews in *.
  destruct (fold_left _ batch (db, [], [])) as [[db1 done1] log1].
  cbn [fst snd] in *.
  destruct Haccepted as (Hm & Hj & Hi & Hp & Hb).
  assert (Hb1 : select_business db1 businessId = Some business)
    by (unfold select_business in *; rewrite Hbusinesses; exact Hb).
  destruct (select_business_update_last_review_fetch
              db1 businessId (Ingest.stamp world1) business Hb1)
    as [business' Hb'].
  rewrite (serve_accepted world2 _ req request businessId business'
             (conj Hm (conj Hj (conj Hi (conj Hp Hb'))))).
  rewrite Hforced, Hfetch2.
  pose proof (loop_settled_noop businessId (Ingest.platform request) batch
                (update_last_review_fetch db1 businessId (Ingest.stamp world1))
                [] []) as Hnoop.
  unfold Ingest.processAndStoreReviews.
  destruct (fold_left _ batch (update_last_review_fetch _ _ _, [], []))
    as [[db2 done2] log2].
  cbn [fst snd] in *.
  rewrite Hnoop; [reflexivity|].
  eapply Forall_impl; [|exact Hsettled].
  intros review. apply settled_update_last_review_fetch.
Qed.

(** C5, as stated, fails: after the handler has ingested one new review,
    the stored row is completed and processed, not pending. *)
Lemma ingested_review_is_completed :
  let out := Ingest.serve (Sample.google_returns [Sample.five_stars])
                          Sample.empty_store (Sample.fetch_google false) in
  map (fun r => (Review.processing_status r, Review.is_processed r))
      (reviews (fst (fst out)))
  = [(completed, true)]
  /\ completed <> pending.
Proof.
  cbv zeta. split; [vm_compute; reflexivity | discriminate].
Qed.

(** C5, amended: every review newly persisted by the storing pass is
    inserted with processing status pending, and is returned so in the
    list of processed reviews; the pass then marks its stored row
    completed and processed, which is its state when the pass returns. *)
Theorem ingested_reviews_inserted_pending_left_completed
        (db : DB) (businessId : uuid) (platform : string)
        (batch : list Ingest.ReviewData.t) (row : Review.t) :
  let out := Ingest.processAndStoreReviews db businessId platform batch in
  In row (snd (fst out)) ->
  (Review.processing_status row = pending
   /\ Review.is_processed row = false)
  /\ (exists stored,
         In stored (reviews (fst (fst out)))
         /\ Review.id stored = Review.id row)
  /\ (forall stored,
         In stored (reviews (fst (fst out))) ->
         Review.id stored = Review.id row ->
         Review.processing_status stored = completed
         /\ Review.is_processed stored = true).
Proof.
  cbv zeta. intros Hrow.
  assert (Hinv :
            Ingest.handed_over
              (fst (fst (Ingest.processAndStoreReviews
                           db businessId platform batch)))
              (snd (fst (Ingest.processAndStoreReviews
                           db businessId platform batch)))).
  { unfold Ingest.processAndStoreReviews.
    apply (loop_keeps_state businessId platform
             (fun st => Ingest.handed_over (fst (fst st)) (snd (fst st)))).
    - intros db0 done log review st' Hturn Hst.
      exact (turn_handed_over _ _ _ _ _ _ _ Hturn Hst).
    - intros r []. }
  destruct (Hinv row Hrow) as (Hp & Hf & _ & Hex & Hall).
  exact (conj (conj Hp Hf) (conj Hex Hall)).
Qed.

(** At the sample store and one fetched review. *)
Lemma ingested_reviews_inserted_pending_left_completed_witness :
  map Review.processing_status
      (snd (fst (Ingest.processAndStoreReviews
                   Sample.empty_store 1 "google" [Sample.five_stars])))
  = [pending]
  /\ Review.processing_status
       (Ingest.newReviewValues 1 "google" Sample.five_stars 2) = pending.
Proof.
  split; [reflexivity|].
  apply (ingested_reviews_inserted_pending_left_completed
           Sample.empty_store 1 "google" [Sample.five_stars]
           (Ingest.newReviewValues 1 "google" Sample.five_stars 2)).
  vm_compute. left. reflexivity.
Defined.

(** C8, as stated, fails: a pass in which one of two fetched reviews is
    rejected by the store answers exactly as a pass that fetched the other
    review alone; the failure is on the console only. *)
Lemma failed_insert_not_in_response :
  let partial := Ingest.serve
                   (Sample.google_returns [Sample.five_stars; Sample.unrated])
                   Sample.empty_store (Sample.fetch_google false) in
  let clean := Ingest.serve
                 (Sample.google_returns [Sample.five_stars])
                 Sample.empty_store (Sample.fetch_google false) in
  snd partial
  = [Ingest.ErrorInsertingReview (check_violation "reviews_rating_check")]
  /\ snd clean = []
  /\ snd (fst partial) = snd (fst clean)
  /\ snd (fst partial)
     = {| Ingest.status := 200;
          Ingest.body :=
            Ingest.Processed "Reviews fetched successfully" 1 "google" 1 |}.
Proof.
  cbv zeta. vm_compute. repeat split.
Qed.

(** The pass over a batch in which the insert of one review is rejected:
    the reviews before it are stored as they are without it, the review
    leaves one line on the console, the store and the returned rows as
    they were, and the reviews after it are stored as a pass over them
    alone stores them. *)
Lemma pass_over_rejected
      (db : DB) (businessId : uuid) (platform : string)
      (before after : list Ingest.ReviewData.t)
      (review : Ingest.ReviewData.t) (insertError : StoreError) :
  let earlier := Ingest.processAndStoreReviews db businessId platform before in
  let later :=
    Ingest.processAndStoreReviews (fst (fst earlier)) businessId platform
                                  after in
  select_review (fst (fst earlier)) businessId platform
                (Ingest.ReviewData.platform_review_id review) = None ->
  insert_review (fst (fst earlier))
                (Ingest.newReviewValues businessId platform review)
  = inl insertError ->
  Ingest.processAndStoreReviews db businessId platform
                                (before ++ review :: after)
  = (fst (fst later),
     (snd (fst earlier) ++ snd (fst later))%list,
     (snd earlier ++ Ingest.ErrorInsertingReview insertError :: snd later)%list).
Proof.
  cbv zeta. unfold Ingest.processAndStoreReviews.
  rewrite fold_left_app. cbn [fold_left].
  destruct (fold_left _ before (db, [], [])) as [[db0 done0] log0].
  cbn [fst snd]. intros Hselect Hinsert.
  rewrite (step_rejected businessId platform db0 done0 log0 review
             insertError Hselect Hinsert).
  rewrite (loop_from businessId platform after db0 done0 _).
  rewrite <- app_assoc. reflexivity.
Qed.

(** C8, amended: when reviews of a pass fail to persist, the pass still
    answers with the success response, which carries only the number of
    reviews inserted.  Every failure is written to the console as an
    "Error inserting review" line and the pass goes on with the next
    review: a review whose key the look-up does not find and whose insert
    the store rejects leaves exactly one line with the error of the store,
    after the lines of the reviews before it and before those of the
    reviews after it; it changes neither the store nor the returned rows,
    and the reviews after it are stored as a pass over them alone stores
    them.  The console holds nothing but such lines, and the inserted
    reviews and the lines together are at most the fetched reviews. *)
Theorem failures_logged_and_counted_out
        (world : Ingest.World) (db : DB) (req : Ingest.Request)
        (request : Ingest.FetchReviewsRequest) (businessId : uuid)
        (business : Business.t) (batch : list Ingest.ReviewData.t) :
  Ingest.accepted db req request businessId business ->
  Ingest.recentlyFetched world request business = None ->
  Ingest.fetchReviews world (Ingest.platform request) business = inr batch ->
  let stored :=
    Ingest.processAndStoreReviews
      db businessId (Ingest.platform request) batch in
  snd (fst (Ingest.serve world db req))
  = {| Ingest.status := 200;
       Ingest.body :=
         Ingest.Processed "Reviews fetched successfully"
           (List.length (snd (fst stored)))
           (Ingest.platform request) businessId |}
  /\ snd (Ingest.serve world db req) = snd stored
  /\ Forall Ingest.is_insert_error (snd stored)
  /\ List.length (snd (fst stored)) + List.length (snd stored)
     <= List.length batch
  /\ (forall before review after insertError,
         batch = (before ++ review :: after)%list ->
         let earlier :=
           Ingest.processAndStoreReviews
             db businessId (Ingest.platform request) before in
         let later :=
           Ingest.processAndStoreReviews
             (fst (fst earlier)) businessId (Ingest.platform request) after in
         select_review (fst (fst earlier)) businessId (Ingest.platform request)
                       (Ingest.ReviewData.platform_review_id review) = None ->
         insert_review (fst (fst earlier))
                       (Ingest.newReviewValues
                          businessId (Ingest.platform request) review)
         = inl insertError ->
         fst (fst stored) = fst (fst later)
         /\ snd (fst stored) = (snd (fst earlier) ++ snd (fst later))%list
         /\ snd stored
            = (snd earlier
                 ++ Ingest.ErrorInsertingReview insertError :: snd later)%list).
Proof.
  intros Haccepted Hnot Hfetch. cbv zeta.
  rewrite (serve_accepted world db req request businessId business Haccepted).
  rewrite Hnot, Hfetch.
  split; [|split; [|split; [|split]]].
  - destruct (Ingest.processAndStoreReviews _ _ _ _) as [[db1 done] log].
    reflexivity.
  - destruct (Ingest.processAndStoreReviews _ _ _ _) as [[db1 done] log].
    reflexivity.
  - unfold Ingest.processAndStoreReviews.
    apply (loop_keeps_state businessId (Ingest.platform request)
             (fun st => Forall Ingest.is_insert_error (snd st)));
      [|constructor].
    intros db0 done log review st' Hturn Hlog.
    exact (turn_console _ _ _ _ _ _ _ Hturn Hlog).
  - unfold Ingest.processAndStoreReviews.
    exact (loop_counts businessId (Ingest.platform request) batch (db, [], [])).
  - intros before review after insertError -> Hselect Hinsert.
    pose proof (pass_over_rejected db businessId (Ingest.platform request)
                  before after review insertError) as Hpass.
    cbv zeta in Hpass. rewrite (Hpass Hselect Hinsert). cbn [fst snd].
    repeat split.
Qed.

(** At a batch of one acceptable review and one without a rating: the
    response counts one review, and the console holds the line of the
    other. *)
Lemma failures_logged_and_counted_out_witness :
  snd (fst (Ingest.serve
              (Sample.google_returns [Sample.five_stars; Sample.unrated])
              Sample.empty_store (Sample.fetch_google false)))
  = {| Ingest.status := 200;
       Ingest.body :=
         Ingest.Processed "Reviews fetched successfully" 1 "google" 1 |}
  /\ snd (Ingest.processAndStoreReviews
            Sample.empty_store 1 "google" [Sample.five_stars; Sample.unrated])
     = [Ingest.ErrorInsertingReview (check_violation "reviews_rating_check")].
Proof.
  pose proof (failures_logged_and_counted_out
                (Sample.google_returns [Sample.five_stars; Sample.unrated])
                Sample.empty_store (Sample.fetch_google false)
                {| Ingest.business_id := Some 1;
                   Ingest.platform := "google";
                   Ingest.force_refresh := false |}
                1 Sample.cafe [Sample.five_stars; Sample.unrated]) as H.
  cbv zeta in H.
  destruct H as (Hresponse & _ & _ & _ & Hfailure).
  - repeat split; simpl; discriminate.
  - reflexivity.
  - reflexivity.
  - split; [exact Hresponse|].
    destruct (Hfailure [Sample.five_stars] Sample.unrated []
                       (check_violation "reviews_rating_check") eq_refl)
      as (_ & _ & Hconsole).
    + reflexivity.
    + reflexivity.
    + exact Hconsole.
Defined.

(* ================================================================== *)
(** ** Further properties of the classification engine *)
(* ================================================================== *)

(** What more holds of the scoring at given counters: the label as an
    integer comparison of the counters, the values at one-sided and at
    balanced counters, and the CHECK ranges of [sentiment_analysis]. *)
Lemma scoring_table :
  Scoring.below 22 (fun p => Scoring.below 22 (fun n =>
    Sentiment_eqb (Scoring.label p n) positive = (3 * n <? 2 * p)%nat
    /\ Sentiment_eqb (Scoring.label p n) negative = (3 * p <? 2 * n)%nat
    /\ (if (0 <? p)%nat && (n =? 0)%nat
        then Scoring.score p n = 1%float
             /\ Scoring.confidence p n = 0.8%float
        else True)
    /\ (if (p =? 0)%nat && (0 <? n)%nat
        then Scoring.score p n = (-1)%float
             /\ Scoring.confidence p n = 0.8%float
        else True)
    /\ (if (p =? n)%nat
        then Scoring.score p n = 0%float
             /\ Scoring.confidence p n = 0.5%float
        else True)
    /\ ((-1 <=? Scoring.score p n)%float
        && (Scoring.score p n <=? 1)%float = true)
    /\ ((0 <=? Scoring.confidence p n)%float
        && (Scoring.confidence p n <=? 1)%float = true))).
Proof.
  vm_compute. repeat split.
Qed.

Lemma scoring_bounded (p n : nat) :
  p <= 21 -> n <= 21 ->
  Sentiment_eqb (Scoring.label p n) positive = (3 * n <? 2 * p)%nat
  /\ Sentiment_eqb (Scoring.label p n) negative = (3 * p <? 2 * n)%nat
  /\ (if (0 <? p)%nat && (n =? 0)%nat
      then Scoring.score p n = 1%float
           /\ Scoring.confidence p n = 0.8%float
      else True)
  /\ (if (p =? 0)%nat && (0 <? n)%nat
      then Scoring.score p n = (-1)%float
           /\ Scoring.confidence p n = 0.8%float
      else True)
  /\ (if (p =? n)%nat
      then Scoring.score p n = 0%float
           /\ Scoring.confidence p n = 0.5%float
      else True)
  /\ ((-1 <=? Scoring.score p n)%float
      && (Scoring.score p n <=? 1)%float = true)
  /\ ((0 <=? Scoring.confidence p n)%float
      && (Scoring.confidence p n <=? 1)%float = true).
Proof.
  intros Hp Hn.
  pose proof (below_spec 22 _ scoring_table p ltac:(lia)) as Hrow.
  exact (below_spec 22 _ Hrow n ltac:(lia)).
Qed.

Lemma analyzeSentiment_scoring (text : string) :
  let p := countHits (toLowerCase text) positiveWords in
  let n := countHits (toLowerCase text) negativeWords in
  Sentiment_eqb (Scoring.label p n) positive = (3 * n <? 2 * p)%nat
  /\ Sentiment_eqb (Scoring.label p n) negative = (3 * p <? 2 * n)%nat
  /\ (if (0 <? p)%nat && (n =? 0)%nat
      then Scoring.score p n = 1%float
           /\ Scoring.confidence p n = 0.8%float
      else True)
  /\ (if (p =? 0)%nat && (0 <? n)%nat
      then Scoring.score p n = (-1)%float
           /\ Scoring.confidence p n = 0.8%float
      else True)
  /\ (if (p =? n)%nat
      then Scoring.score p n = 0%float
           /\ Scoring.confidence p n = 0.5%float
      else True)
  /\ ((-1 <=? Scoring.score p n)%float
      && (Scoring.score p n <=? 1)%float = true)
  /\ ((0 <=? Scoring.confidence p n)%float
      && (Scoring.confidence p n <=? 1)%float = true).
Proof.
  apply scoring_bounded;
    [apply positiveCount_bound | apply negativeCount_bound].
Qed.

(** X1: the label is decided by the two counters as integers: positive
    exactly when twice the positive terms found exceed three times the
    negative ones, negative exactly when twice the negative ones exceed
    three times the positive ones, and neutral otherwise. *)
Theorem label_by_term_counts (random : number) (text : string) :
  let r := analyzeSentiment random text in
  let p := positive_words_found (analysis_metadata r) in
  let n := negative_words_found (analysis_metadata r) in
  (overall_sentiment r = positive <-> 3 * n < 2 * p)
  /\ (overall_sentiment r = negative <-> 3 * p < 2 * n)
  /\ (overall_sentiment r = neutral <-> 2 * p <= 3 * n /\ 2 * n <= 3 * p).
Proof.
  cbv zeta. rewrite (analyzeSentiment_eq random text). cbv zeta.
  cbn [overall_sentiment analysis_metadata positive_words_found
       negative_words_found].
  generalize (analyzeSentiment_scoring text). cbv zeta.
  generalize (countHits (toLowerCase text) positiveWords) as p.
  generalize (countHits (toLowerCase text) negativeWords) as n.
  intros n p (Hpos & Hneg & _).
  symmetry in Hpos, Hneg.
  destruct (Scoring.label p n); simpl in Hpos, Hneg;
    first [apply Nat.ltb_lt in Hpos | apply Nat.ltb_ge in Hpos];
    first [apply Nat.ltb_lt in Hneg | apply Nat.ltb_ge in Hneg];
    (split; [|split]); split; intros H;
    first [reflexivity | discriminate H | lia].
Qed.

(** X2: a text with positive terms only scores 1 and a text with negative
    terms only scores -1, both with confidence 0.8; a text with as many
    positive as negative terms, none at all included, scores 0 with
    confidence 0.5. *)
Theorem one_sided_and_balanced_scores (random : number) (text : string) :
  let r := analyzeSentiment random text in
  let p := positive_words_found (analysis_metadata r) in
  let n := negative_words_found (analysis_metadata r) in
  (0 < p -> n = 0 ->
   overall_sentiment r = positive
   /\ sentiment_score r = 1%float /\ confidence_score r = 0.8%float)
  /\ (p = 0 -> 0 < n ->
      overall_sentiment r = negative
      /\ sentiment_score r = (-1)%float /\ confidence_score r = 0.8%float)
  /\ (p = n ->
      overall_sentiment r = neutral
      /\ sentiment_score r = 0%float /\ confidence_score r = 0.5%float).
Proof.
  cbv zeta. rewrite (analyzeSentiment_eq random text). cbv zeta.
  cbn [overall_sentiment sentiment_score confidence_score analysis_metadata
       positive_words_found negative_words_found].
  generalize (analyzeSentiment_scoring text). cbv zeta.
  generalize (countHits (toLowerCase text) positiveWords) as p.
  generalize (countHits (toLowerCase text) negativeWords) as n.
  intros n p (Hpos & Hneg & Hp & Hn & Hsame & _).
  split; [|split].
  - intros H0 ->. replace (0 <? p)%nat with true in Hp
      by (symmetry; apply Nat.ltb_lt; exact H0).
    simpl in Hp. split; [|exact Hp].
    apply Sentiment_eqb_eq. rewrite Hpos. apply Nat.ltb_lt. lia.
  - intros -> H0. replace (0 <? n)%nat with true in Hn
      by (symmetry; apply Nat.ltb_lt; exact H0).
    simpl in Hn. split; [|exact Hn].
    apply Sentiment_eqb_eq. rewrite Hneg. apply Nat.ltb_lt. lia.
  - intros ->. rewrite Nat.eqb_refl in Hsame. split; [|exact Hsame].
    destruct (Scoring.label n n); simpl in *; try reflexivity.
    + symmetry in Hpos. apply Nat.ltb_lt in Hpos. lia.
    + symmetry in Hneg. apply Nat.ltb_lt in Hneg. lia.
Qed.

(** At the three scenario texts: positive terms only, negative terms
    only, no term. *)
Lemma one_sided_and_balanced_scores_witness :
  sentiment_score
    (analyzeSentiment 0 "Amazing coffee and friendly staff, highly recommend")
  = 1%float
  /\ sentiment_score
       (analyzeSentiment 0 "Terrible, slow, rude staff, avoid this place")
     = (-1)%float
  /\ confidence_score
       (analyzeSentiment 0 "It was a place. We went there on Tuesday.")
     = 0.5%float.
Proof.
  split; [|split].
  - apply (one_sided_and_balanced_scores
             0%float "Amazing coffee and friendly staff, highly recommend");
      vm_compute; [lia | reflexivity].
  - apply (one_sided_and_balanced_scores
             0%float "Terrible, slow, rude staff, avoid this place");
      vm_compute; [reflexivity | lia].
  - apply (one_sided_and_balanced_scores
             0%float "It was a place. We went there on Tuesday.").
    vm_compute. reflexivity.
Defined.

Lemma lower_unit_idempotent (c : ascii) :
  lower_unit (lower_unit c) = lower_unit c.
Proof.
  destruct c as [[|] [|] [|] [|] [|] [|] [|] [|]]; vm_compute; reflexivity.
Qed.

Lemma toLowerCase_idempotent (s : string) :
  toLowerCase (toLowerCase s) = toLowerCase s.
Proof.
  induction s as [|c r IH]; simpl; [reflexivity|].
  rewrite lower_unit_idempotent, IH. reflexivity.
Qed.

(** X3: classification does not see the case of the text: a text and its
    lower case get the same label, score, confidence, topics and
    counters. *)
Theorem lowercasing_keeps_classification (random : number) (text : string) :
  let r := analyzeSentiment random text in
  let r' := analyzeSentiment random (toLowerCase text) in
  overall_sentiment r' = overall_sentiment r
  /\ sentiment_score r' = sentiment_score r
  /\ confidence_score r' = confidence_score r
  /\ key_topics r' = key_topics r
  /\ positive_words_found (analysis_metadata r')
     = positive_words_found (analysis_metadata r)
  /\ negative_words_found (analysis_metadata r')
     = negative_words_found (analysis_metadata r).
Proof.
  cbv zeta.
  rewrite (analyzeSentiment_eq random text),
    (analyzeSentiment_eq random (toLowerCase text)).
  cbv zeta. unfold extractKeyTopics.
  rewrite toLowerCase_idempotent.
  cbn [overall_sentiment sentiment_score confidence_score key_topics
       analysis_metadata positive_words_found negative_words_found].
  repeat split.
Qed.

(** *** Topics *)

Lemma existsb_eqb_absent (t : string) (l : list string) :
  ~ In t l -> existsb (String.eqb t) l = false.
Proof.
  intros Hnot. destruct (existsb (String.eqb t) l) eqn:E; [|reflexivity].
  apply existsb_exists in E. destruct E as (x & Hx & Heq).
  apply String.eqb_eq in Heq. subst x. contradiction.
Qed.

Lemma set_add_twice (t : string) (l : list string) :
  set_add t (set_add t l) = set_add t l.
Proof.
  unfold set_add.
  destruct (existsb (String.eqb t) l) eqn:E; [rewrite E; reflexivity|].
  rewrite existsb_app. simpl. rewrite String.eqb_refl, orb_true_r.
  reflexivity.
Qed.

(** The loop over the keywords of one topic adds the topic when one of
    them is included. *)
Lemma keywords_loop (inc : string -> bool) (t : string)
      (keywords : list string) :
  forall topics,
    fold_left (fun topics keyword =>
                 if inc keyword then set_add t topics else topics)
              keywords topics
    = if existsb inc keywords then set_add t topics else topics.
Proof.
  induction keywords as [|k rest IH]; intros topics; cbn [fold_left existsb];
    [reflexivity|].
  rewrite IH. destruct (inc k); cbn [orb]; [|reflexivity].
  rewrite set_add_twice. destruct (existsb inc rest); reflexivity.
Qed.

(** The loop over the groups, when no two groups have the same topic and
    none of the topics is in the set yet. *)
Lemma groups_loop (inc : string -> bool)
      (groups : list (string * list string)) :
  NoDup (map fst groups) ->
  forall topics,
    (forall t, In t (map fst groups) -> ~ In t topics) ->
    fold_left
      (fun topics entry =>
         let '(topic, keywords) := entry in
         fold_left (fun topics keyword =>
                      if inc keyword then set_add topic topics else topics)
                   keywords topics)
      groups topics
    = (topics
         ++ map fst (filter (fun entry => existsb inc (snd entry)) groups))%list.
Proof.
  induction groups as [|[t keywords] rest IH]; intros Hnodup topics Hnew;
    cbn [fold_left filter map fst snd].
  - rewrite app_nil_r. reflexivity.
  - cbn [map fst] in Hnodup. inversion Hnodup as [|? ? Hhead Htail]; subst.
    rewrite keywords_loop.
    destruct (existsb inc keywords) eqn:Hany.
    + unfold set_add.
      rewrite (existsb_eqb_absent t topics)
        by (apply Hnew; left; reflexivity).
      rewrite IH; [| exact Htail |].
      * cbn [map fst]. rewrite <- app_assoc. reflexivity.
      * intros t' Hin Hold. apply in_app_or in Hold.
        destruct Hold as [Hold | [<- | []]].
        -- exact (Hnew t' (or_intror Hin) Hold).
        -- exact (Hhead Hin).
    + apply IH; [exact Htail|].
      intros t' Hin. apply Hnew. right. exact Hin.
Qed.

Lemma NoDup_map_filter {A B : Type} (f : A -> B) (g : A -> bool)
      (l : list A) :
  NoDup (map f l) -> NoDup (map f (filter g l)).
Proof.
  induction l as [|x l IH]; simpl; intros H; [constructor|].
  inversion H as [|? ? Hhead Htail]; subst.
  destruct (g x); simpl; [|exact (IH Htail)].
  constructor; [|exact (IH Htail)].
  intros Hin. apply Hhead.
  apply in_map_iff in Hin. destruct Hin as (y & Hy & Hin).
  apply filter_In in Hin. apply in_map_iff. exists y. tauto.
Qed.

Lemma topic_names_distinct : NoDup (map fst topicKeywords).
Proof.
  cbn [map fst topicKeywords].
  repeat (constructor; [simpl; intuition discriminate|]).
  constructor.
Qed.

(** X4: the topics of a text are the topics of the keyword table that
    have a keyword included in the lowercased text, in the order of the
    table and each once. *)
Theorem topics_are_matching_groups (text : string) :
  extractKeyTopics text
  = map fst (filter (fun entry =>
                       existsb (includes (toLowerCase text)) (snd entry))
                    topicKeywords)
  /\ NoDup (extractKeyTopics text)
  /\ (forall topic,
         In topic (extractKeyTopics text) <->
         exists keywords keyword,
           In (topic, keywords) topicKeywords
           /\ In keyword keywords
           /\ includes (toLowerCase text) keyword = true).
Proof.
  assert (Hform :
            extractKeyTopics text
            = map fst (filter (fun entry =>
                                 existsb (includes (toLowerCase text))
                                         (snd entry))
                              topicKeywords)).
  { unfold extractKeyTopics. cbv zeta.
    rewrite (groups_loop (includes (toLowerCase text)) topicKeywords
               topic_names_distinct []); [reflexivity|].
    intros t _ []. }
  split; [exact Hform|]. rewrite Hform. split.
  - apply NoDup_map_filter. exact topic_names_distinct.
  - intros topic. rewrite in_map_iff. split.
    + intros ([t keywords] & <- & Hin). apply filter_In in Hin.
      destruct Hin as [Hin Hany]. cbn [snd] in Hany.
      apply existsb_exists in Hany. destruct Hany as (keyword & Hk & Hinc).
      exists keywords, keyword. cbn [fst]. tauto.
    + intros (keywords & keyword & Hin & Hk & Hinc).
      exists (topic, keywords). split; [reflexivity|].
      apply filter_In. split; [exact Hin|]. cbn [snd].
      apply existsb_exists. exists keyword. tauto.
Qed.

(** *** Words *)

Lemma split_from_length (sep : ascii) (s : string) :
  forall cur,
    List.length (split_from sep s cur) = S (Shape.count_units sep s).
Proof.
  induction s as [|c r IH]; intros cur; cbn [split_from Shape.count_units];
    [reflexivity|].
  destruct (Ascii.eqb c sep); cbn [List.length]; rewrite IH; reflexivity.
Qed.

Lemma append_unit (cur : string) (c : ascii) (r : string) :
  ((cur ++ String c EmptyString) ++ r)%string = (cur ++ String c r)%string.
Proof. induction cur as [|d cur IH]; simpl; [|rewrite IH]; reflexivity. Qed.

Lemma split_from_concat (sep : ascii) (s : string) :
  forall cur,
    String.concat (String sep EmptyString) (split_from sep s cur)
    = (cur ++ s)%string.
Proof.
  induction s as [|c r IH]; intros cur; cbn [split_from].
  - simpl. induction cur as [|d cur IHc]; simpl; [reflexivity|].
    f_equal. exact IHc.
  - destruct (Ascii.eqb c sep) eqn:E.
    + apply Ascii.eqb_eq in E. subst c.
      pose proof (split_from_length sep r EmptyString) as Hlen.
      pose proof (IH EmptyString) as Hrest.
      destruct (split_from sep r EmptyString) as [|piece pieces];
        [discriminate Hlen|].
      change (String.concat (String sep EmptyString) (cur :: piece :: pieces))
        with (cur ++ String sep EmptyString
                  ++ String.concat (String sep EmptyString) (piece :: pieces))%string.
      rewrite Hrest. reflexivity.
    + rewrite IH. apply append_unit.
Qed.

(** X5: the word count of the metadata is one more than the number of
    spaces of the text, so the empty text counts one word and every
    doubled space counts an empty one; the split it comes from loses
    nothing: joining its pieces with spaces gives the text back. *)
Theorem words_are_space_separated_pieces (random : number) (text : string) :
  total_words_analyzed (analysis_metadata (analyzeSentiment random text))
  = S (Shape.count_units " " text)
  /\ String.concat " " (split " " text) = text.
Proof.
  rewrite (analyzeSentiment_eq random text). cbv zeta.
  cbn [analysis_metadata total_words_analyzed].
  unfold split. split.
  - apply split_from_length.
  - apply (split_from_concat " " text EmptyString).
Qed.

(** *** Key phrases *)

Lemma push_loop {A B : Type} (keep : A -> bool) (g : A -> B) (l : list A) :
  forall acc,
    fold_left (fun acc x => if keep x then (acc ++ [g x])%list else acc) l acc
    = (acc ++ map g (filter keep l))%list.
Proof.
  induction l as [|x l IH]; intros acc; cbn [fold_left filter].
  - rewrite app_nil_r. reflexivity.
  - rewrite IH. destruct (keep x); [|reflexivity].
    cbn [map]. rewrite <- app_assoc. reflexivity.
Qed.

Lemma all_units_append (f : ascii -> bool) (a b : string) :
  Shape.all_units f (a ++ b)
  = Shape.all_units f a && Shape.all_units f b.
Proof.
  induction a as [|c a IH]; simpl; [reflexivity|].
  rewrite IH, andb_assoc. reflexivity.
Qed.

(** No piece of the split at terminators holds a terminator. *)
Lemma split_runs_from_clean (s : string) :
  forall cur inrun piece,
    Shape.all_units (fun c => negb (is_terminator c)) cur = true ->
    In piece (split_runs_from s cur inrun) ->
    Shape.all_units (fun c => negb (is_terminator c)) piece = true.
Proof.
  induction s as [|c r IH]; intros cur inrun piece Hcur Hin;
    cbn [split_runs_from] in Hin.
  - destruct Hin as [<- | []]. exact Hcur.
  - destruct (is_terminator c) eqn:Hc.
    + destruct inrun.
      * exact (IH cur true piece Hcur Hin).
      * destruct Hin as [<- | Hin]; [exact Hcur|].
        exact (IH EmptyString true piece eq_refl Hin).
    + apply (IH (cur ++ String c EmptyString)%string false piece); [|exact Hin].
      rewrite all_units_append, Hcur. simpl. rewrite Hc. reflexivity.
Qed.

Lemma trimStart_units (f : ascii -> bool) (s : string) :
  Shape.all_units f s = true -> Shape.all_units f (trimStart s) = true.
Proof.
  induction s as [|c r IH]; simpl; intros H; [reflexivity|].
  apply andb_true_iff in H. destruct H as [Hc Hr].
  destruct (is_space c); [exact (IH Hr)|].
  simpl. rewrite Hc, Hr. reflexivity.
Qed.

Lemma trimEnd_units (f : ascii -> bool) (s : string) :
  Shape.all_units f s = true -> Shape.all_units f (trimEnd s) = true.
Proof.
  induction s as [|c r IH]; simpl; intros H; [reflexivity|].
  apply andb_true_iff in H. destruct H as [Hc Hr].
  specialize (IH Hr).
  destruct (trimEnd r) as [|d r'].
  - destruct (is_space c); simpl; [reflexivity|].
    rewrite Hc. reflexivity.
  - cbn [Shape.all_units] in *. rewrite Hc, IH. reflexivity.
Qed.

Lemma trimStart_first (s : string) :
  Shape.not_space (Shape.first_unit (trimStart s)).
Proof.
  induction s as [|c r IH]; simpl; [exact I|].
  destruct (is_space c) eqn:Hc; [exact IH | exact Hc].
Qed.

Lemma trimEnd_first (s : string) :
  Shape.not_space (Shape.first_unit s) ->
  Shape.not_space (Shape.first_unit (trimEnd s)).
Proof.
  destruct s as [|c r]; simpl; [intros _; exact I|].
  intros Hc. destruct (trimEnd r); [rewrite Hc|]; exact Hc.
Qed.

Lemma trimEnd_last (s : string) :
  Shape.not_space (Shape.last_unit (trimEnd s)).
Proof.
  induction s as [|c r IH]; simpl; [exact I|].
  destruct (trimEnd r) as [|d r'].
  - destruct (is_space c) eqn:Hc; simpl; [exact I | exact Hc].
  - exact IH.
Qed.

Lemma firstn_incl {A : Type} (k : nat) (l : list A) (x : A) :
  In x (firstn k l) -> In x l.
Proof.
  revert l; induction k as [|k IH]; intros [|y l]; simpl; try tauto.
  intros [H | H]; [left; exact H | right; exact (IH l H)].
Qed.

(** X6: at most five key phrases are returned; each is a sentence of the
    text (a piece between runs of '.', '!' and '?') with the white space
    around it removed, has from three to eight space-separated words,
    holds no sentence terminator and neither starts nor ends with white
    space. *)
Theorem key_phrases_are_trimmed_sentences (text phrase : string) :
  List.length (extractKeyPhrases text) <= 5
  /\ (In phrase (extractKeyPhrases text) ->
      (exists sentence,
          In sentence (split_terminators text) /\ phrase = trim sentence)
      /\ 3 <= List.length (split " " phrase) <= 8
      /\ Shape.all_units (fun c => negb (is_terminator c)) phrase = true
      /\ Shape.not_space (Shape.first_unit phrase)
      /\ Shape.not_space (Shape.last_unit phrase)).
Proof.
  unfold extractKeyPhrases. cbv zeta. split.
  - apply firstn_le_length.
  - intros Hin. apply firstn_incl in Hin.
    rewrite (push_loop
               (fun sentence =>
                  ((3 <=? List.length (split " " (trim sentence)))
                   && (List.length (split " " (trim sentence)) <=? 8))%nat)
               trim) in Hin.
    cbn [app] in Hin. apply in_map_iff in Hin.
    destruct Hin as (sentence & <- & Hin).
    apply filter_In in Hin. destruct Hin as [Hin Hwords].
    apply filter_In in Hin. destruct Hin as [Hin _].
    apply andb_true_iff in Hwords. destruct Hwords as [Hlo Hhi].
    apply Nat.leb_le in Hlo. apply Nat.leb_le in Hhi.
    split; [exists sentence; split; [exact Hin | reflexivity]|].
    split; [split; assumption|].
    split; [|split].
    + unfold trim. apply trimEnd_units, trimStart_units.
      exact (split_runs_from_clean text EmptyString false sentence
               eq_refl Hin).
    + unfold trim. apply trimEnd_first, trimStart_first.
    + unfold trim. apply trimEnd_last.
Qed.

(** At the second sentence of a two-sentence text. *)
Lemma key_phrases_are_trimmed_sentences_witness :
  3 <= List.length (split " " "We went there on Tuesday") <= 8.
Proof.
  apply (key_phrases_are_trimmed_sentences
           "It was a place. We went there on Tuesday."
           "We went there on Tuesday").
  vm_compute. right. left. reflexivity.
Defined.

(** *** Tags *)

Lemma reviewTags_map (r : SentimentResult) :
  reviewTags r = map (tagOfTopic r) (key_topics r).
Proof.
  unfold reviewTags.
  rewrite (push_loop (fun _ => true) (tagOfTopic r) (key_topics r) []).
  cbn [app]. f_equal.
  induction (key_topics r) as [|t l IH]; simpl; [|rewrite IH]; reflexivity.
Qed.

Lemma tagOfTopic_category (r : SentimentResult) (topic : string) :
  In (tag_category (tagOfTopic r topic)) tag_categories.
Proof.
  unfold tagOfTopic, tag_categories.
  destruct ((topic =? "service") || (topic =? "staff"))%bool;
    [simpl; tauto|].
  destruct ((topic =? "food") || (topic =? "coffee"))%bool; [simpl; tauto|].
  destruct (topic =? "atmosphere"); [simpl; tauto|].
  destruct (topic =? "price"); [simpl; tauto|].
  destruct (topic =? "speed"); simpl; tauto.
Qed.

Lemma tagOfTopic_confidence (r : SentimentResult) (topic : string) :
  tag_confidence_score (tagOfTopic r topic) = confidence_score r.
Proof.
  unfold tagOfTopic.
  destruct ((topic =? "service") || (topic =? "staff"))%bool;
    [reflexivity|].
  destruct ((topic =? "food") || (topic =? "coffee"))%bool; [reflexivity|].
  destruct (topic =? "atmosphere"); [reflexivity|].
  destruct (topic =? "price"); [reflexivity|].
  destruct (topic =? "speed"); reflexivity.
Qed.

(** The score and the confidence of every result enter the store: the
    counters stay below 22, and the 22 x 22 pairs are checked. *)
Lemma storable_table :
  Scoring.below 22 (fun p => Scoring.below 22 (fun n =>
    Scoring.storable p n = true)).
Proof.
  vm_compute. repeat split.
Qed.

Lemma engine_decimals (random : number) (text : string) :
  exists score confidence,
    to_decimal_3_2 (sentiment_score (analyzeSentiment random text))
    = decimal_value score
    /\ to_decimal_3_2 (confidence_score (analyzeSentiment random text))
       = decimal_value confidence
    /\ (-100 <= score <= 100)%Z
    /\ (50 <= confidence <= 80)%Z
    /\ Scoring.near (sentiment_score (analyzeSentiment random text))
                    (read_decimal score) = true
    /\ Scoring.near (confidence_score (analyzeSentiment random text))
                    (read_decimal confidence) = true.
Proof.
  rewrite (analyzeSentiment_eq random text). cbv zeta.
  cbn [sentiment_score confidence_score].
  pose proof (positiveCount_bound (toLowerCase text)) as Hp.
  pose proof (negativeCount_bound (toLowerCase text)) as Hn.
  revert Hp Hn.
  generalize (countHits (toLowerCase text) positiveWords) as p.
  generalize (countHits (toLowerCase text) negativeWords) as n.
  intros n p Hp Hn.
  pose proof (below_spec 22 _ storable_table p ltac:(lia)) as Hrow.
  pose proof (below_spec 22 _ Hrow n ltac:(lia)) as Hcell.
  unfold Scoring.storable in Hcell.
  destruct (to_decimal_3_2 (Scoring.score p n)) as [|s|];
    try discriminate Hcell.
  destruct (to_decimal_3_2 (Scoring.confidence p n)) as [|c|];
    try discriminate Hcell.
  exists s, c. rewrite !andb_true_iff, !Z.leb_le in Hcell.
  destruct Hcell as (((Hs1 & Hs2) & (Hc1 & Hc2)) & (Hns & Hnc)).
  repeat split; try lia; assumption.
Qed.

(** The tags of an engine result violate no constraint of [review_tags]
    when their review is on record. *)
Lemma engine_tags_accepted (random : number) (text : string) (db : DB)
      (reviewId : uuid) :
  existsb (fun x => Review.id x =? reviewId)%nat (reviews db) = true ->
  existsb (tag_violation db reviewId)
          (reviewTags (analyzeSentiment random text)) = false.
Proof.
  intros Hrecord.
  destruct (existsb (tag_violation db reviewId)
                    (reviewTags (analyzeSentiment random text))) eqn:E;
    [|reflexivity].
  apply existsb_exists in E. destruct E as (t & Hin & Hbad).
  rewrite reviewTags_map in Hin. apply in_map_iff in Hin.
  destruct Hin as (topic & <- & _).
  unfold tag_violation in Hbad.
  destruct (engine_decimals random text)
    as (s & c & _ & Hc & _ & Hrange & _).
  rewrite tagOfTopic_confidence, Hc, Hrecord in Hbad.
  replace ((0 <=? c)%Z && (c <=? 100)%Z) with true in Hbad
    by (symmetry; apply andb_true_iff; rewrite !Z.leb_le; lia).
  pose proof (tagOfTopic_category (analyzeSentiment random text) topic) as Hcat.
  assert (Hknown :
            existsb (String.eqb (tag_category
                                   (tagOfTopic (analyzeSentiment random text)
                                               topic)))
                    tag_categories = true).
  { apply existsb_exists. eexists. split; [exact Hcat|].
    apply String.eqb_refl. }
  rewrite Hknown in Hbad. discriminate Hbad.
Qed.

(** X7: the engine derives one tag per topic, in the order of the
    topics; every tag has a category the [review_tags] table allows and
    carries the confidence of the result, so the insert of the tags of a
    review on record violates no constraint. *)
Theorem tags_fit_the_table (random : number) (text : string) :
  let r := analyzeSentiment random text in
  List.length (reviewTags r) = List.length (key_topics r)
  /\ Forall (fun t => In (tag_category t) tag_categories
                      /\ tag_confidence_score t = confidence_score r)
            (reviewTags r)
  /\ (forall db reviewId,
         existsb (fun x => Review.id x =? reviewId)%nat (reviews db) = true ->
         existsb (tag_violation db reviewId) (reviewTags r) = false).
Proof.
  cbv zeta. split; [|split].
  - rewrite reviewTags_map. apply length_map.
  - rewrite reviewTags_map. apply Forall_forall. intros t Hin.
    apply in_map_iff in Hin. destruct Hin as (topic & <- & _).
    split; [apply tagOfTopic_category | apply tagOfTopic_confidence].
  - intros db reviewId. apply engine_tags_accepted.
Qed.

(** At the sample store with its pending review. *)
Lemma tags_fit_the_table_witness :
  existsb (tag_violation Sample.pending_store 2)
          (reviewTags
             (analyzeSentiment
                0 "Great service and amazing food! Highly recommend this place."))
  = false.
Proof.
  apply (tags_fit_the_table
           0%float
           "Great service and amazing food! Highly recommend this place.").
  reflexivity.
Defined.

Lemma topic_is_known (text topic : string) :
  In topic (extractKeyTopics text) -> In topic (map fst topicKeywords).
Proof.
  unfold extractKeyTopics. cbv zeta.
  rewrite (groups_loop (includes (toLowerCase text)) topicKeywords
             topic_names_distinct []) by (intros t _ []).
  cbn [app]. intros Hin. apply in_map_iff in Hin.
  destruct Hin as (entry & <- & Hin). apply filter_In in Hin.
  apply in_map. tauto.
Qed.

(** The [switch] of [generateReviewTags] at the topics of the table. *)
Lemma tagOfTopic_table (r : SentimentResult) :
  Forall (fun row =>
            tagOfTopic r (fst row)
            = {| tag_name :=
                   if Sentiment_eqb (overall_sentiment r) positive
                   then fst (snd (snd row)) else snd (snd (snd row));
                 tag_category := fst (snd row);
                 tag_confidence_score := confidence_score r |})
         Shape.tag_table.
Proof.
  unfold Shape.tag_table.
  repeat constructor; unfold tagOfTopic; cbn;
    destruct (Sentiment_eqb (overall_sentiment r) positive); reflexivity.
Qed.

(** X8: the tags of a result are exactly the tags of its topics, each
    with the category of its own topic and the name of its own topic
    under the label: for a positive result the favourable name, for any
    other result, a neutral one included, the unfavourable one; the
    topics location and cleanliness keep their own name either way. *)
Theorem tag_names_follow_label (random : number) (text : string)
        (tag : ReviewTag) :
  let r := analyzeSentiment random text in
  In tag (reviewTags r)
  <-> exists topic category favourable unfavourable,
        In topic (key_topics r)
        /\ In (topic, (category, (favourable, unfavourable))) Shape.tag_table
        /\ tag = {| tag_name :=
                      if Sentiment_eqb (overall_sentiment r) positive
                      then favourable else unfavourable;
                    tag_category := category;
                    tag_confidence_score := confidence_score r |}.
Proof.
  cbv zeta. rewrite reviewTags_map.
  assert (Hknown : forall topic,
             In topic (key_topics (analyzeSentiment random text)) ->
             In topic (map fst Shape.tag_table)).
  { intros topic Hin. apply (topic_is_known text).
    rewrite (analyzeSentiment_eq random text) in Hin. exact Hin. }
  revert Hknown. generalize (analyzeSentiment random text) as r.
  intros r Hknown. rewrite in_map_iff.
  pose proof (tagOfTopic_table r) as Htable.
  rewrite Forall_forall in Htable. split.
  - intros (topic & <- & Hin).
    destruct (proj1 (in_map_iff _ _ _) (Hknown topic Hin))
      as ([topic' [category [favourable unfavourable]]] & Htopic & Hrow).
    cbn [fst] in Htopic. subst topic'.
    exists topic, category, favourable, unfavourable.
    split; [exact Hin|]. split; [exact Hrow|].
    exact (Htable _ Hrow).
  - intros (topic & category & favourable & unfavourable
            & Hin & Hrow & ->).
    exists topic. split; [|exact Hin].
    exact (Htable _ Hrow).
Qed.

(** At a neutral text that mentions the staff: its tag is "poor
    service". *)
Lemma tag_names_follow_label_witness :
  In {| tag_name := "poor service";
        tag_category := "staff";
        tag_confidence_score := 0.5%float |}
     (reviewTags (analyzeSentiment 0 "The staff was there.")).
Proof.
  pose proof (tag_names_follow_label
                0%float "The staff was there."
                {| tag_name := "poor service";
                   tag_category := "staff";
                   tag_confidence_score := 0.5%float |}) as H.
  cbv zeta in H. apply (proj2 H).
  exists "service", "staff", "friendly staff", "poor service".
  split; [vm_compute; tauto|].
  split; [simpl; tauto|].
  vm_compute. reflexivity.
Defined.

(* ================================================================== *)
(** ** Further properties of the classification handler *)
(* ================================================================== *)

Lemma db_eta (db : DB) :
  {| businesses := businesses db; reviews := reviews db;
     sentiment_analysis := sentiment_analysis db;
     review_tags := review_tags db; next_uuid := next_uuid db;
     timestamptz_in := timestamptz_in db |} = db.
Proof. destruct db; reflexivity. Qed.

(** An update addressed to a key that no review has changes nothing. *)
Lemma update_review_absent (db : DB) (id : uuid) (p : option bool)
      (s : ProcessingStatus) :
  existsb (fun x => Review.id x =? id)%nat (reviews db) = false ->
  update_review db id p s = db.
Proof.
  intros Habsent. unfold update_review.
  replace (map _ (reviews db)) with (reviews db); [apply db_eta|].
  induction (reviews db) as [|r l IH]; simpl in *; [reflexivity|].
  apply orb_false_iff in Habsent. destruct Habsent as [Hr Hl].
  rewrite Hr, <- (IH Hl). reflexivity.
Qed.



(** The request got past the guards of the handler: it is not a
    preflight, its body parses, and both fields are there. *)
Lemma classify_admissible (random : number) (db : DB) (req : Classify.Request)
      (request : Classify.SentimentAnalysisRequest) (reviewId : uuid) :
  Classify.http_method req <> "OPTIONS" ->
  Classify.json req = Some request ->
  Classify.review_id request = Some reviewId ->
  Classify.review_text request <> "" ->
  Classify.serve random db req
  = let db1 := update_review db reviewId None processing in
    let sentimentResult :=
      analyzeSentiment random (Classify.review_text request) in
    match insert_sentiment db1 reviewId sentimentResult with
    | inl insertError =>
        (update_review db1 reviewId (Some false) failed,
         Classify.internalServerError,
         [Classify.ErrorAnalyzingSentimentStore insertError])
    | inr (db2, sentimentAnalysis) =>
        (update_review
           (Classify.generateReviewTags db2 reviewId sentimentResult)
           reviewId (Some true) completed,
         {| Classify.status := 200;
            Classify.body :=
              Classify.Completed "Sentiment analysis completed successfully"
                                 sentimentAnalysis reviewId |},
         [])
    end.
Proof.
  intros Hmethod Hjson Hid Htext.
  unfold Classify.serve.
  rewrite (method_not_options _ Hmethod), Hjson, Hid.
  apply String.eqb_neq in Htext. rewrite Htext. reflexivity.
Qed.

(** The insert of a result whose score and confidence enter their
    columns within the CHECKs can only fail on the reference to the
    review; the row holds the numbers as the columns give them back. *)
Lemma insert_storable_result (r : SentimentResult) (db : DB)
      (reviewId : uuid) (score confidence : Z) :
  to_decimal_3_2 (sentiment_score r) = decimal_value score ->
  to_decimal_3_2 (confidence_score r) = decimal_value confidence ->
  (-100 <= score <= 100)%Z ->
  (0 <= confidence <= 100)%Z ->
  insert_sentiment db reviewId r
  = if existsb (fun x => Review.id x =? reviewId)%nat (reviews db)
    then inr ({| businesses := businesses db;
                 reviews := reviews db;
                 sentiment_analysis :=
                   (sentiment_analysis db
                      ++ [{| SentimentRow.id := next_uuid db;
                             SentimentRow.review_id := reviewId;
                             SentimentRow.result :=
                               Shape.as_held r score confidence |}])%list;
                 review_tags := review_tags db;
                 next_uuid := S (next_uuid db);
                 timestamptz_in := timestamptz_in db |},
              {| SentimentRow.id := next_uuid db;
                 SentimentRow.review_id := reviewId;
                 SentimentRow.result := Shape.as_held r score confidence |})
    else inl (foreign_key_violation "sentiment_analysis_review_id_fkey").
Proof.
  intros Hscore Hconfidence Hs Hc.
  unfold insert_sentiment, sentiment_violation.
  rewrite Hscore, Hconfidence.
  replace ((0 <=? confidence)%Z && (confidence <=? 100)%Z) with true
    by (symmetry; apply andb_true_iff; rewrite !Z.leb_le; lia).
  replace ((-100 <=? score)%Z && (score <=? 100)%Z) with true
    by (symmetry; apply andb_true_iff; rewrite !Z.leb_le; lia).
  cbn [negb].
  destruct (existsb _ (reviews db)); reflexivity.
Qed.







(** X10: classifying a non-empty text for a review that is not on record
    answers 500 and leaves the store as it was: the sentiment row is
    rejected for its reference to the review, and neither update finds a
    row. *)
Theorem classification_of_an_unknown_review
        (random : number) (db : DB) (req : Classify.Request)
        (request : Classify.SentimentAnalysisRequest) (reviewId : uuid) :
  Classify.http_method req <> "OPTIONS" ->
  Classify.json req = Some request ->
  Classify.review_id request = Some reviewId ->
  Classify.review_text request <> "" ->
  existsb (fun x => Review.id x =? reviewId)%nat (reviews db) = false ->
  Classify.serve random db req
  = (db, Classify.internalServerError,
     [Classify.ErrorAnalyzingSentimentStore
        (foreign_key_violation "sentiment_analysis_review_id_fkey")]).
Proof.
  intros Hmethod Hjson Hid Htext Habsent.
  rewrite (classify_admissible random db req request reviewId
             Hmethod Hjson Hid Htext).
  cbv zeta.
  rewrite (update_review_absent db reviewId None processing Habsent).
  destruct (engine_decimals random (Classify.review_text request))
    as (score & confidence & Hscore & Hconfidence & Hs & Hc & _).
  rewrite (insert_storable_result _ db reviewId score confidence
             Hscore Hconfidence Hs ltac:(lia)).
  rewrite Habsent.
  rewrite (update_review_absent db reviewId (Some false) failed Habsent).
  reflexivity.
Qed.

(** At the sample store without reviews. *)
Lemma classification_of_an_unknown_review_witness :
  Classify.serve 0 Sample.empty_store
                 (Sample.classify "Great service, friendly staff.")
  = (Sample.empty_store, Classify.internalServerError,
     [Classify.ErrorAnalyzingSentimentStore
        (foreign_key_violation "sentiment_analysis_review_id_fkey")]).
Proof.
  apply (classification_of_an_unknown_review
           0%float Sample.empty_store
           (Sample.classify "Great service, friendly staff.")
           {| Classify.review_id := Some 2;
              Classify.review_text := "Great service, friendly staff." |} 2).
  - simpl. discriminate.
  - reflexivity.
  - reflexivity.
  - simpl. discriminate.
  - reflexivity.
Defined.

Lemma but_status_update (db : DB) (id : uuid) (p : option bool)
      (s : ProcessingStatus) :
  Shape.reviews_but_status (update_review db id p s)
  = Shape.reviews_but_status db.
Proof.
  unfold Shape.reviews_but_status, update_review. cbn [reviews].
  rewrite map_map. apply map_ext. intros r.
  destruct (Review.id r =? id)%nat; reflexivity.
Qed.

(** X11: whatever the request, the classification handler changes no
    business, removes and reorders no review and leaves the key, the
    business, the platform, the platform review id, the name and the
    avatar of the reviewer, the rating, the text, the date and the url
    of every review as they were; and it removes no sentiment row and no
    tag: it adds at most one sentiment row, and tags at the end. *)
Theorem classification_frame
        (random : number) (db : DB) (req : Classify.Request) :
  let db' := fst (fst (Classify.serve random db req)) in
  businesses db' = businesses db
  /\ Shape.reviews_but_status db' = Shape.reviews_but_status db
  /\ (exists added,
         sentiment_analysis db' = (sentiment_analysis db ++ added)%list
         /\ List.length added <= 1)
  /\ (exists added, review_tags db' = (review_tags db ++ added)%list).
Proof.
  cbv zeta. unfold Classify.serve.
  assert (Hsame :
            businesses db = businesses db
            /\ Shape.reviews_but_status db = Shape.reviews_but_status db
            /\ (exists added,
                   sentiment_analysis db = (sentiment_analysis db ++ added)%list
                   /\ List.length added <= 1)
            /\ (exists added, review_tags db = (review_tags db ++ added)%list)).
  { split; [reflexivity|]. split; [reflexivity|].
    split; exists []; rewrite app_nil_r; simpl; auto. }
  destruct (Classify.http_method req =? "OPTIONS"); [exact Hsame|].
  destruct (Classify.json req) as [request|]; [|exact Hsame].
  destruct (Classify.review_id request) as [reviewId|]; [|exact Hsame].
  destruct (Classify.review_text request =? ""); [exact Hsame|].
  set (result := analyzeSentiment random (Classify.review_text request)).
  unfold insert_sentiment.
  destruct (sentiment_violation _ reviewId result) as [e | held].
  - cbn [fst snd]. rewrite !but_status_update. exact Hsame.
  - cbn [fst snd]. rewrite but_status_update.
    unfold Classify.generateReviewTags.
    destruct (0 <? List.length (reviewTags result))%nat;
      [unfold insert_tags;
       destruct (existsb _ (reviewTags result))|];
      cbn [businesses reviews sentiment_analysis review_tags update_review];
      (split; [reflexivity|]);
      (split;
       [exact (but_status_update db reviewId None processing)|]);
      (split; [eexists; split; [reflexivity | simpl; lia]|]);
      first [eexists; reflexivity
            | exists []; rewrite app_nil_r; reflexivity].
Qed.

(* ================================================================== *)
(** ** Further properties of ingestion *)
(* ================================================================== *)

(** X12: the storing pass adds exactly one review row per review it
    returns, and draws one key for each; it touches neither the
    businesses nor the sentiment rows nor the tags. *)
Theorem stored_rows_are_the_returned_rows
        (db : DB) (businessId : uuid) (platform : string)
        (batch : list Ingest.ReviewData.t) :
  let out := Ingest.processAndStoreReviews db businessId platform batch in
  List.length (reviews (fst (fst out)))
  = List.length (reviews db) + List.length (snd (fst out))
  /\ next_uuid (fst (fst out)) = next_uuid db + List.length (snd (fst out))
  /\ businesses (fst (fst out)) = businesses db
  /\ sentiment_analysis (fst (fst out)) = sentiment_analysis db
  /\ review_tags (fst (fst out)) = review_tags db.
Proof.
  cbv zeta. unfold Ingest.processAndStoreReviews.
  apply (loop_keeps_state businessId platform
           (fun st =>
              List.length (reviews (fst (fst st)))
              = List.length (reviews db) + List.length (snd (fst st))
              /\ next_uuid (fst (fst st))
                 = next_uuid db + List.length (snd (fst st))
              /\ businesses (fst (fst st)) = businesses db
              /\ sentiment_analysis (fst (fst st)) = sentiment_analysis db
              /\ review_tags (fst (fst st)) = review_tags db)).
  - intros db0 done log review st' Hturn (Hrows & Hnext & Hb & Hs & Ht).
    cbn [fst snd] in *.
    destruct Hturn; cbn [fst snd]; [tauto | tauto |].
    cbn [update_review add_review reviews next_uuid businesses
         sentiment_analysis review_tags].
    rewrite length_map, !length_app. cbn [List.length].
    repeat split; try assumption; lia.
  - cbn [fst snd List.length]. repeat split; lia.
Qed.

(** X13: the storing pass keeps the UNIQUE constraint of the reviews
    table: when every dedup key is stored at most once before the pass,
    so it is after, whatever the batch holds. *)
Theorem unique_keys_are_kept
        (db : DB) (businessId : uuid) (platform : string)
        (batch : list Ingest.ReviewData.t) :
  Shape.unique_keys db ->
  Shape.unique_keys
    (fst (fst (Ingest.processAndStoreReviews db businessId platform batch))).
Proof.
  intros Hunique. unfold Ingest.processAndStoreReviews.
  apply (loop_keeps businessId platform Shape.unique_keys);
    [|exact Hunique].
  intros db0 done log review st' Hturn H0 b pf k.
  exact (turn_rows_unique _ _ _ _ _ _ _ b pf k Hturn (H0 b pf k)).
Qed.

(** At a batch that holds the same review twice. *)
Lemma unique_keys_are_kept_witness :
  Shape.unique_keys
    (fst (fst (Ingest.processAndStoreReviews
                 Sample.empty_store 1 "google"
                 [Sample.five_stars; Sample.five_stars]))).
Proof.
  apply (unique_keys_are_kept Sample.empty_store 1 "google"
           [Sample.five_stars; Sample.five_stars]).
  intros b pf k. unfold rows_with_key. simpl. lia.
Defined.

Lemma map_unchanged {A : Type} (f : A -> A) (l : list A) :
  Forall (fun x => f x = x) l -> map f l = l.
Proof.
  induction 1 as [|x l Hx _ IH]; simpl; [reflexivity|].
  rewrite Hx, IH. reflexivity.
Qed.

(** A turn on a store whose keys are new keeps every stored review as it
    is and adds the new one, completed, at the end. *)
Lemma turn_appends businessId platform db done log review st' :
  Ingest.turn businessId platform db done log review st' ->
  Shape.fresh_ids db ->
  Shape.fresh_ids (fst (fst st'))
  /\ exists news,
      snd (fst st') = (done ++ news)%list
      /\ reviews (fst (fst st'))
         = (reviews db ++ map Shape.mark_completed news)%list.
Proof.
  intros Hturn Hfresh; destruct Hturn; cbn [fst snd].
  - split; [exact Hfresh|]. exists []. rewrite !app_nil_r. tauto.
  - split; [exact Hfresh|]. exists []. rewrite !app_nil_r. tauto.
  - unfold Shape.fresh_ids in *.
    cbn [update_review add_review reviews next_uuid].
    rewrite map_app.
    rewrite (map_unchanged _ (reviews db)).
    + cbn [map Ingest.newReviewValues Review.id]. rewrite Nat.eqb_refl.
      split.
      * apply Forall_app. split.
        -- eapply Forall_impl; [|exact Hfresh]. cbv beta. intros r Hr. lia.
        -- constructor; [|constructor]. simpl. lia.
      * eexists [_]. split; reflexivity.
    + eapply Forall_impl; [|exact Hfresh]. cbv beta. intros r Hr.
      replace (Review.id r =? next_uuid db)%nat with false; [reflexivity|].
      symmetry. apply Nat.eqb_neq. lia.
Qed.

(** X14: on a store whose keys are new (every stored review has a key
    the counter has passed), the storing pass keeps every stored review
    as it is, in place, and appends the returned rows in the order they
    were returned, each marked completed and processed; the keys of the
    store it leaves are new again. *)
Theorem stored_reviews_are_kept_and_new_ones_appended
        (db : DB) (businessId : uuid) (platform : string)
        (batch : list Ingest.ReviewData.t) :
  Shape.fresh_ids db ->
  let out := Ingest.processAndStoreReviews db businessId platform batch in
  reviews (fst (fst out))
  = (reviews db ++ map Shape.mark_completed (snd (fst out)))%list
  /\ Shape.fresh_ids (fst (fst out)).
Proof.
  intros Hfresh. cbv zeta. unfold Ingest.processAndStoreReviews.
  assert (Hgoal :
            Shape.fresh_ids
              (fst (fst (fold_left (Ingest.storeReview businessId platform)
                                   batch (db, [], []))))
            /\ reviews
                 (fst (fst (fold_left (Ingest.storeReview businessId platform)
                                      batch (db, [], []))))
               = (reviews db
                    ++ map Shape.mark_completed
                         (snd (fst (fold_left
                                      (Ingest.storeReview businessId platform)
                                      batch (db, [], [])))))%list);
    [|tauto].
  apply (loop_keeps_state businessId platform
           (fun st =>
              Shape.fresh_ids (fst (fst st))
              /\ reviews (fst (fst st))
                 = (reviews db ++ map Shape.mark_completed (snd (fst st)))%list)).
  - intros db0 done log review st' Hturn [Hf Hrows]. cbn [fst snd] in *.
    destruct (turn_appends _ _ _ _ _ _ _ Hturn Hf)
      as (Hf' & news & Hdone & Hrows').
    split; [exact Hf'|].
    rewrite Hrows', Hdone, Hrows, map_app, app_assoc. reflexivity.
  - cbn [fst snd map]. rewrite app_nil_r. split; [exact Hfresh|reflexivity].
Qed.

(** At the sample store without reviews and a batch of one review. *)
Lemma stored_reviews_are_kept_and_new_ones_appended_witness :
  reviews (fst (fst (Ingest.processAndStoreReviews
                       Sample.empty_store 1 "google" [Sample.five_stars])))
  = (reviews Sample.empty_store
       ++ map Shape.mark_completed
            (snd (fst (Ingest.processAndStoreReviews
                         Sample.empty_store 1 "google"
                         [Sample.five_stars]))))%list.
Proof.
  apply (stored_reviews_are_kept_and_new_ones_appended
           Sample.empty_store 1 "google" [Sample.five_stars]).
  unfold Shape.fresh_ids. simpl. constructor.
Defined.

(** A turn stores a row under the key of its review only. *)
Lemma turn_rows_other businessId platform db done log review st'
      (b : uuid) (pf k : string) :
  Ingest.turn businessId platform db done log review st' ->
  b <> businessId \/ pf <> platform
  \/ k <> Ingest.ReviewData.platform_review_id review ->
  rows_with_key (fst (fst st')) b pf k = rows_with_key db b pf k.
Proof.
  intros Hturn Hother; destruct Hturn; cbn [fst]; try reflexivity.
  rewrite rows_with_key_update, rows_with_key_add.
  destruct (has_key b pf k
              (Ingest.newReviewValues businessId platform review
                                      (next_uuid db))) eqn:Hkey; [|lia].
  apply (has_key_row businessId platform db review) in Hkey.
  destruct Hkey as (Hb & Hp & Hk). tauto.
Qed.

(** The loop stores rows under the keys of its batch only. *)
Lemma loop_rows_other (businessId : uuid) (platform : string)
      (batch : list Ingest.ReviewData.t) (b : uuid) (pf k : string) :
  b <> businessId \/ pf <> platform
  \/ ~ In k (map Ingest.ReviewData.platform_review_id batch) ->
  forall db done log,
    rows_with_key
      (fst (fst (fold_left (Ingest.storeReview businessId platform) batch
                           (db, done, log))))
      b pf k
    = rows_with_key db b pf k.
Proof.
  induction batch as [|review rest IH]; intros Hother db done log;
    cbn [fold_left]; [reflexivity|].
  pose proof (storeReview_turn businessId platform db done log review)
    as Hturn.
  destruct (Ingest.storeReview businessId platform (db, done, log) review)
    as [[db1 done1] log1].
  cbn [map In] in Hother.
  rewrite IH by tauto.
  apply (turn_rows_other _ _ _ _ _ _ _ b pf k Hturn).
  destruct Hother as [H | [H | H]]; [tauto | tauto |].
  right. right. intros ->. apply H. left. reflexivity.
Qed.

(** X15: the storing pass stores rows under the keys of its batch only:
    the number of rows of every key of another business, of another
    platform, or with an identifier that is not in the batch is as it
    was. *)
Theorem keys_outside_the_batch_are_untouched
        (db : DB) (businessId : uuid) (platform : string)
        (batch : list Ingest.ReviewData.t)
        (b : uuid) (pf k : string) :
  b <> businessId \/ pf <> platform
  \/ ~ In k (map Ingest.ReviewData.platform_review_id batch) ->
  rows_with_key
    (fst (fst (Ingest.processAndStoreReviews db businessId platform batch)))
    b pf k
  = rows_with_key db b pf k.
Proof.
  intros Hother. unfold Ingest.processAndStoreReviews.
  destruct Hother as [Hb | [Hp | Hk]];
    apply loop_rows_other; tauto.
Qed.

(** At a key of the other platform. *)
Lemma keys_outside_the_batch_are_untouched_witness :
  rows_with_key
    (fst (fst (Ingest.processAndStoreReviews
                 Sample.pending_store 1 "yelp" [Sample.five_stars])))
    1 "google" "google_1700000000000_1"
  = rows_with_key Sample.pending_store 1 "google" "google_1700000000000_1".
Proof.
  apply (keys_outside_the_batch_are_untouched
           Sample.pending_store 1 "yelp" [Sample.five_stars]
           1 "google" "google_1700000000000_1").
  right. left. discriminate.
Defined.

(** A batch of acceptable reviews with distinct identifiers, none of them
    stored, is inserted whole. *)
Lemma loop_inserts_all (businessId : uuid) (platform : string)
      (batch : list Ingest.ReviewData.t) :
  forall db done log,
    Forall (fun r => Ingest.acceptable db businessId platform r = true)
           batch ->
    NoDup (map Ingest.ReviewData.platform_review_id batch) ->
    Forall (fun r => rows_with_key
                       db businessId platform
                       (Ingest.ReviewData.platform_review_id r) = 0)
           batch ->
    let out := fold_left (Ingest.storeReview businessId platform) batch
                         (db, done, log) in
    map Review.platform_review_id (snd (fst out))
    = (map Review.platform_review_id done
         ++ map Ingest.ReviewData.platform_review_id batch)%list
    /\ snd out = log
    /\ List.length (reviews (fst (fst out)))
       = List.length (reviews db) + List.length batch.
Proof.
  induction batch as [|review rest IH]; intros db done log Hacc Hnodup Hnew;
    cbv zeta; cbn [fold_left].
  - cbn [fst snd map List.length]. rewrite app_nil_r.
    repeat split. lia.
  - inversion Hacc as [|? ? Hacc1 Hacc2]; subst.
    inversion Hnew as [|? ? Hnew1 Hnew2]; subst.
    cbn [map] in Hnodup. inversion Hnodup as [|? ? Hhead Htail]; subst.
    pose proof (storeReview_turn businessId platform db done log review)
      as Hturn.
    remember (Ingest.storeReview businessId platform (db, done, log) review)
      as st1 eqn:Est1.
    destruct Hturn as [Hexists | e Hsome | Hnone].
    + rewrite existsb_filter_length in Hexists.
      unfold rows_with_key in Hnew1. rewrite Hnew1 in Hexists.
      discriminate Hexists.
    + assert (Hnone :
                review_violation
                  db (Ingest.newReviewValues businessId platform review
                                             (next_uuid db)) = None)
        by (apply review_violation_none; split; assumption).
      congruence.
    + specialize (IH (update_review
                        (add_review
                           db (Ingest.newReviewValues
                                 businessId platform review (next_uuid db)))
                        (next_uuid db) (Some true) completed)
                     (done ++ [Ingest.newReviewValues
                                 businessId platform review (next_uuid db)])%list
                     log).
      cbv zeta in IH. destruct IH as (Hids & Hlog & Hlen).
      * eapply Forall_impl; [|exact Hacc2]. cbv beta. intros r Hr.
        rewrite <- Hr. apply acceptable_businesses; reflexivity.
      * exact Htail.
      * apply Forall_forall. intros r Hr.
        rewrite rows_with_key_update, rows_with_key_add.
        rewrite Forall_forall in Hnew2. rewrite (Hnew2 r Hr).
        destruct (has_key businessId platform
                    (Ingest.ReviewData.platform_review_id r)
                    (Ingest.newReviewValues businessId platform review
                                            (next_uuid db))) eqn:Hkey;
          [|reflexivity].
        apply (has_key_row businessId platform db review) in Hkey.
        destruct Hkey as (_ & _ & Hk).
        exfalso. apply Hhead. rewrite <- Hk. apply in_map. exact Hr.
      * rewrite Hids, Hlog, Hlen. rewrite map_app.
        cbn [map Ingest.newReviewValues Review.platform_review_id
             update_review add_review reviews List.length].
        rewrite <- app_assoc, length_map, length_app.
        cbn [app List.length]. repeat split. lia.
Qed.



(** *** The handler *)

(** At the store fetched an hour ago and a fetch that is not forced. *)
Lemma store_changes_only_when_processed_witness :
  fst (fst (Ingest.serve (Sample.google_returns [Sample.five_stars])
                         Sample.fetched_store (Sample.fetch_google false)))
  = Sample.fetched_store.
Proof.
  apply (store_changes_only_when_processed
           (Sample.google_returns [Sample.five_stars])
           Sample.fetched_store (Sample.fetch_google false)).
  intros message n pf b. vm_compute. discriminate.
Defined.

(** At the sample store, the fetch forced and google returning the same
    review both times. *)
Lemma forced_ingestion_twice_witness :
  reviews (fst (fst (Ingest.serve
                       (Sample.google_returns [Sample.five_stars])
                       (fst (fst (Ingest.serve
                                    (Sample.google_returns [Sample.five_stars])
                                    Sample.empty_store
                                    (Sample.fetch_google true))))
                       (Sample.fetch_google true))))
  = reviews (fst (fst (Ingest.serve
                         (Sample.google_returns [Sample.five_stars])
                         Sample.empty_store (Sample.fetch_google true)))).
Proof.
  apply (forced_ingestion_twice
           (Sample.google_returns [Sample.five_stars])
           (Sample.google_returns [Sample.five_stars])
           Sample.empty_store (Sample.fetch_google true)
           {| Ingest.business_id := Some 1;
              Ingest.platform := "google";
              Ingest.force_refresh := true |}
           1 Sample.cafe [Sample.five_stars]).
  - repeat split; simpl; discriminate.
  - reflexivity.
  - intros b. reflexivity.
  - intros b. reflexivity.
Defined.

Lemma select_business_on_record (db : DB) (id : uuid) (business : Business.t) :
  select_business db id = Some business ->
  existsb (fun b => Business.id b =? id)%nat (businesses db) = true
  /\ Business.id business = id.
Proof.
  unfold select_business. intros Hselect.
  split; [exact (single_filter_existsb _ _ _ Hselect)|].
  destruct (filter _ (businesses db)) as [|b [|b' rest]] eqn:Hfilter;
    try discriminate Hselect.
  injection Hselect as ->.
  assert (Hin : In business (filter (fun b => Business.id b =? id)%nat
                                    (businesses db)))
    by (rewrite Hfilter; left; reflexivity).
  apply filter_In in Hin. destruct Hin as [_ Hid].
  apply Nat.eqb_eq in Hid. exact Hid.
Qed.

(** Looking a business up after its last fetch was written gives the
    business with the new timestamp. *)
Lemma select_business_stamped (db : DB) (id : uuid) (stamp : number)
      (business : Business.t) :
  select_business db id = Some business ->
  select_business (update_last_review_fetch db id stamp) id
  = Some {| Business.id := Business.id business;
            Business.google_place_id := Business.google_place_id business;
            Business.yelp_business_id := Business.yelp_business_id business;
            Business.last_review_fetch := Some stamp |}.
Proof.
  intros Hselect.
  destruct (select_business_on_record db id business Hselect) as [_ Hid].
  unfold select_business, update_last_review_fetch in *. cbn [businesses].
  rewrite filter_map_commute
    by (intros b; destruct (Business.id b =? id)%nat eqn:E;
        cbn [Business.id]; rewrite ?E; reflexivity).
  destruct (filter _ (businesses db)) as [|b [|b' rest]];
    try discriminate Hselect.
  injection Hselect as ->. cbn [map single].
  rewrite Hid, Nat.eqb_refl. reflexivity.
Qed.

(** C7: the last-fetch timestamp is written only after a retrieval that
    succeeded.  For a request that reaches the freshness test: when the
    fetch is skipped (not forced, last fetch less than 24 hours ago) the
    store is unchanged and the response is the "skipping" one, with the
    last fetch on record; when the platform fetch fails the store is
    unchanged and the response is the 500 one; when it succeeds the
    fetched reviews are stored, then the timestamp is written, so that
    the business is afterwards on record with the reading of the clock
    as its last fetch, and the response is the "fetched successfully"
    one with the number of reviews inserted, which is zero when nothing
    was fetched: it is never the "skipping" response. *)
Theorem last_fetch_written_only_after_retrieval
        (world : Ingest.World) (db : DB) (req : Ingest.Request)
        (request : Ingest.FetchReviewsRequest) (businessId : uuid)
        (business : Business.t) :
  Ingest.accepted db req request businessId business ->
  (forall lastFetch,
      Ingest.force_refresh request = false ->
      Business.last_review_fetch business = Some lastFetch ->
      num_lt (Ingest.hoursSinceLastFetch (Ingest.now world) lastFetch) 24 ->
      Ingest.serve world db req
      = (db,
         {| Ingest.status := 200;
            Ingest.body :=
              Ingest.Skipping "Reviews recently fetched, skipping" lastFetch |},
         []))
  /\ (forall error,
         Ingest.recentlyFetched world request business = None ->
         Ingest.fetchReviews world (Ingest.platform request) business
         = inl error ->
         Ingest.serve world db req
         = (db, Ingest.internalServerError,
            [Ingest.ErrorFetchingReviews error]))
  /\ (forall reviews,
         Ingest.recentlyFetched world request business = None ->
         Ingest.fetchReviews world (Ingest.platform request) business
         = inr reviews ->
         let stored :=
           Ingest.processAndStoreReviews
             db businessId (Ingest.platform request) reviews in
         Ingest.serve world db req
         = (update_last_review_fetch (fst (fst stored)) businessId
                                     (Ingest.stamp world),
            {| Ingest.status := 200;
               Ingest.body :=
                 Ingest.Processed "Reviews fetched successfully"
                   (List.length (snd (fst stored)))
                   (Ingest.platform request) businessId |},
            snd stored)
         /\ select_business (fst (fst (Ingest.serve world db req))) businessId
            = Some {| Business.id := Business.id business;
                      Business.google_place_id :=
                        Business.google_place_id business;
                      Business.yelp_business_id :=
                        Business.yelp_business_id business;
                      Business.last_review_fetch :=
                        Some (Ingest.stamp world) |}
         /\ (reviews = [] ->
             Ingest.serve world db req
             = (update_last_review_fetch db businessId (Ingest.stamp world),
                {| Ingest.status := 200;
                   Ingest.body :=
                     Ingest.Processed "Reviews fetched successfully" 0
                       (Ingest.platform request) businessId |},
                []))
         /\ (forall message lastFetch,
                snd (fst (Ingest.serve world db req))
                <> {| Ingest.status := 200;
                      Ingest.body := Ingest.Skipping message lastFetch |})).
Proof.
  intros Haccepted.
  rewrite (serve_accepted world db req request businessId business Haccepted).
  split; [|split].
  - intros lastFetch Hforce Hlast Hrecent.
    unfold Ingest.recentlyFetched. rewrite Hlast, Hforce.
    unfold num_lt in Hrecent. rewrite Hrecent. reflexivity.
  - intros error Hnot Hfetch. rewrite Hnot, Hfetch. reflexivity.
  - intros reviews Hnot Hfetch. cbv zeta. rewrite Hnot, Hfetch.
    pose proof (processAndStoreReviews_businesses
                  db businessId (Ingest.platform request) reviews)
      as Hbusinesses.
    split; [|split; [|split]].
    + destruct (Ingest.processAndStoreReviews _ _ _ _)
        as [[db1 processed] console].
      reflexivity.
    + destruct (Ingest.processAndStoreReviews _ _ _ _)
        as [[db1 processed] console].
      cbn [fst snd] in *.
      destruct Haccepted as (_ & _ & _ & _ & Hb).
      apply select_business_stamped.
      unfold select_business in *. rewrite Hbusinesses. exact Hb.
    + intros ->. reflexivity.
    + intros message lastFetch.
      destruct (Ingest.processAndStoreReviews _ _ _ _)
        as [[db1 processed] console].
      cbn [fst snd]. discriminate.
Qed.

(** At the store fetched an hour ago: a fetch that is not forced is
    skipped, and a forced fetch with the platforms down fails; the store
    is the same after both.  A forced fetch that returns nothing answers
    that no review was processed and leaves the business with the new
    timestamp. *)
Lemma last_fetch_written_only_after_retrieval_witness :
  Ingest.serve (Sample.google_returns [Sample.five_stars])
               Sample.fetched_store (Sample.fetch_google false)
  = (Sample.fetched_store,
     {| Ingest.status := 200;
        Ingest.body :=
          Ingest.Skipping "Reviews recently fetched, skipping"
                          (Sample.noon - 3600000)%float |},
     [])
  /\ Ingest.serve Sample.platforms_down
                  Sample.fetched_store (Sample.fetch_google true)
     = (Sample.fetched_store, Ingest.internalServerError,
        [Ingest.ErrorFetchingReviews "connection reset"])
  /\ Ingest.serve (Sample.google_returns [])
                  Sample.fetched_store (Sample.fetch_google true)
     = (update_last_review_fetch Sample.fetched_store 1
                                 (Sample.noon + 250)%float,
        {| Ingest.status := 200;
           Ingest.body :=
             Ingest.Processed "Reviews fetched successfully" 0 "google" 1 |},
        []).
Proof.
  assert (Haccepted :
            forall force,
              Ingest.accepted Sample.fetched_store (Sample.fetch_google force)
                       {| Ingest.business_id := Some 1;
                          Ingest.platform := "google";
                          Ingest.force_refresh := force |}
                       1 Sample.cafe_fetched).
  { intros force. repeat split; simpl; discriminate. }
  split; [|split].
  - apply (last_fetch_written_only_after_retrieval
             (Sample.google_returns [Sample.five_stars])
             Sample.fetched_store (Sample.fetch_google false)
             _ 1 Sample.cafe_fetched (Haccepted false));
      reflexivity.
  - apply (last_fetch_written_only_after_retrieval
             Sample.platforms_down
             Sample.fetched_store (Sample.fetch_google true)
             _ 1 Sample.cafe_fetched (Haccepted true));
      reflexivity.
  - destruct (last_fetch_written_only_after_retrieval
                (Sample.google_returns [])
                Sample.fetched_store (Sample.fetch_google true)
                _ 1 Sample.cafe_fetched (Haccepted true))
      as (_ & _ & Hfetched).
    destruct (Hfetched [] eq_refl eq_refl) as (_ & _ & Hnone & _).
    exact (Hnone eq_refl).
Defined.

(** X17: after a pass that was not skipped and whose fetch succeeded,
    looking the business up gives it with the timestamp of the pass as
    its last fetch and with the id, the google place and the yelp
    business it had; and the same request, not forced, made less than 24
    hours after that timestamp is skipped: it answers with that timestamp
    and leaves the store as the pass left it. *)
Theorem fetch_is_recorded_and_throttles_the_next
        (world world' : Ingest.World) (db : DB) (req : Ingest.Request)
        (request : Ingest.FetchReviewsRequest) (businessId : uuid)
        (business : Business.t) (batch : list Ingest.ReviewData.t) :
  Ingest.accepted db req request businessId business ->
  Ingest.recentlyFetched world request business = None ->
  Ingest.fetchReviews world (Ingest.platform request) business = inr batch ->
  let db' := fst (fst (Ingest.serve world db req)) in
  select_business db' businessId
  = Some {| Business.id := Business.id business;
            Business.google_place_id := Business.google_place_id business;
            Business.yelp_business_id := Business.yelp_business_id business;
            Business.last_review_fetch := Some (Ingest.stamp world) |}
  /\ (Ingest.force_refresh request = false ->
      num_lt (Ingest.hoursSinceLastFetch (Ingest.now world')
                                         (Ingest.stamp world)) 24 ->
      Ingest.serve world' db' req
      = (db',
         {| Ingest.status := 200;
            Ingest.body :=
              Ingest.Skipping "Reviews recently fetched, skipping"
                              (Ingest.stamp world) |},
         [])).
Proof.
  intros Haccepted Hnot Hfetch. cbv zeta.
  rewrite (serve_accepted world db req request businessId business Haccepted).
  rewrite Hnot, Hfetch.
  pose proof (processAndStoreReviews_businesses
                db businessId (Ingest.platform request) batch) as Hbusinesses.
  destruct (Ingest.processAndStoreReviews _ _ _ _) as [[db1 done] log].
  cbn [fst snd] in *.
  destruct Haccepted as (Hm & Hj & Hi & Hp & Hb).
  assert (Hb1 : select_business db1 businessId = Some business)
    by (unfold select_business in *; rewrite Hbusinesses; exact Hb).
  pose proof (select_business_stamped db1 businessId (Ingest.stamp world)
                business Hb1) as Hstamped.
  split; [exact Hstamped|].
  intros Hforce Hrecent.
  rewrite (serve_accepted world' _ req request businessId _
             (conj Hm (conj Hj (conj Hi (conj Hp Hstamped))))).
  unfold Ingest.recentlyFetched. cbn [Business.last_review_fetch].
  unfold num_lt in Hrecent. rewrite Hforce, Hrecent. reflexivity.
Qed.

(** At the sample store: a first fetch, and the same request while the
    clock still reads noon. *)
Lemma fetch_is_recorded_and_throttles_the_next_witness :
  let db' :=
    fst (fst (Ingest.serve (Sample.google_returns [Sample.five_stars])
                           Sample.empty_store (Sample.fetch_google false))) in
  select_business db' 1
  = Some {| Business.id := 1;
            Business.google_place_id := Some "ChIJcafe";
            Business.yelp_business_id := Some "the-cafe";
            Business.last_review_fetch := Some (Sample.noon + 250)%float |}
  /\ Ingest.serve (Sample.google_returns []) db' (Sample.fetch_google false)
     = (db',
        {| Ingest.status := 200;
           Ingest.body :=
             Ingest.Skipping "Reviews recently fetched, skipping"
                             (Sample.noon + 250)%float |},
        []).
Proof.
  pose proof (fetch_is_recorded_and_throttles_the_next
                (Sample.google_returns [Sample.five_stars])
                (Sample.google_returns [])
                Sample.empty_store (Sample.fetch_google false)
                {| Ingest.business_id := Some 1;
                   Ingest.platform := "google";
                   Ingest.force_refresh := false |}
                1 Sample.cafe [Sample.five_stars]) as H.
  cbv zeta in *.
  destruct H as [Hrecorded Hskipped].
  - repeat split; simpl; discriminate.
  - reflexivity.
  - reflexivity.
  - split; [exact Hrecorded|].
    apply Hskipped; reflexivity.
Defined.

(** X18: a request for a platform that is neither google nor yelp (the
    schema knows facebook and tripadvisor as well) fetches nothing: it
    reports zero reviews processed and stores none, yet it records the
    fetch, writing the last-fetch timestamp of the business. *)
Theorem other_platforms_fetch_nothing_but_are_recorded
        (world : Ingest.World) (db : DB) (req : Ingest.Request)
        (request : Ingest.FetchReviewsRequest) (businessId : uuid)
        (business : Business.t) :
  Ingest.accepted db req request businessId business ->
  Ingest.recentlyFetched world request business = None ->
  Ingest.platform request <> "google" ->
  Ingest.platform request <> "yelp" ->
  Ingest.serve world db req
  = (update_last_review_fetch db businessId (Ingest.stamp world),
     {| Ingest.status := 200;
        Ingest.body :=
          Ingest.Processed "Reviews fetched successfully" 0
                           (Ingest.platform request) businessId |},
     []).
Proof.
  intros Haccepted Hnot Hgoogle Hyelp.
  rewrite (serve_accepted world db req request businessId business Haccepted).
  rewrite Hnot. unfold Ingest.fetchReviews.
  apply String.eqb_neq in Hgoogle. apply String.eqb_neq in Hyelp.
  rewrite Hgoogle, Hyelp. reflexivity.
Qed.

(** At a request for facebook reviews of the sample business. *)
Lemma other_platforms_fetch_nothing_but_are_recorded_witness :
  Ingest.serve
    Sample.platforms_down Sample.empty_store
    {| Ingest.http_method := "POST";
       Ingest.json := Some {| Ingest.business_id := Some 1;
                              Ingest.platform := "facebook";
                              Ingest.force_refresh := false |} |}
  = (update_last_review_fetch Sample.empty_store 1 (Sample.noon + 250)%float,
     {| Ingest.status := 200;
        Ingest.body :=
          Ingest.Processed "Reviews fetched successfully" 0 "facebook" 1 |},
     []).
Proof.
  apply (other_platforms_fetch_nothing_but_are_recorded
           Sample.platforms_down Sample.empty_store _
           {| Ingest.business_id := Some 1;
              Ingest.platform := "facebook";
              Ingest.force_refresh := false |}
           1 Sample.cafe).
  - repeat split; simpl; discriminate.
  - reflexivity.
  - discriminate.
  - discriminate.
Defined.

(* ================================================================== *)
(** ** Properties of the mock fetchers *)
(* ================================================================== *)

Lemma show_injective (a b : Z) : Mock.show a = Mock.show b -> a = b.
Proof.
  unfold Mock.show. intros H.
  apply DecimalZ.to_int_inj.
  assert (Hsome : Some (Z.to_int a) = Some (Z.to_int b))
    by (rewrite <- !NilEmpty.isi, H; reflexivity).
  injection Hsome as Hsome. exact Hsome.
Qed.

Lemma string_length_append (a b : string) :
  String.length (a ++ b) = String.length a + String.length b.
Proof. induction a as [|c a IH]; simpl; [|rewrite IH]; reflexivity. Qed.

Lemma append_cancel_right (a b s : string) :
  (a ++ s)%string = (b ++ s)%string -> a = b.
Proof.
  revert b; induction a as [|c a IH]; intros [|d b] H.
  - reflexivity.
  - apply (f_equal String.length) in H.
    simpl in H. rewrite ?string_length_append in H. lia.
  - apply (f_equal String.length) in H.
    simpl in H. rewrite ?string_length_append in H. lia.
  - simpl in H. injection H as -> H. rewrite (IH b H). reflexivity.
Qed.

Lemma suffixes_differ (a b : string) :
  (a ++ "_1")%string <> (b ++ "_2")%string.
Proof.
  intros H.
  assert (Hlen : String.length a = String.length b).
  { apply (f_equal String.length) in H.
    rewrite !string_length_append in H. simpl in H. lia. }
  revert b H Hlen; induction a as [|c a IH]; intros [|d b] H Hlen;
    simpl in *; try discriminate.
  injection H as _ H. injection Hlen as Hlen. exact (IH b H Hlen).
Qed.

(** The identifiers of a mock batch on a platform, given its prefix. *)
Lemma mock_identifiers (toISOString : Z -> string) (clock : Mock.Readings)
      (external : option string) :
  map Ingest.ReviewData.platform_review_id
      (Mock.fetchGoogleReviews toISOString clock external)
  = ["google_" ++ Mock.show (Mock.first_id clock) ++ "_1";
     "google_" ++ Mock.show (Mock.second_id clock) ++ "_2"]
  /\ map Ingest.ReviewData.platform_review_id
         (Mock.fetchYelpReviews toISOString clock external)
     = ["yelp_" ++ Mock.show (Mock.first_id clock) ++ "_1";
        "yelp_" ++ Mock.show (Mock.second_id clock) ++ "_2"].
Proof. split; reflexivity. Qed.

Lemma prefixed_suffixes_differ (prefix a b : string) :
  (prefix ++ a ++ "_1")%string <> (prefix ++ b ++ "_2")%string.
Proof.
  induction prefix as [|c prefix IH]; simpl.
  - apply suffixes_differ.
  - intros H. injection H as H. exact (IH H).
Qed.

Lemma prefixed_cancel (prefix a b suffix : string) :
  (prefix ++ a ++ suffix)%string = (prefix ++ b ++ suffix)%string -> a = b.
Proof.
  induction prefix as [|c prefix IH]; simpl.
  - apply append_cancel_right.
  - intros H. injection H as H. exact (IH H).
Qed.

(** What the deployed fetch returns for google and for yelp. *)
Lemma mock_fetch (toISOString : Z -> string) (now stamp : number)
      (clock : Mock.Readings) (platform : string) (business : Business.t) :
  platform = "google" \/ platform = "yelp" ->
  exists first second,
    Ingest.fetchReviews (Mock.world toISOString now stamp clock)
                        platform business
    = inr [first; second]
    /\ Ingest.ReviewData.platform_review_id first
       = (platform ++ "_" ++ Mock.show (Mock.first_id clock) ++ "_1")%string
    /\ Ingest.ReviewData.platform_review_id second
       = (platform ++ "_" ++ Mock.show (Mock.second_id clock) ++ "_2")%string
    /\ (1 <= Ingest.ReviewData.rating first <= 5)%Z
    /\ (1 <= Ingest.ReviewData.rating second <= 5)%Z
    /\ (exists t, Ingest.ReviewData.review_date first = toISOString t)
    /\ (exists t, Ingest.ReviewData.review_date second = toISOString t).
Proof.
  intros [-> | ->]; unfold Ingest.fetchReviews; cbn [String.eqb Ascii.eqb];
    simpl; eexists; eexists; (split; [reflexivity|]);
    cbn [Ingest.ReviewData.platform_review_id Ingest.ReviewData.rating
         Ingest.ReviewData.review_date];
    repeat split; try lia; eexists; reflexivity.
Qed.

(** A mock batch on a store that holds the business and none of the two
    identifiers is stored whole. *)
Lemma mock_batch_stored (db : DB) (businessId : uuid) (platform : string)
      (first second : Ingest.ReviewData.t) (a b : string) :
  platform = "google" \/ platform = "yelp" ->
  existsb (fun x => Business.id x =? businessId)%nat (businesses db) = true ->
  Ingest.ReviewData.platform_review_id first
  = (platform ++ "_" ++ a ++ "_1")%string ->
  Ingest.ReviewData.platform_review_id second
  = (platform ++ "_" ++ b ++ "_2")%string ->
  (1 <= Ingest.ReviewData.rating first <= 5)%Z ->
  (1 <= Ingest.ReviewData.rating second <= 5)%Z ->
  timestamptz_in db (Ingest.ReviewData.review_date first) = true ->
  timestamptz_in db (Ingest.ReviewData.review_date second) = true ->
  rows_with_key db businessId platform
                (Ingest.ReviewData.platform_review_id first) = 0 ->
  rows_with_key db businessId platform
                (Ingest.ReviewData.platform_review_id second) = 0 ->
  let out := Ingest.processAndStoreReviews
               db businessId platform [first; second] in
  List.length (snd (fst out)) = 2
  /\ snd out = []
  /\ List.length (reviews (fst (fst out))) = List.length (reviews db) + 2.
Proof.
  intros Hplatform Hrecord Hfirst Hsecond Hr1 Hr2 Hd1 Hd2 Hnew1 Hnew2.
  cbv zeta.
  assert (Hacc : forall r,
             (1 <= Ingest.ReviewData.rating r <= 5)%Z ->
             timestamptz_in db (Ingest.ReviewData.review_date r) = true ->
             Ingest.acceptable db businessId platform r = true).
  { intros r Hr Hd. unfold Ingest.acceptable. rewrite Hrecord, Hd.
    replace ((1 <=? Ingest.ReviewData.rating r)%Z
             && (Ingest.ReviewData.rating r <=? 5)%Z) with true
      by (symmetry; apply andb_true_iff; split; apply Z.leb_le; lia).
    destruct Hplatform as [-> | ->]; reflexivity. }
  destruct (loop_inserts_all businessId platform [first; second] db [] [])
    as (Hids & Hlog & Hlen).
  - repeat constructor; apply Hacc; assumption.
  - cbn [map]. rewrite Hfirst, Hsecond.
    constructor; [|constructor; [intros []|constructor]].
    intros [H | []]. symmetry in H.
    destruct Hplatform as [-> | ->].
    + exact (prefixed_suffixes_differ "google_" a b H).
    + exact (prefixed_suffixes_differ "yelp_" a b H).
  - repeat constructor; assumption.
  - unfold Ingest.processAndStoreReviews.
    split; [|split; assumption].
    apply (f_equal (@List.length string)) in Hids.
    rewrite !length_map in Hids. exact Hids.
Qed.

(** X19: with the fetchers as deployed (the mocks), on a store that takes
    the dates [toISOString] writes as timestamps, a request for google
    or yelp reviews that is not skipped, for a business none of whose
    reviews on that platform is stored, stores two reviews: it reports
    two reviews processed, writes nothing to the console, and the table
    has two more rows. *)
Theorem mock_fetch_stores_two_reviews
        (toISOString : Z -> string) (now stamp : number)
        (clock : Mock.Readings) (db : DB) (req : Ingest.Request)
        (request : Ingest.FetchReviewsRequest) (businessId : uuid)
        (business : Business.t) :
  (forall t, timestamptz_in db (toISOString t) = true) ->
  Ingest.accepted db req request businessId business ->
  Ingest.recentlyFetched (Mock.world toISOString now stamp clock)
                         request business = None ->
  Ingest.platform request = "google" \/ Ingest.platform request = "yelp" ->
  (forall k, rows_with_key db businessId (Ingest.platform request) k = 0) ->
  let out := Ingest.serve (Mock.world toISOString now stamp clock) db req in
  snd (fst out)
  = {| Ingest.status := 200;
       Ingest.body :=
         Ingest.Processed "Reviews fetched successfully" 2
                          (Ingest.platform request) businessId |}
  /\ snd out = []
  /\ List.length (reviews (fst (fst out))) = List.length (reviews db) + 2.
Proof.
  intros Hdates Haccepted Hnot Hplatform Hnone. cbv zeta.
  rewrite (serve_accepted _ db req request businessId business Haccepted).
  rewrite Hnot.
  destruct (mock_fetch toISOString now stamp clock (Ingest.platform request)
                       business Hplatform)
    as (first & second & Hfetch & Hfirst & Hsecond & Hr1 & Hr2
        & [t1 Hd1] & [t2 Hd2]).
  rewrite Hfetch.
  destruct Haccepted as (_ & _ & _ & _ & Hb).
  destruct (select_business_on_record db businessId business Hb)
    as [Hrecord _].
  pose proof (mock_batch_stored db businessId (Ingest.platform request)
                first second _ _ Hplatform Hrecord Hfirst Hsecond Hr1 Hr2
                ltac:(rewrite Hd1; apply Hdates)
                ltac:(rewrite Hd2; apply Hdates)
                (Hnone _) (Hnone _)) as Hstored.
  cbv zeta in Hstored.
  destruct (Ingest.processAndStoreReviews _ _ _ _) as [[db1 done] log].
  cbn [fst snd] in *. destruct Hstored as (Hdone & Hlog & Hlen).
  rewrite Hdone. repeat split; assumption.
Qed.

(** At the sample store, a clock at noon and a constant rendering of
    dates. *)
Lemma mock_fetch_stores_two_reviews_witness :
  snd (fst (Ingest.serve
              (Mock.world (fun _ => "2023-11-14T22:13:20.000Z")
                          Sample.noon (Sample.noon + 250)%float
                          {| Mock.first_id := 1700000000000;
                             Mock.first_date := 1700000000000;
                             Mock.second_id := 1700000000000;
                             Mock.second_date := 1700000000001 |})
              Sample.empty_store (Sample.fetch_google false)))
  = {| Ingest.status := 200;
       Ingest.body :=
         Ingest.Processed "Reviews fetched successfully" 2 "google" 1 |}.
Proof.
  apply (mock_fetch_stores_two_reviews
           (fun _ => "2023-11-14T22:13:20.000Z")
           Sample.noon (Sample.noon + 250)%float
           {| Mock.first_id := 1700000000000;
              Mock.first_date := 1700000000000;
              Mock.second_id := 1700000000000;
              Mock.second_date := 1700000000001 |}
           Sample.empty_store (Sample.fetch_google false)
           {| Ingest.business_id := Some 1;
              Ingest.platform := "google";
              Ingest.force_refresh := false |}
           1 Sample.cafe).
  - intros t. reflexivity.
  - repeat split; simpl; discriminate.
  - reflexivity.
  - left. reflexivity.
  - intros k. reflexivity.
Defined.

Lemma rows_with_key_stamped (db : DB) (id : uuid) (stamp : number)
      (b : uuid) (pf k : string) :
  rows_with_key (update_last_review_fetch db id stamp) b pf k
  = rows_with_key db b pf k.
Proof. reflexivity. Qed.

(** X20: the mock fetchers defeat the dedup: their identifiers embed the
    reading of the clock, so, on a store that takes the dates
    [toISOString] writes as timestamps, a forced fetch repeated at later
    readings finds none of its two reviews stored and stores both again;
    after two forced fetches for a business that had no review on the
    platform the table has four more rows. *)
Theorem mock_fetch_repeated_stores_again
        (toISOString : Z -> string)
        (now1 stamp1 : number) (clock1 : Mock.Readings)
        (now2 stamp2 : number) (clock2 : Mock.Readings)
        (db : DB) (req : Ingest.Request)
        (request : Ingest.FetchReviewsRequest) (businessId : uuid)
        (business : Business.t) :
  (forall t, timestamptz_in db (toISOString t) = true) ->
  Ingest.accepted db req request businessId business ->
  Ingest.force_refresh request = true ->
  Ingest.platform request = "google" \/ Ingest.platform request = "yelp" ->
  (forall k, rows_with_key db businessId (Ingest.platform request) k = 0) ->
  Mock.first_id clock1 <> Mock.first_id clock2 ->
  Mock.second_id clock1 <> Mock.second_id clock2 ->
  let db1 :=
    fst (fst (Ingest.serve (Mock.world toISOString now1 stamp1 clock1)
                           db req)) in
  let out2 := Ingest.serve (Mock.world toISOString now2 stamp2 clock2)
                           db1 req in
  snd (fst out2)
  = {| Ingest.status := 200;
       Ingest.body :=
         Ingest.Processed "Reviews fetched successfully" 2
                          (Ingest.platform request) businessId |}
  /\ snd out2 = []
  /\ List.length (reviews (fst (fst out2))) = List.length (reviews db) + 4.
Proof.
  intros Hdates Haccepted Hforce Hplatform Hnone Hfirst_ne Hsecond_ne.
  cbv zeta.
  assert (Hforced : forall world b,
             Ingest.recentlyFetched world request b = None).
  { intros world b. unfold Ingest.recentlyFetched.
    rewrite Hforce. destruct (Business.last_review_fetch b); reflexivity. }
  (* the first fetch *)
  rewrite (serve_accepted _ db req request businessId business Haccepted).
  rewrite Hforced.
  destruct (mock_fetch toISOString now1 stamp1 clock1
                       (Ingest.platform request) business Hplatform)
    as (f1 & s1 & Hfetch1 & Hf1 & Hs1 & Hrf1 & Hrs1 & [tf1 Hdf1] & [ts1 Hds1]).
  rewrite Hfetch1.
  destruct Haccepted as (Hm & Hj & Hi & Hp & Hb).
  destruct (select_business_on_record db businessId business Hb)
    as [Hrecord _].
  pose proof (mock_batch_stored db businessId (Ingest.platform request)
                f1 s1 _ _ Hplatform Hrecord Hf1 Hs1 Hrf1 Hrs1
                ltac:(rewrite Hdf1; apply Hdates)
                ltac:(rewrite Hds1; apply Hdates)
                (Hnone _) (Hnone _)) as Hstored1.
  pose proof (processAndStoreReviews_businesses
                db businessId (Ingest.platform request) [f1; s1])
    as Hbusinesses.
  pose proof (processAndStoreReviews_timestamptz_in
                db businessId (Ingest.platform request) [f1; s1])
    as Htimestamps.
  assert (Hother :
            forall k,
              ~ In k (map Ingest.ReviewData.platform_review_id [f1; s1]) ->
              rows_with_key
                (fst (fst (Ingest.processAndStoreReviews
                             db businessId (Ingest.platform request)
                             [f1; s1])))
                businessId (Ingest.platform request) k = 0).
  { intros k Hk. unfold Ingest.processAndStoreReviews.
    rewrite loop_rows_other by tauto. apply Hnone. }
  cbv zeta in Hstored1.
  destruct (Ingest.processAndStoreReviews db businessId _ [f1; s1])
    as [[dbA doneA] logA].
  cbn [fst snd] in *. destruct Hstored1 as (_ & _ & HlenA).
  (* the second fetch *)
  assert (HbA : select_business dbA businessId = Some business)
    by (unfold select_business in *; rewrite Hbusinesses; exact Hb).
  pose proof (select_business_stamped dbA businessId stamp1 business HbA)
    as Hstamped.
  rewrite (serve_accepted _ _ req request businessId _
             (conj Hm (conj Hj (conj Hi (conj Hp Hstamped))))).
  rewrite Hforced.
  destruct (mock_fetch toISOString now2 stamp2 clock2
                       (Ingest.platform request)
                       {| Business.id := Business.id business;
                          Business.google_place_id :=
                            Business.google_place_id business;
                          Business.yelp_business_id :=
                            Business.yelp_business_id business;
                          Business.last_review_fetch := Some stamp1 |}
                       Hplatform)
    as (f2 & s2 & Hfetch2 & Hf2 & Hs2 & Hrf2 & Hrs2 & [tf2 Hdf2] & [ts2 Hds2]).
  rewrite Hfetch2.
  destruct (select_business_on_record _ businessId _ Hstamped)
    as [Hrecord1 _].
  assert (Hnew_f2 :
            rows_with_key (update_last_review_fetch dbA businessId stamp1)
                          businessId (Ingest.platform request)
                          (Ingest.ReviewData.platform_review_id f2) = 0).
  { rewrite rows_with_key_stamped. apply Hother.
    cbn [map In]. rewrite Hf1, Hs1, Hf2.
    intros [H | [H | []]].
    - apply Hfirst_ne. apply show_injective.
      destruct Hplatform as [Hpf | Hpf]; rewrite Hpf in H.
      + exact (prefixed_cancel "google_" _ _ "_1" H).
      + exact (prefixed_cancel "yelp_" _ _ "_1" H).
    - symmetry in H. destruct Hplatform as [Hpf | Hpf]; rewrite Hpf in H.
      + exact (prefixed_suffixes_differ "google_" _ _ H).
      + exact (prefixed_suffixes_differ "yelp_" _ _ H). }
  assert (Hnew_s2 :
            rows_with_key (update_last_review_fetch dbA businessId stamp1)
                          businessId (Ingest.platform request)
                          (Ingest.ReviewData.platform_review_id s2) = 0).
  { rewrite rows_with_key_stamped. apply Hother.
    cbn [map In]. rewrite Hf1, Hs1, Hs2.
    intros [H | [H | []]].
    - destruct Hplatform as [Hpf | Hpf]; rewrite Hpf in H.
      + exact (prefixed_suffixes_differ "google_" _ _ H).
      + exact (prefixed_suffixes_differ "yelp_" _ _ H).
    - apply Hsecond_ne. apply show_injective.
      destruct Hplatform as [Hpf | Hpf]; rewrite Hpf in H.
      + exact (prefixed_cancel "google_" _ _ "_2" H).
      + exact (prefixed_cancel "yelp_" _ _ "_2" H). }
  pose proof (mock_batch_stored
                (update_last_review_fetch dbA businessId stamp1)
                businessId (Ingest.platform request)
                f2 s2 _ _ Hplatform Hrecord1 Hf2 Hs2 Hrf2 Hrs2
                ltac:(cbn [timestamptz_in update_last_review_fetch];
                      rewrite Htimestamps, Hdf2; apply Hdates)
                ltac:(cbn [timestamptz_in update_last_review_fetch];
                      rewrite Htimestamps, Hds2; apply Hdates)
                Hnew_f2 Hnew_s2) as Hstored2.
  cbv zeta in Hstored2.
  destruct (Ingest.processAndStoreReviews _ businessId _ [f2; s2])
    as [[dbB doneB] logB].
  cbn [fst snd reviews update_last_review_fetch] in *.
  destruct Hstored2 as (HdoneB & HlogB & HlenB).
  rewrite HdoneB. repeat split; [assumption | lia].
Qed.

(** At the sample store and two readings of the clock a minute apart. *)
Lemma mock_fetch_repeated_stores_again_witness :
  List.length
    (reviews
       (fst (fst (Ingest.serve
                    (Mock.world (fun _ => "2023-11-14T22:14:20.000Z")
                                Sample.noon (Sample.noon + 250)%float
                                {| Mock.first_id := 1700000060000;
                                   Mock.first_date := 1700000060000;
                                   Mock.second_id := 1700000060000;
                                   Mock.second_date := 1700000060000 |})
                    (fst (fst (Ingest.serve
                                 (Mock.world
                                    (fun _ => "2023-11-14T22:14:20.000Z")
                                    Sample.noon (Sample.noon + 250)%float
                                    {| Mock.first_id := 1700000000000;
                                       Mock.first_date := 1700000000000;
                                       Mock.second_id := 1700000000000;
                                       Mock.second_date := 1700000000000 |})
                                 Sample.empty_store
                                 (Sample.fetch_google true))))
                    (Sample.fetch_google true)))))
  = List.length (reviews Sample.empty_store) + 4.
Proof.
  apply (mock_fetch_repeated_stores_again
           (fun _ => "2023-11-14T22:14:20.000Z")
           Sample.noon (Sample.noon + 250)%float
           {| Mock.first_id := 1700000000000;
              Mock.first_date := 1700000000000;
              Mock.second_id := 1700000000000;
              Mock.second_date := 1700000000000 |}
           Sample.noon (Sample.noon + 250)%float
           {| Mock.first_id := 1700000060000;
              Mock.first_date := 1700000060000;
              Mock.second_id := 1700000060000;
              Mock.second_date := 1700000060000 |}
           Sample.empty_store (Sample.fetch_google true)
           {| Ingest.business_id := Some 1;
              Ingest.platform := "google";
              Ingest.force_refresh := true |}
           1 Sample.cafe).
  - intros t. reflexivity.
  - repeat split; simpl; discriminate.
  - reflexivity.
  - left. reflexivity.
  - intros k. reflexivity.
  - simpl. discriminate.
  - simpl. discriminate.
Defined.

(* ================================================================== *)
(** ** Classifying again, and terms inside terms *)
(* ================================================================== *)





Lemma string_append_assoc (a b c : string) :
  ((a ++ b) ++ c)%string = (a ++ b ++ c)%string.
Proof. induction a as [|x a IH]; simpl; [|rewrite IH]; reflexivity. Qed.

Lemma countHits_member (t w : string) (ws : list string) :
  In w ws -> includes t w = true -> 1 <= countHits t ws.
Proof.
  intros Hin Hinc. rewrite countHits_filter.
  assert (Hf : In w (filter (includes t) ws))
    by (apply filter_In; split; assumption).
  destruct (filter (includes t) ws); [destruct Hf | simpl; lia].
Qed.

(** With at least one term of each lexicon the score is strictly inside
    (-1, 1). *)
Lemma mixed_table :
  Scoring.below 22 (fun p => Scoring.below 22 (fun n =>
    if ((1 <=? p) && (1 <=? n))%nat
    then (-1 <? Scoring.score p n)%float
         && (Scoring.score p n <? 1)%float = true
    else True)).
Proof.
  vm_compute. repeat split.
Qed.

(** X22: terms are matched as substrings, and the negative term
    "uncomfortable" holds the positive term "comfortable": every text
    that contains "uncomfortable" is counted a positive term as well as
    a negative one, so its score is never -1. *)
Theorem uncomfortable_counts_as_comfortable (random : number) (text : string) :
  includes (toLowerCase text) "uncomfortable" = true ->
  let r := analyzeSentiment random text in
  1 <= positive_words_found (analysis_metadata r)
  /\ 1 <= negative_words_found (analysis_metadata r)
  /\ num_lt (-1) (sentiment_score r)
  /\ num_lt (sentiment_score r) 1.
Proof.
  intros Hun. cbv zeta.
  assert (Hcomfortable : includes (toLowerCase text) "comfortable" = true).
  { apply includes_spec. apply includes_spec in Hun.
    destruct Hun as (pre & post & Hun).
    exists (pre ++ "un")%string, post. rewrite Hun.
    rewrite string_append_assoc. reflexivity. }
  assert (Hp : 1 <= countHits (toLowerCase text) positiveWords)
    by (apply (countHits_member _ "comfortable");
        [simpl; tauto | exact Hcomfortable]).
  assert (Hn : 1 <= countHits (toLowerCase text) negativeWords)
    by (apply (countHits_member _ "uncomfortable");
        [simpl; tauto | exact Hun]).
  rewrite (analyzeSentiment_eq random text). cbv zeta.
  cbn [analysis_metadata positive_words_found negative_words_found
       sentiment_score].
  pose proof (positiveCount_bound (toLowerCase text)) as Hpb.
  pose proof (negativeCount_bound (toLowerCase text)) as Hnb.
  revert Hp Hn Hpb Hnb.
  generalize (countHits (toLowerCase text) positiveWords) as p.
  generalize (countHits (toLowerCase text) negativeWords) as n.
  intros n p Hp Hn Hpb Hnb.
  pose proof (below_spec 22 _ mixed_table p ltac:(lia)) as Hrow.
  pose proof (below_spec 22 _ Hrow n ltac:(lia)) as Hmixed.
  cbv beta in Hmixed.
  replace (1 <=? p)%nat with true in Hmixed
    by (symmetry; apply Nat.leb_le; exact Hp).
  replace (1 <=? n)%nat with true in Hmixed
    by (symmetry; apply Nat.leb_le; exact Hn).
  cbn [andb] in Hmixed. apply andb_true_iff in Hmixed.
  unfold num_lt. tauto.
Qed.

(** At a review that is nothing but negative. *)
Lemma uncomfortable_counts_as_comfortable_witness :
  1 <= positive_words_found
         (analysis_metadata
            (analyzeSentiment 0 "The chairs were uncomfortable.")).
Proof.
  apply (uncomfortable_counts_as_comfortable
           0%float "The chairs were uncomfortable.").
  reflexivity.
Defined.
